(** * sequelize-auto: the text generator ([src/auto-generator.ts])

    A shallow embedding of the [AutoGenerator] class and the properties of
    its type mapping, default-value handling, attribute, association and
    option emission.

    Conventions of the embedding.
    - A JavaScript string is a [string]: a sequence of 8-bit code units.
      Case conversion and the white-space class are the ASCII ones, which is
      what [toLowerCase], [toUpperCase], [trim] and the [/i] flag do on
      ASCII text ([Js.isAscii]); other code units are left alone, so a
      statement that rests on the case conversion of a name given by the
      caller takes that name to be ASCII text.
    - A JavaScript object whose keys are enumerated ([_.keys], [forEach]) is
      an association list in enumeration order, read with [Obj.get] (first
      binding) and written with [Obj.set] (in place, or appended when the key
      is new).  These are the own properties.  A read [o[k]] of a key that
      [o] does not own finds the members of [Object.prototype]
      ([Obj.inherited]): [hasTriggerTables[table]] and [indexes[table]],
      whose value the code only tests, are read that way; the reads
      [foreignKeys[table][field]] and [tables[table][field]] are reads of
      own properties, which is what they are when the table and the
      column are not named like such members ([plainNames]).
    - An exception ([TypeError], or [RangeError] when the call stack runs
      out) is the [Throw] result; recursion that JavaScript bounds only by
      its stack takes the stack depth as fuel.
    - Mutation of [this] and [console.log] go through the monad [M]: the
      instance holds the very objects it was given ([tableData], [options]),
      so a write to [this.tables] or [this.options] is a write to the input.
    - Numbers are integers that a [number] holds exactly and prints in
      decimal: no more than [2^53 - 1] in absolute value ([safeValue]).
      [options.additional] is an object or [undefined].
    - [recase], [qNameSplit] and [pluralize] come from [./types] and are
      parameters.  The private methods [getTypeScriptPrimaryKeys] and
      [addSchemaForRelations], which nothing calls, are left out. *)

From Stdlib Require Import String Ascii List ZArith Bool Arith Lia DecimalString.
Import ListNotations.
Open Scope string_scope.
Open Scope bool_scope.

(** ** JavaScript strings *)
Module Js.

Definition code (c : ascii) : nat := nat_of_ascii c.

Definition between (lo hi : nat) (c : ascii) : bool :=
  Nat.leb lo (code c) && Nat.leb (code c) hi.

Definition isUpper : ascii -> bool := between 65 90.
Definition isLower : ascii -> bool := between 97 122.
(** [\d] *)
Definition isDigit : ascii -> bool := between 48 57.
(** White space and line terminators removed by [trim] (ASCII part). *)
Definition isWhite (c : ascii) : bool := between 9 13 c || between 32 32 c.

Definition lowerChar (c : ascii) : ascii :=
  if isUpper c then ascii_of_nat (code c + 32) else c.
Definition upperChar (c : ascii) : ascii :=
  if isLower c then ascii_of_nat (code c - 32) else c.

Fixpoint mapChars (f : ascii -> ascii) (s : string) : string :=
  match s with
  | EmptyString => EmptyString
  | String c r => String (f c) (mapChars f r)
  end.

(** [s.toLowerCase()] and [s.toUpperCase()] on ASCII text ([isAscii]
    below); the patterns that the generator compares the results with
    are ASCII text. *)
Definition toLowerCase : string -> string := mapChars lowerChar.
Definition toUpperCase : string -> string := mapChars upperChar.

(** [s.startsWith(p)], the test of [/^p/] for a literal [p]. *)
Fixpoint startsWith (s p : string) : bool :=
  match p, s with
  | EmptyString, _ => true
  | String a p', String b s' => Ascii.eqb a b && startsWith s' p'
  | String _ _, EmptyString => false
  end.

(** [s.includes(p)], the test of [/p/] for a literal [p]. *)
Fixpoint includes (s p : string) : bool :=
  startsWith s p ||
  match s with
  | EmptyString => false
  | String _ r => includes r p
  end.

(** [_.endsWith(s, p)], the test of [/p$/] for a literal [p]. *)
Fixpoint endsWith (s p : string) : bool :=
  String.eqb s p ||
  match s with
  | EmptyString => false
  | String _ r => endsWith r p
  end.

Fixpoint drop (n : nat) (s : string) : string :=
  match n, s with
  | O, _ => s
  | S n', String _ r => drop n' r
  | S _, EmptyString => EmptyString
  end.

Fixpoint take (n : nat) (s : string) : string :=
  match n, s with
  | S n', String c r => String c (take n' r)
  | _, _ => EmptyString
  end.

(** [s.substring(a, b)]: both ends clamped to [0 .. length], swapped when
    out of order. *)
Definition substring (s : string) (a b : Z) : string :=
  let len := Z.of_nat (String.length s) in
  let clamp (x : Z) := Z.to_nat (Z.min (Z.max x 0) len) in
  let a' := clamp a in
  let b' := clamp b in
  let lo := Nat.min a' b' in
  let hi := Nat.max a' b' in
  take (hi - lo) (drop lo s).

(** [s.repeat(n)] *)
Fixpoint repeat (s : string) (n : nat) : string :=
  match n with
  | O => EmptyString
  | S n' => s ++ repeat s n'
  end.

Fixpoint dropWhile (p : ascii -> bool) (s : string) : string :=
  match s with
  | EmptyString => EmptyString
  | String c r => if p c then dropWhile p r else s
  end.

(** Removes the longest suffix made of characters satisfying [p]. *)
Fixpoint dropEndWhile (p : ascii -> bool) (s : string) : string :=
  match s with
  | EmptyString => EmptyString
  | String c r =>
      match dropEndWhile p r with
      | EmptyString => if p c then EmptyString else String c EmptyString
      | r' => String c r'
      end
  end.

(** [s.trim()] *)
Definition trim (s : string) : string :=
  dropWhile isWhite (dropEndWhile isWhite s).

(** [s.replace(/c/g, r)] for one character [c] and a replacement text
    without [$]. *)
Fixpoint replaceChar (c : ascii) (r : string) (s : string) : string :=
  match s with
  | EmptyString => EmptyString
  | String a t =>
      (if Ascii.eqb a c then r else String a EmptyString) ++ replaceChar c r t
  end.

(** [s.replace(/[)(]/g, '')] and the like: deletes the characters
    satisfying [p]. *)
Fixpoint removeChars (p : ascii -> bool) (s : string) : string :=
  match s with
  | EmptyString => EmptyString
  | String a t => if p a then removeChars p t else String a (removeChars p t)
  end.

(** [s.replace(/^c/, '')] *)
Definition stripFirst (c : ascii) (s : string) : string :=
  match s with
  | String a t => if Ascii.eqb a c then t else s
  | EmptyString => EmptyString
  end.

(** [s.replace(/c$/, '')] *)
Fixpoint stripLast (c : ascii) (s : string) : string :=
  match s with
  | EmptyString => EmptyString
  | String a EmptyString => if Ascii.eqb a c then EmptyString else s
  | String a t => String a (stripLast c t)
  end.

(** [s.split(c)] for a one-character separator. *)
Fixpoint splitAux (c : ascii) (cur : string) (s : string) : list string :=
  match s with
  | EmptyString => [cur]
  | String a t =>
      if Ascii.eqb a c then cur :: splitAux c EmptyString t
      else splitAux c (cur ++ String a EmptyString) t
  end.
Definition split (c : ascii) (s : string) : list string :=
  splitAux c EmptyString s.

(** [l.join(sep)] *)
Fixpoint join (sep : string) (l : list string) : string :=
  match l with
  | [] => EmptyString
  | [x] => x
  | x :: r => x ++ sep ++ join sep r
  end.

(** The expansion of a replacement text ([GetSubstitution]) for a pattern
    without capture groups: [$$], [$&], [$`] and [$'] are special, every
    other character stands for itself. *)
Fixpoint substitution (repl matched before after : string) : string :=
  match repl with
  | EmptyString => EmptyString
  | String "$" (String "$" r) => String "$" (substitution r matched before after)
  | String "$" (String "&" r) => matched ++ substitution r matched before after
  | String "$" (String "`" r) => before ++ substitution r matched before after
  | String "$" (String "'" r) => after ++ substitution r matched before after
  | String c r => String c (substitution r matched before after)
  end.

(** [s.replace(new RegExp(pat, 'g'), repl)] for a literal, non-empty
    [pat]: the matches are found left to right without overlap; [skip]
    counts the characters of the current match still to be passed and
    [before] is the text already passed. *)
Fixpoint replaceAllAux (pat repl : string) (skip : nat) (before s : string)
  : string :=
  match s with
  | EmptyString => EmptyString
  | String c r =>
      match skip with
      | S k => replaceAllAux pat repl k (before ++ String c EmptyString) r
      | O =>
          if startsWith s pat then
            substitution repl pat before (drop (String.length pat) s)
            ++ replaceAllAux pat repl (String.length pat - 1)
                 (before ++ String c EmptyString) r
          else
            String c (replaceAllAux pat repl 0 (before ++ String c EmptyString) r)
      end
  end.
Definition replaceAll (pat repl s : string) : string :=
  replaceAllAux pat repl 0 EmptyString s.

(** Decimal text of an integer number. *)
Definition ofZ (z : Z) : string := NilEmpty.string_of_int (Z.to_int z).

Definition ofBool (b : bool) : string := if b then "true" else "false".

Fixpoint allChars (p : ascii -> bool) (s : string) : bool :=
  match s with
  | EmptyString => true
  | String c r => p c && allChars p r
  end.

(** ASCII text: on it the case conversions above are those of
    JavaScript. *)
Definition isAscii (s : string) : bool :=
  allChars (fun c => Nat.ltb (code c) 128) s.

Fixpoint takeWhile (p : ascii -> bool) (s : string) : string :=
  match s with
  | EmptyString => EmptyString
  | String c r => if p c then String c (takeWhile p r) else EmptyString
  end.

(** The first alternative of [alts], in order, that [s] starts with: the
    match of [/^(a|b|...)/]. *)
Fixpoint prefixMatch (alts : list string) (s : string) : option string :=
  match alts with
  | [] => None
  | a :: r => if startsWith s a then Some a else prefixMatch r s
  end.

Definition startsWithAny (alts : list string) (s : string) : bool :=
  match prefixMatch alts s with Some _ => true | None => false end.

Definition includesAny (alts : list string) (s : string) : bool :=
  existsb (includes s) alts.

(** The leftmost match of a pattern given by its anchored matcher. *)
Fixpoint firstMatch (matchAt : string -> option string) (s : string)
  : option string :=
  match matchAt s with
  | Some m => Some m
  | None =>
      match s with
      | EmptyString => None
      | String _ r => firstMatch matchAt r
      end
  end.

End Js.

(** ** The regular expressions of the generator that are not plain prefix,
    suffix or substring tests *)
Module Re.
Import Js.

(** [/\(\d+\)/] at the start of [s]. *)
Definition lengthAt (s : string) : option string :=
  match s with
  | String "(" r =>
      match takeWhile isDigit r, dropWhile isDigit r with
      | String d ds, String ")" _ => Some ("(" ++ String d ds ++ ")")
      | _, _ => None
      end
  | _ => None
  end.

(** [/\(\d+,\d+\)/] at the start of [s]. *)
Definition precisionAt (s : string) : option string :=
  match s with
  | String "(" r =>
      match takeWhile isDigit r, dropWhile isDigit r with
      | String d ds, String "," r2 =>
          match takeWhile isDigit r2, dropWhile isDigit r2 with
          | String e es, String ")" _ =>
              Some ("(" ++ String d ds ++ "," ++ String e es ++ ")")
          | _, _ => None
          end
      | _, _ => None
      end
  | _ => None
  end.

(** [type.match(/\(\d+\)/)] *)
Definition length : string -> option string := firstMatch lengthAt.
(** [type.match(/\(\d+,\d+\)/)] *)
Definition precision : string -> option string := firstMatch precisionAt.

(** [.] matches anything but a line terminator. *)
Definition notLineTerminator (c : ascii) : bool :=
  negb (Ascii.eqb c "010" || Ascii.eqb c "013").

(** [/^enum(\(.*\))?$/] *)
Definition enumType (s : string) : bool :=
  String.eqb s "enum" ||
  (startsWith s "enum(" && endsWith (drop 5 s) ")"
   && allChars notLineTerminator (drop 5 s)).

Definition isIdentStart (c : ascii) : bool :=
  isUpper c || isLower c || Ascii.eqb c "$" || Ascii.eqb c "_".
Definition isIdentPart (c : ascii) : bool := isIdentStart c || isDigit c.

(** [/^[$A-Z_][0-9A-Z_$]*$/i] *)
Definition identifier (s : string) : bool :=
  match s with
  | EmptyString => false
  | String c r => isIdentStart c && allChars isIdentPart r
  end.

(** [/1|true/i] *)
Definition oneOrTrue (s : string) : bool :=
  includes s "1" || includes (toLowerCase s) "true".

Definition isParen (c : ascii) : bool := Ascii.eqb c ")" || Ascii.eqb c "(".

End Re.

(** ** Objects, values and exceptions *)
Module Obj.

(** An object as its bindings in enumeration order. *)
Definition t (A : Type) : Type := list (string * A).

Fixpoint get {A} (k : string) (o : t A) : option A :=
  match o with
  | [] => None
  | (k', v) :: r => if String.eqb k' k then Some v else get k r
  end.

Definition has {A} (k : string) (o : t A) : bool :=
  match get k o with Some _ => true | None => false end.

(** [o[k] = v] *)
Fixpoint set {A} (k : string) (v : A) (o : t A) : t A :=
  match o with
  | [] => [(k, v)]
  | (k', v') :: r =>
      if String.eqb k' k then (k, v) :: r else (k', v') :: set k v r
  end.

(** [_.keys(o)] *)
Definition keys {A} (o : t A) : list string := map fst o.
(** [Object.values(o)] *)
Definition values {A} (o : t A) : list A := map snd o.

(** The members that a plain object inherits from [Object.prototype],
    each with its [length] when it is a function ([__proto__] is the
    prototype itself, an object without [length]). *)
Definition protoMembers : list (string * option nat) :=
  [("constructor", Some 1); ("__defineGetter__", Some 2);
   ("__defineSetter__", Some 2); ("hasOwnProperty", Some 1);
   ("__lookupGetter__", Some 1); ("__lookupSetter__", Some 1);
   ("isPrototypeOf", Some 1); ("propertyIsEnumerable", Some 1);
   ("toString", Some 0); ("valueOf", Some 0); ("__proto__", None);
   ("toLocaleString", Some 0)]%nat.

(** [k] names an inherited member: [o[k]] is a function or an object, so
    truthy, for every plain object [o] that does not own [k]. *)
Definition inherited (k : string) : bool :=
  match get k protoMembers with Some _ => true | None => false end.

(** [o[k].length] for an inherited function [o[k]]. *)
Definition inheritedLength (k : string) : option nat :=
  match get k protoMembers with Some n => n | None => None end.

End Obj.

Inductive Error : Type :=
| TypeError
| RangeError.

Inductive result (A : Type) : Type :=
| Ok (a : A)
| Throw (e : Error).
Arguments Ok {A} a.
Arguments Throw {A} e.

Definition rbind {A B} (r : result A) (k : A -> result B) : result B :=
  match r with
  | Ok a => k a
  | Throw e => Throw e
  end.

Notation "'let*' x ':=' r 'in' k" := (rbind r (fun x => k))
  (at level 10, x pattern, r at level 100, k at level 200).

(** Modelled from the spec: the declaration of [FKSpec] lives in
    [./dialects/dialect-options], outside [src/]; the record has the
    members that [auto-generator.ts] reads (section 3, Foreign Key
    Descriptor: target table and column, generation strategy and the
    is-unique, is-primary-key, is-foreign-key and is-serial-key flags). *)
Module FKSpec.
Record t : Type := mk {
  isForeignKey : bool;
  isSerialKey : bool;
  isPrimaryKey : bool;
  (** [boolean | string]: a flag or the name of the unique constraint *)
  isUnique : bool + string;
  generation : option string;
  (** [foreignSources.target_table] *)
  target_table : option string;
  (** [foreignSources.target_column] *)
  target_column : option string
}.
End FKSpec.

(** The values found in a column descriptor and in [options.additional]. *)
Inductive JsVal : Type :=
| VUndef
| VNull
| VBool (b : bool)
| VNum (n : Z)
| VStr (s : string)
| VArr (l : list string)
| VFK (fk : FKSpec.t).

(** A column descriptor ([ColumnDescription], [Field], [TSField]): its
    attributes are enumerated by [addField]. *)
Definition Field : Type := Obj.t JsVal.

(** [o[k]] or [o.k]: [undefined] when the key is missing. *)
Definition prop (o : Obj.t JsVal) (k : string) : JsVal :=
  match Obj.get k o with
  | Some v => v
  | None => VUndef
  end.

Definition optString (o : option string) : string :=
  match o with
  | Some s => s
  | None => "undefined"
  end.

(** String conversion as done by [+] and by template literals.  A number
    is printed in decimal, as JavaScript prints the integers up to
    [2^53 - 1] ([safeValue] below). *)
Definition toString (v : JsVal) : string :=
  match v with
  | VUndef => "undefined"
  | VNull => "null"
  | VBool b => Js.ofBool b
  | VNum n => Js.ofZ n
  | VStr s => s
  | VArr l => Js.join "," l
  | VFK _ => "[object Object]"
  end.

Definition truthy (v : JsVal) : bool :=
  match v with
  | VUndef | VNull => false
  | VBool b => b
  | VNum n => negb (Z.eqb n 0)
  | VStr s => negb (String.eqb s "")
  | VArr _ | VFK _ => true
  end.

Definition truthyStr (s : string) : bool := negb (String.eqb s "").

(** [v === s] for a string [s]. *)
Definition isStr (v : JsVal) (s : string) : bool :=
  match v with
  | VStr s' => String.eqb s' s
  | _ => false
  end.

(** [v === b] for a boolean [b]. *)
Definition isBool (v : JsVal) (b : bool) : bool :=
  match v with
  | VBool b' => Bool.eqb b' b
  | _ => false
  end.

(** The foreign-key descriptor held by a value: any other truthy value has
    none of its properties. *)
Definition asFK (v : JsVal) : option FKSpec.t :=
  match v with
  | VFK fk => Some fk
  | _ => None
  end.

Definition uniqueVal (u : bool + string) : JsVal :=
  match u with
  | inl b => VBool b
  | inr s => VStr s
  end.

(** Modelled from the spec: [Relation] is declared in [./types], outside
    [src/]; the record has the members read by [addTable] (section 3,
    Relation Descriptor). *)
Module Relation.
Record t : Type := mk {
  parentId : string;
  parentModel : string;
  parentProp : string;
  childModel : string;
  childProp : string;
  childId : option string;
  joinModel : option string;
  isOne : bool;
  isM2M : bool
}.
End Relation.

(** Modelled from the spec: [IndexSpec] is declared in [./types], outside
    [src/]; [addIndexes] tests its members for truthiness and prints them
    (section 3, Index Descriptor), so an absent member is the empty
    string. *)
Module IndexField.
Record t : Type := mk {
  attribute : string;
  collate : string;
  length : string;
  order : string
}.
End IndexField.

Module IndexSpec.
Record t : Type := mk {
  name : string;
  unique : bool;
  type : string;
  fields : list IndexField.t
}.
End IndexSpec.

(** Modelled from the spec: [DialectOptions] is declared in
    [./dialects/dialect-options], outside [src/] (section 6: name,
    schema-support flag, identity/serial-key predicate); [canAliasPK] is
    read as a flag. *)
Module DialectOptions.
Record t : Type := mk {
  name : string;
  hasSchema : bool;
  canAliasPK : bool;
  isSerialKey : option (Field -> bool)
}.
End DialectOptions.

Module Options.
Record t : Type := mk {
  indentation : option Z;
  spaces : option bool;
  lang : option string;
  caseModel : option string;
  caseProp : option string;
  caseFile : option string;
  additional : option (Obj.t JsVal);
  schema : option string;
  singularize : bool;
  noAlias : option bool
}.

Definition with_lang (v : option string) (o : t) : t :=
  mk (indentation o) (spaces o) v (caseModel o) (caseProp o) (caseFile o)
     (additional o) (schema o) (singularize o) (noAlias o).

Definition with_noAlias (v : option bool) (o : t) : t :=
  mk (indentation o) (spaces o) (lang o) (caseModel o) (caseProp o)
     (caseFile o) (additional o) (schema o) (singularize o) v.
End Options.

Module TableData.
Record t : Type := mk {
  tables : Obj.t (Obj.t Field);
  foreignKeys : Obj.t (Obj.t FKSpec.t);
  hasTriggerTables : Obj.t bool;
  indexes : Obj.t (list IndexSpec.t);
  relations : list Relation.t
}.
End TableData.

(** The members of an [AutoGenerator] instance. *)
Record AutoGenerator : Type := mkAutoGenerator {
  dialect : DialectOptions.t;
  tables : Obj.t (Obj.t Field);
  foreignKeys : Obj.t (Obj.t FKSpec.t);
  hasTriggerTables : Obj.t bool;
  indexes : Obj.t (list IndexSpec.t);
  relations : list Relation.t;
  space : list string;
  options : Options.t
}.

Definition with_tables (v : Obj.t (Obj.t Field)) (g : AutoGenerator)
  : AutoGenerator :=
  mkAutoGenerator (dialect g) v (foreignKeys g) (hasTriggerTables g)
    (indexes g) (relations g) (space g) (options g).

Definition with_options (v : Options.t) (g : AutoGenerator) : AutoGenerator :=
  mkAutoGenerator (dialect g) (tables g) (foreignKeys g) (hasTriggerTables g)
    (indexes g) (relations g) (space g) v.

(** ** The monad of the methods: the instance, the console, exceptions *)
Record World : Type := mkWorld {
  self : AutoGenerator;
  console : list string
}.

Definition M (A : Type) : Type := World -> result A * World.

Definition ret {A} (a : A) : M A := fun w => (Ok a, w).

Definition bind {A B} (m : M A) (k : A -> M B) : M B :=
  fun w =>
    match m w with
    | (Ok a, w') => k a w'
    | (Throw e, w') => (Throw e, w')
    end.

Notation "x <- m ;; k" := (bind m (fun x => k))
  (at level 61, m at next level, right associativity).
Notation "m ;;; k" := (bind m (fun _ => k))
  (at level 61, right associativity).

(** A computation that may throw and touches nothing. *)
Definition lift {A} (r : result A) : M A := fun w => (r, w).

Definition this : M AutoGenerator := fun w => (Ok (self w), w).

Definition modify (f : AutoGenerator -> AutoGenerator) : M unit :=
  fun w => (Ok tt, mkWorld (f (self w)) (console w)).

(** [console.log(msg)] *)
Definition log (msg : string) : M unit :=
  fun w => (Ok tt, mkWorld (self w) (console w ++ [msg])).

(** [l.forEach(x => ...)] with an accumulator for the captured locals. *)
Fixpoint forEach {A S} (l : list A) (f : S -> A -> M S) (s : S) : M S :=
  match l with
  | [] => ret s
  | x :: r => s' <- f s x ;; forEach r f s'
  end.

(** [_.some(l, p)]: stops at the first element that satisfies [p]. *)
Fixpoint some {A} (l : list A) (p : A -> M bool) : M bool :=
  match l with
  | [] => ret false
  | x :: r => b <- p x ;; if b then ret true else some r p
  end.

(** ** Type predicates and small helpers of the class *)

Definition isNumber (fieldType : string) : bool :=
  Js.startsWithAny
    ["smallint"; "mediumint"; "tinyint"; "int"; "bigint"; "float"; "money";
     "smallmoney"; "double"; "decimal"; "numeric"; "real"] fieldType.

Definition isBoolean (fieldType : string) : bool :=
  Js.startsWithAny ["boolean"; "bit"] fieldType.

Definition isDate (fieldType : string) : bool :=
  Js.startsWithAny ["datetime"; "timestamp"] fieldType.

Definition isString (fieldType : string) : bool :=
  Js.startsWithAny
    ["char"; "nchar"; "string"; "varying"; "varchar"; "nvarchar"; "text";
     "longtext"; "mediumtext"; "tinytext"; "ntext"; "uuid";
     "uniqueidentifier"; "date"; "time"] fieldType.

(** [/(^array)|(range$)/] *)
Definition isArray (fieldType : string) : bool :=
  Js.startsWith fieldType "array" || Js.endsWith fieldType "range".

Definition isEnum (fieldType : string) : bool :=
  Js.startsWith fieldType "enum".

Definition backslash : string := String "092" EmptyString.

Definition escapeSpecial (val : string) : string :=
  Js.replaceChar "009" (backslash ++ "t")
   (Js.replaceChar "013" (backslash ++ "r")
    (Js.replaceChar "010" (backslash ++ "n")
     (Js.replaceChar "012" (backslash ++ "f")
      (Js.replaceChar "008" (backslash ++ "b")
       (Js.replaceChar "/" (backslash ++ "/")
        (Js.replaceChar "034" (backslash ++ String "034" EmptyString)
         (Js.replaceChar "092" (backslash ++ backslash) val))))))).

(** Quote the name if it is not a valid identifier *)
Definition quoteName (name : string) : string :=
  if Re.identifier name then name else "'" ++ name ++ "'".

Definition getEnumValues (fieldObj : Field) : result (list string) :=
  match prop fieldObj "special" with
  | VArr special =>
      (* postgres *)
      Ok (map (fun v => String "034" EmptyString ++ v ++ String "034" EmptyString)
              special)
  | v =>
      if truthy v then Throw TypeError (* no [map] on such a value *)
      else
        (* mysql *)
        match prop fieldObj "type" with
        | VStr type =>
            Ok (Js.split ","
                  (Js.substring type 5 (Z.of_nat (String.length type) - 1)))
        | _ => Throw TypeError
        end
  end.

Definition orEmpty (m : option string) : string :=
  match m with
  | Some x => x
  | None => ""
  end.

(** Get the sequelize type from the Field.  The result is a string, [null]
    when no rule applies, or the attribute itself when it is not a string. *)
Fixpoint getSqType (stack : nat) (fieldObj : Field) (attr : string)
  : result JsVal :=
  match stack with
  | O => Throw RangeError
  | S stack' =>
      match prop fieldObj attr with
      | VUndef | VNull => Throw TypeError
      | VStr attrValue =>
          let type := Js.toLowerCase attrValue in
          let length := Re.length type in
          let precision := Re.precision type in
          if String.eqb type "boolean" || String.eqb type "bit(1)"
             || String.eqb type "bit" || String.eqb type "tinyint(1)" then
            Ok (VStr "DataTypes.BOOLEAN")
          else if String.eqb type "numrange" then
            Ok (VStr "DataTypes.RANGE(DataTypes.DECIMAL)")
          else if String.eqb type "int4range" then
            Ok (VStr "DataTypes.RANGE(DataTypes.INTEGER)")
          else if String.eqb type "int8range" then
            Ok (VStr "DataTypes.RANGE(DataTypes.BIGINT)")
          else if String.eqb type "daterange" then
            Ok (VStr "DataTypes.RANGE(DataTypes.DATEONLY)")
          else if String.eqb type "tsrange" || String.eqb type "tstzrange" then
            Ok (VStr "DataTypes.RANGE(DataTypes.DATE)")
          else
          match Js.prefixMatch
                  ["bigint"; "smallint"; "mediumint"; "tinyint"; "int"] type with
          | Some typematch =>
              Ok (VStr ("DataTypes."
                        ++ (if String.eqb typematch "int" then "INTEGER"
                            else Js.toUpperCase typematch)
                        ++ (if Js.includes (Js.toLowerCase type) "unsigned"
                            then ".UNSIGNED" else "")
                        ++ (if Js.includes (Js.toLowerCase type) "zerofill"
                            then ".ZEROFILL" else "")))
          | None =>
          if String.eqb type "nvarchar(max)" || String.eqb type "varchar(max)" then
            Ok (VStr "DataTypes.TEXT")
          else if Js.includesAny ["varchar"; "string"; "varying"] type then
            Ok (VStr ("DataTypes.STRING" ++ orEmpty length))
          else if Js.startsWithAny ["char"; "nchar"] type then
            Ok (VStr ("DataTypes.CHAR" ++ orEmpty length))
          else if Js.startsWith type "real" then
            Ok (VStr "DataTypes.REAL")
          else if Js.endsWith type "text" then
            Ok (VStr ("DataTypes.TEXT" ++ orEmpty length))
          else if String.eqb type "date" then
            Ok (VStr "DataTypes.DATEONLY")
          else if Js.startsWithAny ["date"; "timestamp"] type then
            Ok (VStr ("DataTypes.DATE" ++ orEmpty length))
          else if Js.startsWith type "time" then
            Ok (VStr "DataTypes.TIME")
          else if Js.startsWithAny ["float"; "float4"] type then
            Ok (VStr ("DataTypes.FLOAT" ++ orEmpty precision))
          else if Js.startsWithAny ["decimal"; "numeric"] type then
            Ok (VStr ("DataTypes.DECIMAL" ++ orEmpty precision))
          else if Js.startsWith type "money" then
            Ok (VStr "DataTypes.DECIMAL(19,4)")
          else if Js.startsWith type "smallmoney" then
            Ok (VStr "DataTypes.DECIMAL(10,4)")
          else if Js.startsWithAny ["float8"; "double"] type then
            Ok (VStr ("DataTypes.DOUBLE" ++ orEmpty precision))
          else if Js.startsWith type "uuid"
                  || Js.includes type "uniqueidentifier" then
            Ok (VStr "DataTypes.UUID")
          else if Js.startsWith type "jsonb" then
            Ok (VStr "DataTypes.JSONB")
          else if Js.startsWith type "json" then
            Ok (VStr "DataTypes.JSON")
          else if Js.startsWith type "geometry" then
            let gtype :=
              if truthy (prop fieldObj "elementType")
              then "(" ++ toString (prop fieldObj "elementType") ++ ")" else "" in
            Ok (VStr ("DataTypes.GEOMETRY" ++ gtype))
          else if Js.startsWith type "geography" then
            let gtype :=
              if truthy (prop fieldObj "elementType")
              then "(" ++ toString (prop fieldObj "elementType") ++ ")" else "" in
            Ok (VStr ("DataTypes.GEOGRAPHY" ++ gtype))
          else if Js.startsWith type "array" then
            let* eltype := getSqType stack' fieldObj "elementType" in
            Ok (VStr ("DataTypes.ARRAY(" ++ toString eltype ++ ")"))
          else if Js.includesAny ["binary"; "image"; "blob"] type then
            Ok (VStr "DataTypes.BLOB")
          else if Js.startsWith type "hstore" then
            Ok (VStr "DataTypes.HSTORE")
          else if Re.enumType type then
            let* enumValues := getEnumValues fieldObj in
            Ok (VStr ("DataTypes.ENUM(" ++ Js.join "," enumValues ++ ")"))
          else Ok VNull
          end
      | attrValue => Ok attrValue
      end
  end.

Definition dq : string := String "034" EmptyString.
(** The line feed. *)
Definition nl : string := String "010" EmptyString.

(** [this.space[i]] *)
Definition sp (g : AutoGenerator) (i : nat) : string := nth i (space g) "undefined".

(** [this.tables[table][field]], read among the own properties: the
    table and the column are not named like members of
    [Object.prototype]. *)
Definition fieldOf (g : AutoGenerator) (table field : string) : result Field :=
  match Obj.get table (tables g) with
  | Some t =>
      match Obj.get field t with
      | Some f => Ok f
      | None => Throw TypeError (* a property of [undefined] is read next *)
      end
  | None => Throw TypeError
  end.

(** [_.keys(this.tables[table])]: the own keys, none for a missing table
    and none for an inherited member. *)
Definition fieldsOf (g : AutoGenerator) (table : string) : list string :=
  match Obj.get table (tables g) with
  | Some t => Obj.keys t
  | None => []
  end.

Definition isTimestampField (field : string) : M bool :=
  g <- this ;;
  match Options.additional (options g) with
  | None => lift (Throw TypeError)
  | Some additional =>
      if isBool (prop additional "timestamps") false then ret false
      else
        ret (((negb (truthy (prop additional "createdAt"))
               && String.eqb (Js.toLowerCase field) "createdat")
              || isStr (prop additional "createdAt") field)
             || ((negb (truthy (prop additional "updatedAt"))
                  && String.eqb (Js.toLowerCase field) "updatedat")
                 || isStr (prop additional "updatedAt") field))
  end.

Definition isParanoidField (field : string) : M bool :=
  g <- this ;;
  match Options.additional (options g) with
  | None => lift (Throw TypeError)
  | Some additional =>
      if isBool (prop additional "timestamps") false
         || isBool (prop additional "paranoid") false then ret false
      else
        ret ((negb (truthy (prop additional "deletedAt"))
              && String.eqb (Js.toLowerCase field) "deletedat")
             || isStr (prop additional "deletedAt") field)
  end.

Fixpoint getTypeScriptFieldType (stack : nat) (fieldObj : Field) (attr : string)
  : M string :=
  match stack with
  | O => lift (Throw RangeError)
  | S stack' =>
      let rawFieldType :=
        if truthy (prop fieldObj attr) then prop fieldObj attr else VStr "" in
      let fieldType := Js.toLowerCase (toString rawFieldType) in
      if isArray fieldType then
        eltype <- getTypeScriptFieldType stack' fieldObj "elementType" ;;
        ret (eltype ++ "[]")
      else if isStr (prop fieldObj "type") "TINYINT(1)" then ret "boolean"
      else if isNumber fieldType then ret "number"
      else if isBoolean fieldType then ret "boolean"
      else if isDate fieldType then ret "Date"
      else if isString fieldType then ret "string"
      else if isEnum fieldType then
        values <- lift (getEnumValues fieldObj) ;;
        ret (Js.join " | " values)
      else if String.eqb fieldType "json" then ret "JSONValue"
      else
        log ("Missing TypeScript type: "
             ++ (if truthyStr fieldType then fieldType
                 else toString (prop fieldObj "type"))) ;;;
        ret "any"
  end.

Definition getTypeScriptType (stack : nat) (table field : string) : M string :=
  g <- this ;;
  fieldObj <- lift (fieldOf g table field) ;;
  getTypeScriptFieldType stack fieldObj "type".

Definition getIsAutoIncrement (table field : string) : M JsVal :=
  g <- this ;;
  fieldObj <- lift (fieldOf g table field) ;;
  ret (prop fieldObj "autoIncrement").

Definition getTypeScriptFieldOptional (table field : string) : M bool :=
  g <- this ;;
  fieldObj <- lift (fieldOf g table field) ;;
  if truthy (prop fieldObj "allowNull") then ret true
  else if truthy (prop fieldObj "defaultValue")
          || isStr (prop fieldObj "defaultValue") "" then ret true
  else isTimestampField field.

Definition addIndexes (g : AutoGenerator) (table : string) : result string :=
  match Obj.get table (indexes g) with
  | Some (i :: rest) =>
      Ok
     (sp g 2 ++ "indexes: [" ++ nl
      ++ fold_left
           (fun str idx =>
              str ++ sp g 3 ++ "{" ++ nl
              ++ (if truthyStr (IndexSpec.name idx)
                  then sp g 4 ++ "name: " ++ dq ++ IndexSpec.name idx ++ dq
                       ++ "," ++ nl
                  else "")
              ++ (if IndexSpec.unique idx
                  then sp g 4 ++ "unique: true," ++ nl
                  else "")
              ++ (if truthyStr (IndexSpec.type idx) then
                    if existsb (String.eqb (IndexSpec.type idx))
                         ["UNIQUE"; "FULLTEXT"; "SPATIAL"]
                    then sp g 4 ++ "type: " ++ dq ++ IndexSpec.type idx ++ dq
                         ++ "," ++ nl
                    else sp g 4 ++ "using: " ++ dq ++ IndexSpec.type idx ++ dq
                         ++ "," ++ nl
                  else "")
              ++ sp g 4 ++ "fields: [" ++ nl
              ++ fold_left
                   (fun str ff =>
                      str ++ sp g 5 ++ "{ name: " ++ dq
                      ++ IndexField.attribute ff ++ dq
                      ++ (if truthyStr (IndexField.collate ff)
                          then ", collate: " ++ dq ++ IndexField.collate ff ++ dq
                          else "")
                      ++ (if truthyStr (IndexField.length ff)
                          then ", length: " ++ IndexField.length ff else "")
                      ++ (if truthyStr (IndexField.order ff)
                             && negb (String.eqb (IndexField.order ff) "ASC")
                          then ", order: " ++ dq ++ IndexField.order ff ++ dq
                          else "")
                      ++ " }," ++ nl)
                   (IndexSpec.fields idx) ""
              ++ sp g 4 ++ "]" ++ nl
              ++ sp g 3 ++ "}," ++ nl)
           (i :: rest) ""
      ++ sp g 2 ++ "]," ++ nl)
  | Some [] => Ok ""
  | None =>
      (* an inherited member: a function with a non-zero [length] passes
         the test of line 414 and has no [forEach] *)
      match Obj.inheritedLength table with
      | Some (S _) => Throw TypeError
      | _ => Ok ""
      end
  end.

(** ** Attribute emission: [addField] *)

(** [isSerialKey] of [addField] (lines 254-255). *)
Definition serialKey (g : AutoGenerator) (fieldObj : Field) : bool :=
  match asFK (prop fieldObj "foreignKey") with
  | Some fk => FKSpec.isSerialKey fk
  | None => false
  end
  || match DialectOptions.isSerialKey (dialect g) with
     | Some f => f fieldObj
     | None => false
     end.

(** The lines written for a serial key or an [autoIncrement] attribute:
    Postgres' GENERATED BY DEFAULT AS IDENTITY instead of SERIAL. *)
Definition autoIncrementLines (g : AutoGenerator) (fieldObj : Field) : string :=
  sp g 3 ++ "autoIncrement: true," ++ nl
  ++ (if String.eqb (DialectOptions.name (dialect g)) "postgres"
         && match asFK (prop fieldObj "foreignKey") with
            | Some fk =>
                FKSpec.isPrimaryKey fk
                && match FKSpec.generation fk with
                   | Some gen => String.eqb gen "ALWAYS" || String.eqb gen "BY DEFAULT"
                   | None => false
                   end
            | None => false
            end
      then sp g 3 ++ "autoIncrementIdentity: true," ++ nl
      else "").

Definition sqlKeywords : list string :=
  ["current_timestamp"; "current_date"; "current_time"; "localtime";
   "localtimestamp"].

(** The text of a string default (lines 327-362): [field_type] is the
    lower-cased type and [rawDefault] the default before escaping. *)
Definition stringDefault (field_type : string) (elementType : JsVal)
  (rawDefault : string) : string :=
  let defaultVal := escapeSpecial rawDefault in
  if String.eqb field_type "bit(1)" || String.eqb field_type "bit"
     || String.eqb field_type "boolean" then
    (* convert string to boolean *)
    if Re.oneOrTrue defaultVal then "true" else "false"
  else if isArray field_type then
    (* remove outer {} *)
    let val_text := Js.stripLast "}" (Js.stripFirst "{" defaultVal) in
    let val_text :=
      if truthyStr val_text && isString (toString elementType) then
        (* quote the array elements *)
        Js.join "," (map (fun s => dq ++ s ++ dq) (Js.split "," val_text))
      else val_text in
    "[" ++ val_text ++ "]"
  else if isNumber field_type || Js.startsWith field_type "json" then
    (* remove () around mssql numeric values; don't quote numbers or json *)
    Js.removeChars Re.isParen defaultVal
  else if String.eqb field_type "uuid"
          && (String.eqb defaultVal "gen_random_uuid()"
              || String.eqb defaultVal "uuid_generate_v4()") then
    "DataTypes.UUIDV4"
  else if Js.endsWith defaultVal "()" || Js.endsWith defaultVal "())" then
    (* wrap default value function *)
    "Sequelize.Sequelize.fn('" ++ Js.removeChars Re.isParen defaultVal ++ "')"
  else if Js.startsWith field_type "date"
          || Js.startsWith field_type "timestamp" then
    if existsb (String.eqb (Js.toLowerCase defaultVal)) sqlKeywords then
      "Sequelize.Sequelize.literal('" ++ defaultVal ++ "')"
    else dq ++ defaultVal ++ dq
  else dq ++ defaultVal ++ dq.

(** The default after the MS SQL filters (lines 310-316). *)
Definition mssqlDefault (dialectName : string) (defaultVal : JsVal)
  : result JsVal :=
  let* defaultVal :=
    if String.eqb dialectName "mssql" && truthy defaultVal then
      match defaultVal with
      | VStr s =>
          if String.eqb (Js.toLowerCase s) "(newid())" then Ok VNull
          else Ok defaultVal
      | _ => Throw TypeError (* no [toLowerCase] on such a value *)
      end
    else Ok defaultVal in
  if String.eqb dialectName "mssql"
     && (isStr defaultVal "(NULL)" || isStr defaultVal "NULL"
         || match defaultVal with VUndef => true | _ => false end)
  then Ok VNull
  else Ok defaultVal.

(** The [defaultValue] branch of the attribute loop (lines 309-371): the
    text after ["defaultValue: "], or [None] when the attribute is passed
    over. *)
Definition defaultValueText (g : AutoGenerator) (fieldObj : Field)
  (isSerialKey : bool) : result (option string) :=
  let* defaultVal :=
    mssqlDefault (DialectOptions.name (dialect g)) (prop fieldObj "defaultValue") in
  match defaultVal with
  | VNull | VUndef => Ok None
  | _ =>
      if isSerialKey then Ok None (* value generated in the database *)
      else
        match defaultVal with
        | VStr d =>
            match prop fieldObj "type" with
            | VStr type =>
                Ok (Some (stringDefault (Js.toLowerCase type)
                            (prop fieldObj "elementType") d))
            | _ => Throw TypeError
            end
        | v => Ok (Some (toString v))
        end
  end.

(** One round of [fieldAttrs.forEach] (lines 262-385); the accumulator is
    the text so far and [wroteAutoIncrement]. *)
Definition attrStep (stack : nat) (g : AutoGenerator) (fieldObj : Field)
  (foreignKey : option FKSpec.t) (isSerialKey : bool)
  (acc : string * bool) (attr : string) : result (string * bool) :=
  (* We don't need the special attribute from postgresql; "unique" is
     handled separately *)
  if String.eqb attr "special" || String.eqb attr "elementType"
     || String.eqb attr "unique" then Ok acc
  else
    let '(str, wroteAutoIncrement) :=
      if isSerialKey && negb (snd acc)
      then (fst acc ++ autoIncrementLines g fieldObj, true)
      else acc in
    let skip := Ok (str, wroteAutoIncrement) in
    let emit (s : string) := Ok (str ++ s ++ "," ++ nl, wroteAutoIncrement) in
    if String.eqb attr "foreignKey" then
      match foreignKey with
      | Some fk0 =>
          if FKSpec.isForeignKey fk0 then
            match prop fieldObj attr with
            | VFK fk =>
                emit (sp g 3 ++ "references: {" ++ nl
                      ++ sp g 4 ++ "model: '"
                      ++ optString (FKSpec.target_table fk) ++ "'," ++ nl
                      ++ sp g 4 ++ "key: '"
                      ++ optString (FKSpec.target_column fk) ++ "'" ++ nl
                      ++ sp g 3 ++ "}")
            | _ => Throw TypeError
            end
          else skip
      | None => skip
      end
    else if String.eqb attr "references" then
      (* covered by foreignKey *)
      skip
    else if String.eqb attr "primaryKey" then
      if isBool (prop fieldObj attr) true then
        if negb (Obj.has "foreignKey" fieldObj) then
          emit (sp g 3 ++ "primaryKey: true")
        else
          match prop fieldObj "foreignKey" with
          | VUndef | VNull => Throw TypeError
          | VFK fk =>
              if FKSpec.isPrimaryKey fk then emit (sp g 3 ++ "primaryKey: true")
              else skip
          | _ => skip
          end
      else skip
    else if String.eqb attr "autoIncrement" then
      if isBool (prop fieldObj attr) true && negb wroteAutoIncrement
      then Ok (str ++ autoIncrementLines g fieldObj, true)
      else skip
    else if String.eqb attr "allowNull" then
      emit (sp g 3 ++ attr ++ ": " ++ toString (prop fieldObj attr))
    else if String.eqb attr "defaultValue" then
      let* val_text := defaultValueText g fieldObj isSerialKey in
      match val_text with
      | None => skip
      | Some val_text => emit (sp g 3 ++ attr ++ ": " ++ val_text)
      end
    else if String.eqb attr "comment" && negb (truthy (prop fieldObj attr)) then
      skip
    else
      let* val :=
        if negb (String.eqb attr "type") then Ok VNull
        else getSqType stack fieldObj attr in
      let val :=
        match val with
        | VNull | VUndef =>
            match prop fieldObj attr with
            | VStr v => VStr (dq ++ escapeSpecial v ++ dq)
            | v => v
            end
        | _ => val
        end in
      emit (sp g 3 ++ attr ++ ": " ++ toString val).

(** [fieldAttrs.forEach] over a pure accumulator. *)
Fixpoint foldResult {A S} (f : S -> A -> result S) (l : list A) (s : S)
  : result S :=
  match l with
  | [] => Ok s
  | x :: r => let* s' := f s x in foldResult f r s'
  end.

(** [unique] of [addField] (line 252). *)
Definition uniqueOf (fieldObj : Field) : JsVal :=
  if truthy (prop fieldObj "unique") then prop fieldObj "unique"
  else
    match prop fieldObj "foreignKey" with
    | VFK fk => uniqueVal (FKSpec.isUnique fk)
    | v => if truthy v then VUndef else v
    end.

(** Lines 391-394. *)
Definition uniqueLine (g : AutoGenerator) (fieldObj : Field) : string :=
  let unique := uniqueOf fieldObj in
  if truthy unique then
    let uniq :=
      match unique with
      | VStr u => dq ++ Js.replaceChar "034" (backslash ++ dq) u ++ dq
      | v => toString v
      end in
    sp g 3 ++ "unique: " ++ uniq ++ "," ++ nl
  else "".

(** Lines 396-402: write the original fieldname, unless it is a key and
    the column names are case-insensitive. *)
Definition fieldLine (g : AutoGenerator) (fieldObj : Field)
  (field fieldName : string) : string :=
  if negb (String.eqb field fieldName) then
    if negb (truthy (prop fieldObj "primaryKey"))
       || DialectOptions.canAliasPK (dialect g)
       || negb (String.eqb (Js.toUpperCase field) (Js.toUpperCase fieldName))
    then sp g 3 ++ "field: '" ++ field ++ "'," ++ nl
    else ""
  else "".

(** [this.foreignKeys[table] && this.foreignKeys[table][field]], read
    among the own properties: the table and the column are not named
    like members of [Object.prototype]. *)
Definition foreignKeyOf (g : AutoGenerator) (table field : string)
  : option FKSpec.t :=
  match Obj.get table (foreignKeys g) with
  | Some fks => Obj.get field fks
  | None => None
  end.

(** [fieldObj.foreignKey = foreignKey] on the descriptor stored at
    [this.tables[table][field]]. *)
Definition attachForeignKey (table field : string) (fk : FKSpec.t)
  (g : AutoGenerator) : AutoGenerator :=
  match Obj.get table (tables g) with
  | Some t =>
      match Obj.get field t with
      | Some fieldObj =>
          with_tables
            (Obj.set table
               (Obj.set field (Obj.set "foreignKey" (VFK fk) fieldObj) t)
               (tables g)) g
      | None => g
      end
  | None => g
  end.

Definition makeHeaderTemplate (g : AutoGenerator) : string :=
  let sp := sp g 1 in
  let lang := Options.lang (options g) in
  let langIs (l : string) :=
    match lang with Some l' => String.eqb l' l | None => false end in
  if langIs "ts" then
    "import * as Sequelize from 'sequelize';" ++ nl
    ++ "import { DataTypes, Model, Optional } from 'sequelize';" ++ nl
  else if langIs "es6" then
    "const Sequelize = require('sequelize');" ++ nl
    ++ "module.exports = (sequelize, DataTypes) => {" ++ nl
    ++ sp ++ "return #TABLE#.init(sequelize, DataTypes);" ++ nl
    ++ "}" ++ nl ++ nl
    ++ "class #TABLE# extends Sequelize.Model {" ++ nl
    ++ sp ++ "static init(sequelize, DataTypes) {" ++ nl
    ++ sp ++ "super.init({" ++ nl
  else if langIs "esm" then
    "import _sequelize from 'sequelize';" ++ nl
    ++ "const { Model, Sequelize } = _sequelize;" ++ nl ++ nl
    ++ "export default class #TABLE# extends Model {" ++ nl
    ++ sp ++ "static init(sequelize, DataTypes) {" ++ nl
    ++ sp ++ "super.init({" ++ nl
  else
    "import { DataTypes, Model } from 'sequelize';" ++ nl
    ++ "import { sequelize } from '../../infrastructure/db';" ++ nl.

(** The constructor: the instance shares [tableData] and [options] with
    the caller, and [options.lang] is defaulted in place. *)
Definition new (tableData : TableData.t) (dialect : DialectOptions.t)
  (options : Options.t) : AutoGenerator :=
  let lang :=
    match Options.lang options with
    | Some l => if truthyStr l then Some l else Some "es5"
    | None => Some "es5"
    end in
  (* build the space array of indentation strings *)
  let count :=
    match Options.indentation options with
    | Some n => if Z.eqb n 0 then 2%nat else Z.to_nat n
    | None => 2%nat
    end in
  let sp :=
    Js.repeat (match Options.spaces options with
               | Some true => " "
               | _ => String "009" EmptyString
               end) count in
  mkAutoGenerator dialect (TableData.tables tableData)
    (TableData.foreignKeys tableData) (TableData.hasTriggerTables tableData)
    (TableData.indexes tableData) (TableData.relations tableData)
    (map (Js.repeat sp) (seq 0 6))
    (Options.with_lang lang options).

Section Generator.

(** The collaborators imported from [./types], outside [src/]:
    [recase(opt, val, singularize)], [qNameSplit(qname)] and
    [pluralize(s)]. *)
Variable recase : option string -> string -> bool -> string.
Variable qNameSplit : string -> option string * string.
Variable pluralize : string -> string.

(** The depth of call stack left to [getSqType] and
    [getTypeScriptFieldType]. *)
Variable stack : nat.

(** Lines 247-407 of [addField]: the text of the attribute block, once
    the foreign key has been looked up and stored in the descriptor. *)
Definition fieldText (table field : string) (foreignKey : option FKSpec.t)
  : M string :=
  g <- this ;;
  fieldObj <- lift (fieldOf g table field) ;;
  let fieldName := recase (Options.caseProp (options g)) field false in
  let str := quoteName fieldName ++ ": {" ++ nl in
  let isSerialKey := serialKey g fieldObj in
  (* column's attributes *)
  let fieldAttrs := Obj.keys fieldObj in
  acc <- lift (foldResult (attrStep stack g fieldObj foreignKey isSerialKey)
                 fieldAttrs (str, false)) ;;
  let str := fst acc in
  ts <- isTimestampField field ;;
  let str :=
    if ts then str ++ sp g 3 ++ "defaultValue: () => context.timestamp," ++ nl
    else str in
  let str := str ++ uniqueLine g fieldObj in
  let str := str ++ fieldLine g fieldObj field fieldName in
  (* removes the last `,` within the attribute options *)
  let str := Js.dropEndWhile (Ascii.eqb ",") (Js.trim str) ++ nl in
  ret (sp g 2 ++ str ++ sp g 2 ++ "}," ++ nl).

(** Create a string containing field attributes (type, defaultValue, etc.) *)
Definition addField (table field : string) : M string :=
  g <- this ;;
  (* Find foreign key *)
  let foreignKey := foreignKeyOf g table field in
  _ <- lift (fieldOf g table field) ;;
  match foreignKey with
  | Some fk => modify (attachForeignKey table field fk)
  | None => ret tt
  end ;;;
  fieldText table field foreignKey.

Definition addTypeScriptFields (table : string) (forFind : bool) : M string :=
  g <- this ;;
  let sp := sp g 1 in
  let fields := fieldsOf g table in
  forEach fields
    (fun str field =>
       g <- this ;;
       let name := quoteName (recase (Options.caseProp (options g)) field false) in
       isOptional <- getTypeScriptFieldOptional table field ;;
       isAutoIncrement <- getIsAutoIncrement table field ;;
       type <- getTypeScriptType stack table field ;;
       let type :=
         if String.eqb type "Date" && negb forFind then type ++ " | string"
         else type in
       ret (str ++ sp ++ name
            ++ (if negb forFind && (isOptional || truthy isAutoIncrement)
                then "?" else "")
            ++ ": " ++ type ++ ";" ++ nl))
    "".

(** ** Table assembly: [addTable] *)

(** Lines 160-166, reached with the final value of [timestamps]. *)
Definition updatedAtLine (g : AutoGenerator) (timestamps : bool)
  (fields : list string) : string :=
  if timestamps && negb (existsb (String.eqb "lastModifiedAt") fields)
  then sp g 2 ++ "updatedAt: false," ++ nl else "".

Definition createdAtLine (g : AutoGenerator) (timestamps : bool)
  (fields : list string) : string :=
  if timestamps && negb (existsb (String.eqb "createdAt") fields)
  then sp g 2 ++ "createdAt: false," ++ nl else "".

(** Lines 171-184: one round of [_.each(this.options.additional, ...)]. *)
Definition additionalLine (g : AutoGenerator) (table : string)
  (kv : string * JsVal) : string :=
  let '(key, value) := kv in
  if String.eqb key "name" then
    (* name: true - preserve table name always *)
    sp g 2 ++ "name: {" ++ nl
    ++ sp g 3 ++ "singular: '" ++ table ++ "'," ++ nl
    ++ sp g 3 ++ "plural: '" ++ table ++ "'" ++ nl
    ++ sp g 2 ++ "}," ++ nl
  else if String.eqb key "timestamps" || String.eqb key "paranoid" then
    (* handled above *)
    ""
  else
    let value :=
      match value with
      | VBool b => Js.ofBool b
      | v => "'" ++ toString v ++ "'"
      end in
    sp g 2 ++ key ++ ": " ++ value ++ "," ++ nl.

(** [this.options.noAlias] as a condition. *)
Definition noAliasSet (g : AutoGenerator) : bool :=
  match Options.noAlias (options g) with
  | Some b => b
  | None => false
  end.

(** Line 195. *)
Definition belongsToManyLine (g : AutoGenerator) (rel : Relation.t) : string :=
  let asprop := pluralize (Relation.childProp rel) in
  sp g 3 ++ "// (autogenerated) models." ++ Relation.parentModel rel
  ++ ".belongsToMany(models." ++ Relation.childModel rel
  ++ ", { as: '" ++ asprop
  ++ "', through: models." ++ optString (Relation.joinModel rel)
  ++ ", foreignKey: " ++ dq ++ Relation.parentId rel ++ dq
  ++ ", otherKey: " ++ dq ++ optString (Relation.childId rel) ++ dq
  ++ " });" ++ nl.

(** Line 199. *)
Definition bAlias (g : AutoGenerator) (rel : Relation.t) : string :=
  if noAliasSet g
     && String.eqb (Js.toLowerCase (Relation.parentModel rel))
                   (Js.toLowerCase (Relation.parentProp rel))
  then ""
  else "as: " ++ dq ++ Relation.parentProp rel ++ dq ++ ", ".

(** Line 200. *)
Definition belongsToLine (g : AutoGenerator) (rel : Relation.t) : string :=
  sp g 3 ++ "// (autogenerated) models." ++ Relation.childModel rel
  ++ ".belongsTo(models." ++ Relation.parentModel rel
  ++ ", { " ++ bAlias g rel
  ++ "foreignKey: " ++ dq ++ Relation.parentId rel ++ dq ++ "});" ++ nl.

(** Lines 204-206. *)
Definition hasLine (g : AutoGenerator) (rel : Relation.t) : string :=
  let hasRel := if Relation.isOne rel then "hasOne" else "hasMany" in
  let hAlias :=
    if noAliasSet g
       && String.eqb (pluralize (Js.toLowerCase (Relation.childModel rel)))
                     (Js.toLowerCase (Relation.childProp rel))
    then ""
    else "as: " ++ dq ++ Relation.childProp rel ++ dq ++ ", " in
  sp g 3 ++ "// (autogenerated) models." ++ Relation.parentModel rel
  ++ "." ++ hasRel ++ "(models." ++ Relation.childModel rel
  ++ ", { " ++ hAlias
  ++ "foreignKey: " ++ dq ++ Relation.parentId rel ++ dq ++ "});" ++ nl.

(** Lines 190-208: what one relation adds to [assoc] while
    [tableNameOrig] is assembled. *)
Definition relationLines (g : AutoGenerator) (tableNameOrig : string)
  (rel : Relation.t) : string :=
  if Relation.isM2M rel then
    if String.eqb (Relation.parentModel rel) tableNameOrig
    then belongsToManyLine g rel else ""
  else
    (if String.eqb (Relation.childModel rel) tableNameOrig
     then belongsToLine g rel else "")
    ++ (if String.eqb (Relation.parentModel rel) tableNameOrig
        then hasLine g rel else "").

(** [assoc] after [this.relations.forEach]. *)
Definition assocLines (g : AutoGenerator) (tableNameOrig : string) : string :=
  fold_left (fun assoc rel => assoc ++ relationLines g tableNameOrig rel)
    (relations g) "".

(** [this.options.noAlias = true] *)
Definition forceNoAlias (g : AutoGenerator) : AutoGenerator :=
  with_options (Options.with_noAlias (Some true) (options g)) g.

(** [this.hasTriggerTables[table]] as a condition: the own flag, or an
    inherited member. *)
Definition hasTrigger (g : AutoGenerator) (table : string) : bool :=
  match Obj.get table (hasTriggerTables g) with
  | Some b => b
  | None => Obj.inherited table
  end.

(** Lines 145-153: the table name, the schema and the trigger flag. *)
Definition optionHead (g : AutoGenerator) (table : string)
  (schemaName : option string) (tableNameOrig : string) : string :=
  sp g 2 ++ "tableName: '" ++ tableNameOrig ++ "'," ++ nl
  ++ (if match schemaName with Some n => truthyStr n | None => false end
         && DialectOptions.hasSchema (dialect g)
      then sp g 2 ++ "schema: '" ++ optString schemaName ++ "'," ++ nl
      else "")
  ++ (if hasTrigger g table then sp g 2 ++ "hasTrigger: true," ++ nl else "").

(** Lines 155-158. *)
Definition flagLines (g : AutoGenerator) (timestamps paranoid : bool) : string :=
  sp g 2 ++ "timestamps: " ++ Js.ofBool timestamps ++ "," ++ nl
  ++ (if paranoid then sp g 2 ++ "paranoid: true," ++ nl else "").

(** [isLength(v)] of lodash: an integer from 0 to [2^53 - 1]. *)
Definition isLength (v : JsVal) : bool :=
  match v with
  | VNum n => Z.leb 0 n && Z.leb n 9007199254740991
  | _ => false
  end.

(** Lines 169-185.  [_.each] walks an object that has a [length] in the
    sense of [isLength] as an array: the key is the index, a number, and
    the value is the property of that index, if any; any other object is
    walked over its own properties. *)
Definition additionalLines (g : AutoGenerator) (table : string)
  (additional : Obj.t JsVal) : string :=
  match prop additional "length" with
  | VNum n =>
      if isLength (VNum n) then
        fold_left
          (fun str index =>
             let value := prop additional (Js.ofZ (Z.of_nat index)) in
             let value :=
               match value with
               | VBool b => Js.ofBool b
               | v => "'" ++ toString v ++ "'"
               end in
             str ++ sp g 2 ++ Js.ofZ (Z.of_nat index) ++ ": " ++ value ++ ","
             ++ nl)
          (seq 0 (Z.to_nat n)) ""
      else
        fold_left (fun str kv => str ++ additionalLine g table kv) additional ""
  | _ =>
      fold_left (fun str kv => str ++ additionalLine g table kv) additional ""
  end.

(** Lines 145-185: the options written after the opening of the options
    block, given the final [timestamps] and [paranoid]. *)
Definition optionLines (g : AutoGenerator) (table : string)
  (schemaName : option string) (tableNameOrig : string)
  (timestamps paranoid : bool) (fields : list string) : string :=
  optionHead g table schemaName tableNameOrig
  ++ flagLines g timestamps paranoid
  ++ updatedAtLine g timestamps fields
  ++ createdAtLine g timestamps fields
  (* conditionally add additional options *)
  ++ match Options.additional (options g) with
     | Some additional => additionalLines g table additional
     | None => ""
     end.

(** Lines 211-214 around [assoc]. *)
Definition associateOpen (g : AutoGenerator) : string :=
  sp g 2 ++ "// eslint-disable-next-line" ++ nl
  ++ sp g 2 ++ "associate: models => {" ++ nl.

Definition associateClose (g : AutoGenerator) : string :=
  sp g 2 ++ "}," ++ nl.

(** Create a string for the model of the table *)
Definition addTable (table : string) : M string :=
  g <- this ;;
  let '(schemaName, tableNameOrig) := qNameSplit table in
  let tableName :=
    recase (Options.caseModel (options g)) tableNameOrig
      (Options.singularize (options g)) in
  let timestamps :=
    match Options.additional (options g) with
    | Some additional => isBool (prop additional "timestamps") true
    | None => false
    end in
  let paranoid := false in
  (* add all the fields *)
  let fields := fieldsOf g table in
  acc <- forEach fields
           (fun '(timestamps, paranoid, str) field =>
              timestamps <-
                (if timestamps : bool then ret true else isTimestampField field) ;;
              paranoid <-
                (if paranoid : bool then ret true else isParanoidField field) ;;
              s <- addField table field ;;
              ret (timestamps, paranoid, str ++ s))
           (timestamps, paranoid, "") ;;
  let '(timestamps, paranoid, str) := acc in
  g <- this ;;
  (* trim off last ",\n" *)
  let str := Js.substring str 0 (Z.of_nat (String.length str) - 2) ++ nl in
  (* add the table options *)
  let str := str ++ sp g 1 ++ "}, {" ++ nl in
  let str :=
    str ++ optionLines g table schemaName tableNameOrig timestamps paranoid
             fields in
  modify forceNoAlias ;;;
  g <- this ;;
  let assoc := assocLines g tableNameOrig in
  let str := str ++ associateOpen g ++ assoc ++ associateClose g in
  (* add indexes *)
  indexes <- lift (addIndexes g table) ;;
  let str := str ++ indexes in
  let str := sp g 2 ++ Js.trim str in
  let str := Js.substring str 0 (Z.of_nat (String.length str) - 1) in
  let str := str ++ nl ++ sp g 1 ++ "}" in
  let str := str ++ ");" ++ nl in
  let lang := Options.lang (options g) in
  let str :=
    if match lang with
       | Some l => String.eqb l "es6" || String.eqb l "esm" || String.eqb l "ts"
       | None => false
       end
    then str ++ sp g 1 ++ "return " ++ tableName ++ ";" ++ nl
         ++ sp g 1 ++ "}" ++ nl ++ "}" ++ nl
    else str in
  ret str.

(** ** [generateText] *)

Definition generateText : M (Obj.t string) :=
  g <- this ;;
  let tableNames := Obj.keys (tables g) in
  let header := makeHeaderTemplate g in
  forEach tableNames
    (fun text table =>
       g <- this ;;
       let str := header in
       let '(schemaName, tableNameOrig) := qNameSplit table in
       let tableName :=
         recase (Options.caseModel (options g)) tableNameOrig
           (Options.singularize (options g)) in
       let fields := fieldsOf g table in
       hasTimestamp <- some fields isTimestampField ;;
       let str :=
         if hasTimestamp
         then str ++ "import { context } from '../../services/context/context';" ++ nl
         else str in
       descriptors <-
         lift (match Obj.get table (tables g) with
               | Some t => Ok (Obj.values t)
               | None => Throw TypeError
               end) ;;
       let str :=
         if existsb (fun f => isStr (prop f "type") "JSON") descriptors
         then str ++ "import { JSONValue } from './types';" ++ nl
         else str in
       let str := str ++ nl ++ "export type #UTABLE#DB = {" ++ nl in
       forFind <- addTypeScriptFields table true ;;
       let str := str ++ forFind ++ "}" ++ nl in
       let str := str ++ nl ++ "export type #UTABLE#CreationDB = {" ++ nl in
       forCreate <- addTypeScriptFields table false ;;
       let str := str ++ forCreate ++ "}" ++ nl in
       let str := str ++ nl in
       let str :=
         str ++ "export type #UTABLE#Model = Model<#UTABLE#DB, #UTABLE#CreationDB> & #UTABLE#DB;"
         ++ nl in
       let str := str ++ nl in
       let str :=
         str ++ "export const #TABLE#Model = sequelize.define<#UTABLE#Model>('#TABLE#', {"
         ++ nl in
       model <- addTable table ;;
       let str := str ++ model in
       let str := Js.replaceAll "#TABLE#" tableName str in
       match tableName with
       | EmptyString => lift (Throw TypeError) (* [tableName[0]] is undefined *)
       | String c r =>
           let str :=
             Js.replaceAll "#UTABLE#"
               (String (Js.upperChar c) EmptyString ++ Js.drop 1 tableName) str in
           ret (Obj.set table str text)
       end)
    [].

End Generator.

(** ** Statements used by the properties *)

(** Some rule of [getTypeScriptFieldType] applies to the raw type [t]. *)
Definition staticRuleMatches (t : string) : bool :=
  let fieldType := Js.toLowerCase t in
  isArray fieldType || String.eqb t "TINYINT(1)" || isNumber fieldType
  || isBoolean fieldType || isDate fieldType || isString fieldType
  || isEnum fieldType || String.eqb fieldType "json".

(** What a generation run may do to one column descriptor: nothing, or
    store the foreign key of the column under [foreignKey]. *)
Definition descriptorStep (g : AutoGenerator) (table field : string)
  (d d' : Field) : Prop :=
  d' = d
  \/ exists fk, foreignKeyOf g table field = Some fk
               /\ d' = Obj.set "foreignKey" (VFK fk) d.

(** Two objects with the same keys in the same order, and values related
    key by key. *)
Definition sameKeys {A} (R : string -> A -> A -> Prop) (o o' : Obj.t A) : Prop :=
  Forall2 (fun kv kv' => fst kv' = fst kv /\ R (fst kv) (snd kv) (snd kv')) o o'.

Definition tablesStep (g : AutoGenerator) (t t' : Obj.t (Obj.t Field)) : Prop :=
  sameKeys (fun table => sameKeys (descriptorStep g table)) t t'.

(** What a generation run may do to the options: nothing, or set
    [noAlias]. *)
Definition optionsStep (o o' : Options.t) : Prop :=
  o' = o \/ o' = Options.with_noAlias (Some true) o.

(** The instance [g'] differs from [g] by such steps only. *)
Definition preserved (g g' : AutoGenerator) : Prop :=
  dialect g' = dialect g
  /\ foreignKeys g' = foreignKeys g
  /\ hasTriggerTables g' = hasTriggerTables g
  /\ indexes g' = indexes g
  /\ relations g' = relations g
  /\ space g' = space g
  /\ optionsStep (options g) (options g')
  /\ tablesStep g (tables g) (tables g').

(** The computation [m], started in [w], leaves the instance as it was up
    to such steps, whether it returns or throws. *)
Definition keepsAt {A} (m : M A) (w : World) : Prop :=
  preserved (self w) (self (snd (m w))).

(** The computation [m], started in [w], leaves the instance as it was
    and only appends to the console, whether it returns or throws. *)
Definition readsOnly {A} (m : M A) (w : World) : Prop :=
  self (snd (m w)) = self w
  /\ exists msgs, console (snd (m w)) = (console w ++ msgs)%list.

(** The control characters among the ones [escapeSpecial] rewrites:
    backspace, tab, line feed, form feed, carriage return. *)
Definition isControl (c : ascii) : bool :=
  existsb (Ascii.eqb c) ["008"; "009"; "010"; "012"; "013"]%char.

(** The character that the second character of an escape stands for. *)
Definition unescapeChar (x : ascii) : ascii :=
  if Ascii.eqb x "b" then "008"
  else if Ascii.eqb x "f" then "012"
  else if Ascii.eqb x "n" then "010"
  else if Ascii.eqb x "r" then "013"
  else if Ascii.eqb x "t" then "009"
  else x.

Fixpoint countChars (p : ascii -> bool) (s : string) : nat :=
  match s with
  | EmptyString => 0
  | String c r => (if p c then 1 else 0) + countChars p r
  end.

(** [isTimestampField] and [isParanoidField] as functions of
    [options.additional] when it is an object. *)
Definition isTimestampName (additional : Obj.t JsVal) (field : string) : bool :=
  if isBool (prop additional "timestamps") false then false
  else
    ((negb (truthy (prop additional "createdAt"))
      && String.eqb (Js.toLowerCase field) "createdat")
     || isStr (prop additional "createdAt") field)
    || ((negb (truthy (prop additional "updatedAt"))
         && String.eqb (Js.toLowerCase field) "updatedat")
        || isStr (prop additional "updatedAt") field).

Definition isParanoidName (additional : Obj.t JsVal) (field : string) : bool :=
  if isBool (prop additional "timestamps") false
     || isBool (prop additional "paranoid") false then false
  else
    (negb (truthy (prop additional "deletedAt"))
     && String.eqb (Js.toLowerCase field) "deletedat")
    || isStr (prop additional "deletedAt") field.

(** A value in the range of the embedding: a number is an integer that
    JavaScript holds exactly and prints in decimal. *)
Definition safeValue (v : JsVal) : bool :=
  match v with
  | VNum n => Z.leb (Z.abs n) 9007199254740991
  | _ => true
  end.


(** [timestamps] and [paranoid] when the field loop of [addTable] is over
    (lines 127-138), as functions of the instance the call starts with. *)
Definition tableTimestamps (g : AutoGenerator) (table : string) : bool :=
  match Options.additional (options g) with
  | Some a =>
      isBool (prop a "timestamps") true
      || existsb (isTimestampName a) (fieldsOf g table)
  | None => false
  end.

Definition tableParanoid (g : AutoGenerator) (table : string) : bool :=
  match Options.additional (options g) with
  | Some a => existsb (isParanoidName a) (fieldsOf g table)
  | None => false
  end.


(** The lower-cased type [ty] gets to the [/^array/] rule of [getSqType]:
    it starts with [array] and none of the substring and suffix tests
    placed before that rule holds. *)
Definition reachesArrayRule (ty : string) : bool :=
  Js.startsWith ty "array"
  && negb (Js.includesAny ["varchar"; "string"; "varying"] ty)
  && negb (Js.endsWith ty "text")
  && negb (Js.includes ty "uniqueidentifier").

(** The characters that [escapeSpecial] rewrites. *)
Definition needsEscape (c : ascii) : bool :=
  existsb (Ascii.eqb c) ["092"; "034"; "/"; "008"; "012"; "010"; "013"; "009"]%char.

(** The characters of the SQL keywords of [sqlKeywords]. *)
Definition keywordChar (c : ascii) : bool := Js.isLower c || Ascii.eqb c "_".

(** ** Sample inputs *)
Module Sample.

(** [recase] without a case option and without singularization. *)
Definition recase (opt : option string) (val : string) (singularize : bool)
  : string := val.
(** [qNameSplit] on names without a schema. *)
Definition qNameSplit (qname : string) : option string * string :=
  (None, qname).
(** [pluralize] on regular nouns. *)
Definition pluralize (s : string) : string := s ++ "s".

Definition mysql : DialectOptions.t := DialectOptions.mk "mysql" false false None.
Definition postgres : DialectOptions.t :=
  DialectOptions.mk "postgres" true true None.
Definition mssql : DialectOptions.t := DialectOptions.mk "mssql" true true None.

Definition options : Options.t :=
  Options.mk None (Some true) None None None None (Some []) None false None.

Definition noTables : TableData.t := TableData.mk [] [] [] [] [].

(** Two tables: [users] refers to [orgs] through [Org_Id] and to itself
    through the join table [friends]. *)
Definition orgFK : FKSpec.t :=
  FKSpec.mk true false false (inl false) None (Some "orgs") (Some "id").

Definition orgsRelation : Relation.t :=
  Relation.mk "Org_Id" "orgs" "Orgs" "users" "users" None None false false.

Definition friendsRelation : Relation.t :=
  Relation.mk "user_id" "users" "users" "users" "friend" (Some "friend_id")
    (Some "friends") false true.

Definition tableData : TableData.t :=
  TableData.mk
    [("users",
      [("id", [("type", VStr "INTEGER"); ("allowNull", VBool false);
               ("defaultValue", VNull); ("primaryKey", VBool true);
               ("autoIncrement", VBool true); ("comment", VNull)]);
       ("Org_Id", [("type", VStr "INTEGER"); ("allowNull", VBool true);
                   ("defaultValue", VNull); ("primaryKey", VBool false);
                   ("autoIncrement", VBool false); ("comment", VNull)]);
       ("createdAt", [("type", VStr "TIMESTAMP"); ("allowNull", VBool false);
                      ("defaultValue", VStr "CURRENT_TIMESTAMP");
                      ("primaryKey", VBool false);
                      ("autoIncrement", VBool false); ("comment", VNull)])]);
     ("orgs",
      [("id", [("type", VStr "INTEGER"); ("allowNull", VBool false);
               ("defaultValue", VNull); ("primaryKey", VBool true);
               ("autoIncrement", VBool true); ("comment", VNull)])])]
    [("users", [("Org_Id", orgFK)])]
    []
    []
    [orgsRelation; friendsRelation].

Definition world (tableData : TableData.t) (dialect : DialectOptions.t) : World :=
  mkWorld (new tableData dialect options) [].

(** [addTable("users")] on the two tables, [options.noAlias] not set. *)
Definition usersRun : result string * World :=
  addTable recase qNameSplit pluralize 2 "users" (world tableData mysql).

(** [recase] with the lower-case option. *)
Definition lowerRecase (opt : option string) (val : string) (singularize : bool)
  : string := Js.toLowerCase val.

(** [addField("users", "Org_Id")] with lower-cased property names. *)
Definition orgIdRun : result string * World :=
  addField lowerRecase 2 "users" "Org_Id" (world tableData mysql).

Definition orgIdText : string :=
  match fst orgIdRun with
  | Ok str => str
  | Throw _ => ""
  end.

(** A table whose primary key [ID] differs from its property [id] by
    letter case only. *)
Definition items : TableData.t :=
  TableData.mk
    [("items",
      [("ID", [("type", VStr "INTEGER"); ("allowNull", VBool false);
               ("primaryKey", VBool true)])])]
    [] [] [] [].



(** A whole run on the two tables. *)
Definition textRun : result (Obj.t string) * World :=
  generateText recase qNameSplit pluralize 2 (world tableData mysql).

Definition usersText : string :=
  match fst usersRun with
  | Ok str => str
  | Throw _ => ""
  end.

(** [addTable("orgs")] on the two tables. *)
Definition orgsRun : result string * World :=
  addTable recase qNameSplit pluralize 2 "orgs" (world tableData mysql).

Definition orgsText : string :=
  match fst orgsRun with
  | Ok str => str
  | Throw _ => ""
  end.

(** A table whose column [hits] has a numeric default. *)
Definition counters : TableData.t :=
  TableData.mk
    [("counters",
      [("hits", [("type", VStr "INTEGER"); ("allowNull", VBool false);
                 ("defaultValue", VNum 1)])])]
    [] [] [] [].

(** A table with a [createdAt] column, generated with the option
    [additional: { createdAt: false }]. *)
Definition stampedOptions : Options.t :=
  Options.mk None (Some true) None None None None
    (Some [("createdAt", VBool false)]) None false None.

Definition logs : TableData.t :=
  TableData.mk
    [("logs",
      [("id", [("type", VStr "INTEGER"); ("allowNull", VBool false);
               ("primaryKey", VBool true)]);
       ("createdAt", [("type", VStr "TIMESTAMP"); ("allowNull", VBool false)])])]
    [] [] [] [].

Definition logsWorld : World := mkWorld (new logs mysql stampedOptions) [].

Definition logsRun : result string * World :=
  addTable recase qNameSplit pluralize 2 "logs" logsWorld.

Definition logsText : string :=
  match fst logsRun with
  | Ok str => str
  | Throw _ => ""
  end.

(** Two tables in a many-to-many relation: [authors] is the parent and
    [books] the child, through the join table [author_books]. *)
Definition writes : Relation.t :=
  Relation.mk "author_id" "authors" "authors" "books" "book" (Some "book_id")
    (Some "author_books") false true.

Definition library : TableData.t :=
  TableData.mk
    [("authors",
      [("id", [("type", VStr "INTEGER"); ("allowNull", VBool false);
               ("primaryKey", VBool true)])]);
     ("books",
      [("id", [("type", VStr "INTEGER"); ("allowNull", VBool false);
               ("primaryKey", VBool true)])])]
    [] [] [] [writes].

Definition libraryWorld : World := mkWorld (new library mysql options) [].

Definition authorsRun : result string * World :=
  addTable recase qNameSplit pluralize 2 "authors" libraryWorld.

Definition authorsText : string :=
  match fst authorsRun with
  | Ok str => str
  | Throw _ => ""
  end.

Definition booksRun : result string * World :=
  addTable recase qNameSplit pluralize 2 "books" libraryWorld.

Definition booksText : string :=
  match fst booksRun with
  | Ok str => str
  | Throw _ => ""
  end.

End Sample.


(** * Properties *)

(** ** Strings *)

Lemma startsWith_split (p s : string) :
  Js.startsWith s p = true -> s = p ++ Js.drop (String.length p) s.
Proof.
  revert s; induction p as [|a p IH]; intros s H; [reflexivity|].
  destruct s as [|b s]; [discriminate|].
  simpl in H. apply andb_true_iff in H as [Hab Hs].
  apply Ascii.eqb_eq in Hab. subst b.
  simpl. f_equal. now apply IH.
Qed.

Lemma toLowerCase_empty (s : string) :
  Js.toLowerCase s = "" -> s = "".
Proof. destruct s; [reflexivity|discriminate]. Qed.


(** ** The ORM type mapper on [float8] *)

(** C2: whatever follows the prefix [float8] in the lower-cased type, a
    rule placed before [/^(float8|double)/] answers, so [getSqType] returns
    a type expression that is not [DataTypes.DOUBLE]: the alternative
    [float8] of that rule is never reached. *)
Theorem getSqType_float8_never_double
  (stack : nat) (fieldObj : Field) (t : string) :
  prop fieldObj "type" = VStr t ->
  Js.startsWith (Js.toLowerCase t) "float8" = true ->
  exists v, getSqType (S stack) fieldObj "type" = Ok (VStr v)
            /\ Js.startsWith v "DataTypes.DOUBLE" = false.
Proof.
  intros Ht Hp.
  apply startsWith_split in Hp.
  cbn [getSqType]. rewrite Ht.
  generalize dependent (Js.drop (String.length "float8") (Js.toLowerCase t)).
  intros r Hr. rewrite Hr. clear.
  cbn.
  repeat match goal with
         | |- context [if ?b then _ else _] => destruct b
         end;
    eexists; (split; [reflexivity|reflexivity]).
Qed.

Lemma getSqType_float8_never_double_witness :
  exists v, getSqType 1 [("type", VStr "float8")] "type" = Ok (VStr v)
            /\ Js.startsWith v "DataTypes.DOUBLE" = false.
Proof.
  apply (getSqType_float8_never_double 0 [("type", VStr "float8")] "float8");
    reflexivity.
Defined.

(** At the type [float8] itself the answer is the single-precision type. *)
Example getSqType_float8 :
  getSqType 1 [("type", VStr "float8")] "type" = Ok (VStr "DataTypes.FLOAT")
  /\ getSqType 1 [("type", VStr "FLOAT8(10,2)")] "type"
     = Ok (VStr "DataTypes.FLOAT(10,2)")
  /\ getSqType 1 [("type", VStr "double precision")] "type"
     = Ok (VStr "DataTypes.DOUBLE").
Proof. repeat split. Qed.

(** The two mappers on some columns. *)
Example getSqType_samples :
  getSqType 1 [("type", VStr "VARCHAR(45)")] "type" = Ok (VStr "DataTypes.STRING(45)")
  /\ getSqType 1 [("type", VStr "decimal(10,2)")] "type"
     = Ok (VStr "DataTypes.DECIMAL(10,2)")
  /\ getSqType 1 [("type", VStr "int(11) unsigned")] "type"
     = Ok (VStr "DataTypes.INTEGER.UNSIGNED")
  /\ getSqType 1 [("type", VStr "USER-DEFINED"); ("special", VArr ["a"; "b"])]
       "type" = Ok VNull
  /\ getSqType 1 [("type", VStr "ENUM"); ("special", VArr ["a"; "b"])] "type"
     = Ok (VStr ("DataTypes.ENUM(" ++ dq ++ "a" ++ dq ++ "," ++ dq ++ "b" ++ dq
                 ++ ")"))
  /\ getSqType 2 [("type", VStr "ARRAY"); ("elementType", VStr "int4")] "type"
     = Ok (VStr "DataTypes.ARRAY(DataTypes.INTEGER)")
  /\ getSqType 2 [("type", VStr "ARRAY")] "type" = Throw TypeError.
Proof. repeat split. Qed.

(** ** The static type mapper *)

Lemma rawFieldType_string (fieldObj : Field) (attr t : string) :
  prop fieldObj attr = VStr t ->
  toString (if truthy (prop fieldObj attr) then prop fieldObj attr else VStr "")
  = t.
Proof.
  intros ->. destruct t; reflexivity.
Qed.

(** C4: on a column whose type is [tinyint(1)] in some letter case,
    [getTypeScriptFieldType] answers [boolean] for the spelling
    [TINYINT(1)] only; every other spelling, [tinyint(1)] included, is a
    number, while [getSqType] maps them all to [DataTypes.BOOLEAN]. *)
Theorem getTypeScriptFieldType_tinyint1
  (stack : nat) (fieldObj : Field) (t : string) (w : World) :
  prop fieldObj "type" = VStr t ->
  Js.toLowerCase t = "tinyint(1)" ->
  getTypeScriptFieldType (S stack) fieldObj "type" w
  = (Ok (if String.eqb t "TINYINT(1)" then "boolean" else "number"), w)
  /\ getSqType (S stack) fieldObj "type" = Ok (VStr "DataTypes.BOOLEAN").
Proof.
  intros Ht Hl. split.
  - cbn [getTypeScriptFieldType].
    rewrite (rawFieldType_string _ _ _ Ht), Hl, Ht.
    cbn. destruct (String.eqb t "TINYINT(1)"); reflexivity.
  - cbn [getSqType]. rewrite Ht, Hl. reflexivity.
Qed.

Lemma getTypeScriptFieldType_tinyint1_witness :
  getTypeScriptFieldType 1 [("type", VStr "tinyint(1)")] "type"
    (Sample.world Sample.noTables Sample.mysql)
  = (Ok "number", Sample.world Sample.noTables Sample.mysql)
  /\ getSqType 1 [("type", VStr "tinyint(1)")] "type"
     = Ok (VStr "DataTypes.BOOLEAN").
Proof.
  apply (getTypeScriptFieldType_tinyint1 0 [("type", VStr "tinyint(1)")]
           "tinyint(1)" (Sample.world Sample.noTables Sample.mysql));
    reflexivity.
Defined.

Example getTypeScriptFieldType_samples :
  let w := Sample.world Sample.noTables Sample.postgres in
  getTypeScriptFieldType 1 [("type", VStr "VARCHAR(45)")] "type" w
  = (Ok "string", w)
  /\ getTypeScriptFieldType 1 [("type", VStr "TINYINT(1)")] "type" w
     = (Ok "boolean", w)
  /\ getTypeScriptFieldType 1 [("type", VStr "ENUM"); ("special", VArr ["a"; "b"])]
       "type" w
     = (Ok (dq ++ "a" ++ dq ++ " | " ++ dq ++ "b" ++ dq), w)
  /\ getTypeScriptFieldType 2 [("type", VStr "ARRAY"); ("elementType", VStr "int4")]
       "type" w
     = (Ok "number[]", w).
Proof. repeat split. Qed.

(** C9: when no rule of the static mapper applies to the column type,
    [getTypeScriptFieldType] returns [any] for every stack depth of at
    least one frame, it does not throw, and all it does besides is to log
    one message that names the type: the lower-cased type when the type
    is ASCII text. *)
Theorem getTypeScriptFieldType_fallback
  (stack : nat) (fieldObj : Field) (t : string) (w : World) :
  prop fieldObj "type" = VStr t ->
  staticRuleMatches t = false ->
  exists name,
    getTypeScriptFieldType (S stack) fieldObj "type" w
    = (Ok "any",
       mkWorld (self w) (console w ++ ["Missing TypeScript type: " ++ name]))
    /\ (Js.isAscii t = true -> name = Js.toLowerCase t).
Proof.
  intros Ht Hno. exists (Js.toLowerCase t). split; [|reflexivity].
  unfold staticRuleMatches in Hno.
  repeat (apply orb_false_iff in Hno; destruct Hno as [Hno ?]).
  cbn [getTypeScriptFieldType].
  rewrite (rawFieldType_string _ _ _ Ht), Ht.
  cbn [isStr]. unfold isArray.
  repeat match goal with
         | H : ?b = false |- context [?b] => rewrite H
         end.
  unfold bind, log, ret. cbn.
  destruct (Js.toLowerCase t) eqn:Hl.
  - apply toLowerCase_empty in Hl. subst t. reflexivity.
  - reflexivity.
Qed.

Lemma getTypeScriptFieldType_fallback_witness :
  getTypeScriptFieldType 1 [("type", VStr "XML")] "type"
    (Sample.world Sample.noTables Sample.postgres)
  = (Ok "any",
     mkWorld (self (Sample.world Sample.noTables Sample.postgres))
       ["Missing TypeScript type: xml"]).
Proof.
  destruct (getTypeScriptFieldType_fallback 0 [("type", VStr "XML")] "XML"
              (Sample.world Sample.noTables Sample.postgres)
              eq_refl eq_refl) as (name & H & Hname).
  rewrite (Hname eq_refl) in H. exact H.
Defined.

(** ** More on strings: concatenation, trimming *)

Lemma append_assoc (a b c : string) : (a ++ b) ++ c = a ++ (b ++ c).
Proof. induction a; simpl; congruence. Qed.

Lemma append_nil_r (a : string) : a ++ "" = a.
Proof. induction a; simpl; congruence. Qed.

Lemma append_length (a b : string) :
  String.length (a ++ b) = String.length a + String.length b.
Proof. induction a; simpl; congruence. Qed.

Lemma append_eq_nil (a b : string) : a ++ b = "" -> a = "" /\ b = "".
Proof. destruct a; simpl; [auto|discriminate]. Qed.

Lemma allChars_app (p : ascii -> bool) (a b : string) :
  Js.allChars p (a ++ b) = Js.allChars p a && Js.allChars p b.
Proof.
  induction a as [|c a IH]; simpl; [reflexivity|].
  rewrite IH. now rewrite andb_assoc.
Qed.

Lemma dropEndWhile_nonempty (p : ascii -> bool) (b : string) :
  Js.allChars p b = false -> Js.dropEndWhile p b <> "".
Proof.
  induction b as [|c b IH]; simpl; [discriminate|].
  intros H. destruct (Js.dropEndWhile p b) eqn:E.
  - destruct (p c) eqn:Hc; [|discriminate].
    simpl in H. now apply IH in H.
  - discriminate.
Qed.

Lemma dropEndWhile_app (p : ascii -> bool) (a b : string) :
  Js.allChars p b = false ->
  Js.dropEndWhile p (a ++ b) = a ++ Js.dropEndWhile p b.
Proof.
  intros Hb. induction a as [|c a IH]; simpl; [reflexivity|].
  rewrite IH.
  destruct (a ++ Js.dropEndWhile p b) eqn:E; [|reflexivity].
  apply append_eq_nil in E as [_ E].
  now apply dropEndWhile_nonempty in E.
Qed.

Lemma dropWhile_app_stop (p : ascii -> bool) (a b : string) (c : ascii) :
  p c = false ->
  Js.dropWhile p (a ++ String c b) = Js.dropWhile p a ++ String c b.
Proof.
  intros Hc. induction a as [|d a IH]; simpl.
  - now rewrite Hc.
  - destruct (p d); [exact IH|reflexivity].
Qed.

(** [trim] keeps a middle part that starts with a visible character and
    is followed by one. *)
Lemma trim_middle (a m z : string) (c : ascii) :
  Js.isWhite c = false ->
  Js.allChars Js.isWhite z = false ->
  exists pre post,
    Js.trim (a ++ String c m ++ z) = pre ++ String c m ++ post /\ post <> "".
Proof.
  intros Hc Hz.
  exists (Js.dropWhile Js.isWhite a), (Js.dropEndWhile Js.isWhite z).
  split; [|now apply dropEndWhile_nonempty].
  unfold Js.trim.
  rewrite <- append_assoc, (dropEndWhile_app _ _ _ Hz), append_assoc.
  simpl. now rewrite dropWhile_app_stop.
Qed.

Lemma take_app_length (a b : string) (n : nat) :
  Js.take (String.length a + n) (a ++ b) = a ++ Js.take n b.
Proof.
  induction a as [|c a IH]; simpl.
  - destruct n, b; reflexivity.
  - now rewrite IH.
Qed.

(** [str.substring(0, str.length - 1)] cuts inside a non-empty tail. *)
Lemma substring_init_app (a b : string) :
  b <> "" ->
  exists b',
    Js.substring (a ++ b) 0 (Z.of_nat (String.length (a ++ b)) - 1) = a ++ b'.
Proof.
  intros Hb. exists (Js.take (String.length b - 1) b).
  unfold Js.substring.
  rewrite append_length.
  destruct b as [|c b]; [contradiction|]. simpl String.length.
  replace (Z.to_nat (Z.min (Z.max 0 0) _)) with 0 by lia.
  replace (Z.to_nat (Z.min (Z.max (Z.of_nat (String.length a + S (String.length b)) - 1) 0) _))
    with (String.length a + String.length b) by lia.
  rewrite Nat.min_0_l, Nat.max_0_l, Nat.sub_0_r. simpl Js.drop.
  replace (S (String.length b) - 1) with (String.length b) by lia.
  apply take_app_length.
Qed.

Lemma fold_left_append {A} (f : A -> string) (l : list A) (s : string) :
  fold_left (fun acc x => acc ++ f x) l s
  = s ++ fold_left (fun acc x => acc ++ f x) l "".
Proof.
  revert s. induction l as [|x l IH]; intros s; simpl.
  - now rewrite append_nil_r.
  - rewrite IH, (IH (f x)). now rewrite append_assoc.
Qed.

(** Brings nested concatenations to the right-nested form. *)
Ltac normalize_append :=
  repeat first [rewrite !append_assoc | progress cbn [append]].

(** ** Default values *)

Lemma mssqlDefault_other (name : string) (v : JsVal) :
  name <> "mssql" -> mssqlDefault name v = Ok v.
Proof.
  intros H. apply String.eqb_neq in H.
  unfold mssqlDefault. rewrite H. reflexivity.
Qed.

Lemma mssqlDefault_sentinel (d : string) :
  Js.toLowerCase d = "(newid())" \/ d = "(NULL)" \/ d = "NULL" ->
  mssqlDefault "mssql" (VStr d) = Ok VNull.
Proof.
  intros [H|[->| ->]]; [|reflexivity|reflexivity].
  unfold mssqlDefault.
  destruct d as [|c d]; [discriminate|].
  cbn [String.eqb Ascii.eqb Bool.eqb andb truthy negb].
  rewrite H. reflexivity.
Qed.

(** C7 (as amended): under [mssql] a default that reads [(newid())] in
    any letter case, [(NULL)] or [NULL] is passed over; an undefined
    default is passed over under every dialect; under any other dialect
    the same strings are passed over on a serial key and otherwise go
    through the string conversion and are written as [defaultValue]. *)
Theorem defaultValue_sentinels
  (stack : nat) (g : AutoGenerator) (fieldObj : Field)
  (foreignKey : option FKSpec.t) (str : string) (wrote : bool)
  (d type : string) :
  prop fieldObj "defaultValue" = VStr d ->
  prop fieldObj "type" = VStr type ->
  Js.toLowerCase d = "(newid())" \/ d = "(NULL)" \/ d = "NULL" ->
  let name := DialectOptions.name (dialect g) in
  let text :=
    stringDefault (Js.toLowerCase type) (prop fieldObj "elementType") d in
  (name = "mssql" ->
   forall isSerialKey, defaultValueText g fieldObj isSerialKey = Ok None)
  /\ (name <> "mssql" ->
      defaultValueText g fieldObj true = Ok None
      /\ defaultValueText g fieldObj false = Ok (Some text)
      /\ attrStep stack g fieldObj foreignKey false (str, wrote) "defaultValue"
         = Ok (str ++ (sp g 3 ++ "defaultValue: " ++ text) ++ "," ++ nl, wrote))
  /\ (forall (other : Field) (isSerialKey : bool),
        prop other "defaultValue" = VUndef ->
        defaultValueText g other isSerialKey = Ok None).
Proof.
  intros Hd Ht Hs name text. repeat split.
  - intros Hn isSerialKey. unfold defaultValueText.
    fold name. rewrite Hn, Hd, (mssqlDefault_sentinel d Hs). reflexivity.
  - unfold defaultValueText. fold name.
    rewrite Hd, (mssqlDefault_other _ _ H). reflexivity.
  - unfold defaultValueText. fold name.
    rewrite Hd, (mssqlDefault_other _ _ H). cbn. rewrite Ht. reflexivity.
  - unfold attrStep, defaultValueText. fold name.
    rewrite Hd, (mssqlDefault_other _ _ H). cbn. rewrite Ht. reflexivity.
  - intros other isSerialKey Ho. unfold defaultValueText, mssqlDefault.
    rewrite Ho. destruct (String.eqb (DialectOptions.name (dialect g)) "mssql");
      reflexivity.
Qed.

Lemma defaultValue_sentinels_witness :
  let g := self (Sample.world Sample.noTables Sample.postgres) in
  let fieldObj := [("type", VStr "varchar(10)"); ("defaultValue", VStr "NULL")] in
  ("postgres" = "mssql" ->
   forall isSerialKey, defaultValueText g fieldObj isSerialKey = Ok None)
  /\ ("postgres" <> "mssql" ->
      defaultValueText g fieldObj true = Ok None
      /\ defaultValueText g fieldObj false = Ok (Some (dq ++ "NULL" ++ dq))
      /\ attrStep 1 g fieldObj None false ("", false) "defaultValue"
         = Ok ("      defaultValue: " ++ dq ++ "NULL" ++ dq ++ "," ++ nl, false))
  /\ (forall (other : Field) (isSerialKey : bool),
        prop other "defaultValue" = VUndef ->
        defaultValueText g other isSerialKey = Ok None).
Proof.
  apply (defaultValue_sentinels 1
           (self (Sample.world Sample.noTables Sample.postgres))
           [("type", VStr "varchar(10)"); ("defaultValue", VStr "NULL")]
           None "" false "NULL" "varchar(10)").
  - reflexivity.
  - reflexivity.
  - right. right. reflexivity.
Defined.

(** C7 as stated fails: under [postgres] an undefined default is passed
    over as well, and the string [NULL] is passed over on a serial key. *)
Lemma defaultValue_sentinels_counterexample :
  let g := self (Sample.world Sample.noTables Sample.postgres) in
  DialectOptions.name (dialect g) <> "mssql"
  /\ defaultValueText g
       [("type", VStr "varchar(10)"); ("defaultValue", VUndef)] false
     = Ok None
  /\ attrStep 1 g [("type", VStr "integer"); ("defaultValue", VStr "NULL")]
       None true ("", true) "defaultValue"
     = Ok ("", true).
Proof. repeat split. discriminate. Qed.

(** Under [mssql] the same descriptors lose their default. *)
Example defaultValue_mssql :
  let g := self (Sample.world Sample.noTables Sample.mssql) in
  defaultValueText g [("type", VStr "uniqueidentifier");
                      ("defaultValue", VStr "(NEWID())")] false = Ok None
  /\ defaultValueText g [("type", VStr "int"); ("defaultValue", VStr "(NULL)")]
       false = Ok None
  /\ defaultValueText g [("type", VStr "int"); ("defaultValue", VStr "((0))")]
       false = Ok (Some "0").
Proof. repeat split. Qed.

(** *** Escaping, character by character *)

Lemma replaceChar_app (c : ascii) (r a b : string) :
  Js.replaceChar c r (a ++ b) = Js.replaceChar c r a ++ Js.replaceChar c r b.
Proof.
  induction a as [|x a IH]; simpl; [reflexivity|].
  now rewrite IH, append_assoc.
Qed.

Lemma escapeSpecial_app (a b : string) :
  escapeSpecial (a ++ b) = escapeSpecial a ++ escapeSpecial b.
Proof. unfold escapeSpecial. now rewrite !replaceChar_app. Qed.

Lemma escapeSpecial_cons (c : ascii) (s : string) :
  escapeSpecial (String c s) = escapeSpecial (String c "") ++ escapeSpecial s.
Proof. exact (escapeSpecial_app (String c "") s). Qed.

Ltac each_char c :=
  destruct c as [[] [] [] [] [] [] [] []]; vm_compute.

Lemma escapeSpecial_char_plain (c : ascii) :
  needsEscape c = false -> escapeSpecial (String c "") = String c "".
Proof. each_char c; intros H; (reflexivity || discriminate H). Qed.

Lemma escapeSpecial_char_escaped (c : ascii) :
  needsEscape c = true ->
  exists x, escapeSpecial (String c "") = String "092" x.
Proof.
  each_char c; intros H; try discriminate H; eexists; reflexivity.
Qed.

Lemma keywordChar_lower_plain (c : ascii) :
  keywordChar (Js.lowerChar c) = true ->
  needsEscape c = false /\ Ascii.eqb c ")" = false /\ Ascii.eqb c "092" = false.
Proof. each_char c; intros H; try discriminate H; repeat split. Qed.

Lemma escapeSpecial_plain (s : string) :
  Js.allChars (fun c => negb (needsEscape c)) s = true -> escapeSpecial s = s.
Proof.
  induction s as [|c s IH]; [reflexivity|].
  simpl. intros H. apply andb_true_iff in H as [Hc Hs].
  apply negb_true_iff in Hc.
  rewrite escapeSpecial_cons, (escapeSpecial_char_plain c Hc), (IH Hs).
  reflexivity.
Qed.

Lemma escapeSpecial_backslash (s : string) :
  Js.allChars (fun c => negb (needsEscape c)) s = false ->
  Js.allChars (fun c => negb (Ascii.eqb c "092")) (escapeSpecial s) = false.
Proof.
  induction s as [|c s IH]; [discriminate|].
  simpl. intros H.
  rewrite escapeSpecial_cons, allChars_app.
  destruct (needsEscape c) eqn:Hc.
  - destruct (escapeSpecial_char_escaped c Hc) as (x & ->). reflexivity.
  - simpl in H. rewrite (IH H). apply andb_false_r.
Qed.

Lemma allChars_toLowerCase (p : ascii -> bool) (s : string) :
  Js.allChars p (Js.toLowerCase s)
  = Js.allChars (fun c => p (Js.lowerChar c)) s.
Proof. induction s as [|c s IH]; simpl; [reflexivity|]. now rewrite <- IH. Qed.

Lemma allChars_impl (p q : ascii -> bool) (s : string) :
  (forall c, p c = true -> q c = true) ->
  Js.allChars p s = true -> Js.allChars q s = true.
Proof.
  intros Hpq. induction s as [|c s IH]; simpl; [reflexivity|].
  intros H. apply andb_true_iff in H as [Hc Hs].
  now rewrite (Hpq c Hc), (IH Hs).
Qed.

Lemma sqlKeywords_chars (k : string) :
  existsb (String.eqb k) sqlKeywords = true ->
  Js.allChars keywordChar k = true.
Proof.
  intros H. apply existsb_exists in H as (x & Hin & E).
  apply String.eqb_eq in E. subst x.
  repeat (destruct Hin as [<-|Hin]; [reflexivity|]). contradiction.
Qed.

(** A default that is an SQL keyword up to letter case has nothing to
    escape and does not end with a parenthesis. *)
Lemma keyword_default (d : string) :
  existsb (String.eqb (Js.toLowerCase d)) sqlKeywords = true ->
  escapeSpecial d = d
  /\ Js.allChars (fun c => negb (Ascii.eqb c ")")) d = true.
Proof.
  intros H. apply sqlKeywords_chars in H.
  rewrite allChars_toLowerCase in H. split.
  - apply escapeSpecial_plain. revert H. apply allChars_impl.
    intros c Hc. now destruct (keywordChar_lower_plain c Hc) as (-> & _).
  - revert H. apply allChars_impl.
    intros c Hc. now destruct (keywordChar_lower_plain c Hc) as (_ & -> & _).
Qed.

(** Escaping does not turn a default into a keyword, or a keyword into
    something else. *)
Lemma keyword_test_escaped (d : string) :
  existsb (String.eqb (Js.toLowerCase (escapeSpecial d))) sqlKeywords
  = existsb (String.eqb (Js.toLowerCase d)) sqlKeywords.
Proof.
  destruct (Js.allChars (fun c => negb (needsEscape c)) d) eqn:Hd.
  - now rewrite (escapeSpecial_plain d Hd).
  - destruct (existsb (String.eqb (Js.toLowerCase d)) sqlKeywords) eqn:E.
    + destruct (keyword_default d E) as [Hp _].
      now rewrite Hp.
    + destruct (existsb (String.eqb (Js.toLowerCase (escapeSpecial d)))
                  sqlKeywords) eqn:E'; [|reflexivity].
      apply sqlKeywords_chars in E'. rewrite allChars_toLowerCase in E'.
      apply escapeSpecial_backslash in Hd.
      rewrite (allChars_impl (fun c => keywordChar (Js.lowerChar c))
                 (fun c => negb (Ascii.eqb c "092")) (escapeSpecial d)) in Hd;
        [discriminate| |exact E'].
      intros c Hc. now destruct (keywordChar_lower_plain c Hc) as (_ & _ & ->).
Qed.

Lemma endsWith_last (p : ascii -> bool) (s x : string) (c : ascii) :
  p c = false ->
  Js.allChars p s = true ->
  Js.endsWith s (x ++ String c "") = false.
Proof.
  intros Hc. induction s as [|a s IH]; intros Hs.
  - simpl. destruct x; reflexivity.
  - simpl in Hs. apply andb_true_iff in Hs as [Ha Hs].
    cbn [Js.endsWith]. rewrite (IH Hs), orb_false_r.
    apply String.eqb_neq. intros E.
    assert (Hx : Js.allChars p (x ++ String c "") = true).
    { rewrite <- E. simpl. now rewrite Ha, Hs. }
    rewrite allChars_app in Hx. simpl in Hx.
    rewrite Hc in Hx. now rewrite andb_false_r in Hx.
Qed.

Lemma date_type_tests (field_type : string) :
  Js.startsWith field_type "date" = true
  \/ Js.startsWith field_type "timestamp" = true ->
  String.eqb field_type "bit(1)" = false
  /\ String.eqb field_type "bit" = false
  /\ String.eqb field_type "boolean" = false
  /\ Js.startsWith field_type "array" = false
  /\ isNumber field_type = false
  /\ Js.startsWith field_type "json" = false
  /\ String.eqb field_type "uuid" = false.
Proof.
  intros [H|H]; apply startsWith_split in H; rewrite H; repeat split.
Qed.

(** C8 (as amended): on a column whose lower-cased type begins with
    [date] or [timestamp] and does not end with [range], a string default
    that passes the dialect filter on a column that is not a serial key is
    written as the raw-SQL wrapper around the default itself when it is
    one of the five keywords up to letter case, as the function wrapper
    when its escaped text ends with [()] or [())], and as the quoted
    escaped text otherwise. *)
Theorem defaultValue_date_keyword
  (g : AutoGenerator) (fieldObj : Field) (type d : string) :
  prop fieldObj "type" = VStr type ->
  prop fieldObj "defaultValue" = VStr d ->
  Js.startsWith (Js.toLowerCase type) "date" = true
  \/ Js.startsWith (Js.toLowerCase type) "timestamp" = true ->
  Js.endsWith (Js.toLowerCase type) "range" = false ->
  mssqlDefault (DialectOptions.name (dialect g)) (VStr d) = Ok (VStr d) ->
  let escaped := escapeSpecial d in
  defaultValueText g fieldObj false
  = Ok (Some
          (if existsb (String.eqb (Js.toLowerCase d)) sqlKeywords then
             "Sequelize.Sequelize.literal('" ++ d ++ "')"
           else if Js.endsWith escaped "()" || Js.endsWith escaped "())" then
             "Sequelize.Sequelize.fn('" ++ Js.removeChars Re.isParen escaped ++ "')"
           else dq ++ escaped ++ dq)).
Proof.
  intros Ht Hd Hdate Hrange Hfilter escaped.
  unfold defaultValueText. rewrite Hd, Hfilter. cbn [rbind]. rewrite Ht.
  do 2 f_equal.
  unfold stringDefault, isArray. fold escaped.
  destruct (date_type_tests _ Hdate) as (-> & -> & -> & -> & -> & -> & ->).
  rewrite Hrange. cbn [orb andb].
  replace (Js.startsWith (Js.toLowerCase type) "date"
           || Js.startsWith (Js.toLowerCase type) "timestamp") with true
    by (destruct Hdate as [-> | ->]; [reflexivity|now rewrite orb_true_r]).
  unfold escaped. rewrite keyword_test_escaped.
  destruct (existsb (String.eqb (Js.toLowerCase d)) sqlKeywords) eqn:E.
  - destruct (keyword_default d E) as [-> Hp].
    pose proof (endsWith_last _ d "(" ")" eq_refl Hp) as H1.
    pose proof (endsWith_last _ d "()" ")" eq_refl Hp) as H2.
    cbn [append] in H1, H2. rewrite H1, H2.
    reflexivity.
  - destruct (Js.endsWith (escapeSpecial d) "()"
              || Js.endsWith (escapeSpecial d) "())"); reflexivity.
Qed.

Lemma defaultValue_date_keyword_witness :
  defaultValueText (self (Sample.world Sample.noTables Sample.mysql))
    [("type", VStr "TIMESTAMP"); ("defaultValue", VStr "Current_Timestamp")]
    false
  = Ok (Some "Sequelize.Sequelize.literal('Current_Timestamp')").
Proof.
  apply (defaultValue_date_keyword
           (self (Sample.world Sample.noTables Sample.mysql))
           [("type", VStr "TIMESTAMP"); ("defaultValue", VStr "Current_Timestamp")]
           "TIMESTAMP" "Current_Timestamp").
  - reflexivity.
  - reflexivity.
  - right. reflexivity.
  - reflexivity.
  - reflexivity.
Defined.

(** C8 as stated fails: on a [timestamp] column the default [now()] is
    neither a keyword nor written as a quoted string, and on a
    [daterange] column the keyword [current_date] becomes a list. *)
Lemma defaultValue_date_keyword_counterexample :
  let g := self (Sample.world Sample.noTables Sample.postgres) in
  defaultValueText g
    [("type", VStr "timestamp"); ("defaultValue", VStr "now()")] false
  = Ok (Some "Sequelize.Sequelize.fn('now')")
  /\ defaultValueText g
       [("type", VStr "daterange"); ("defaultValue", VStr "current_date")] false
     = Ok (Some "[current_date]").
Proof. split; reflexivity. Qed.

(** Other defaults of a date column. *)
Example defaultValue_date_quoted :
  let g := self (Sample.world Sample.noTables Sample.mysql) in
  defaultValueText g
    [("type", VStr "DATETIME"); ("defaultValue", VStr "0000-00-00 00:00:00")]
    false
  = Ok (Some (dq ++ "0000-00-00 00:00:00" ++ dq))
  /\ defaultValueText g
       [("type", VStr "date"); ("defaultValue", VStr "2020/01/01")] false
     = Ok (Some (dq ++ "2020" ++ backslash ++ "/01" ++ backslash ++ "/01" ++ dq)).
Proof. split; reflexivity. Qed.

(** ** The text of [addField] *)

Lemma isTimestampField_state (field : string) (w : World) :
  snd (isTimestampField field w) = w.
Proof.
  unfold isTimestampField, bind, this, lift, ret. cbn.
  destruct (Options.additional (options (self w))) as [additional|];
    [|reflexivity].
  destruct (isBool (prop additional "timestamps") false); reflexivity.
Qed.

Lemma isParanoidField_state (field : string) (w : World) :
  snd (isParanoidField field w) = w.
Proof.
  unfold isParanoidField, bind, this, lift, ret. cbn.
  destruct (Options.additional (options (self w))) as [additional|];
    [|reflexivity].
  destruct (isBool (prop additional "timestamps") false
            || isBool (prop additional "paranoid") false); reflexivity.
Qed.

(** A round of the attribute loop only adds text. *)
Lemma attrStep_appends (stack : nat) (g : AutoGenerator) (fieldObj : Field)
  (foreignKey : option FKSpec.t) (isSerialKey : bool)
  (str str' : string) (wrote wrote' : bool) (attr : string) :
  attrStep stack g fieldObj foreignKey isSerialKey (str, wrote) attr
  = Ok (str', wrote') ->
  exists x, str' = str ++ x.
Proof.
  unfold attrStep, rbind. cbn [fst snd].
  intros H.
  repeat match type of H with
         | context [if ?b then _ else _] => destruct b
         | context [match ?x with _ => _ end] => destruct x
         end;
    try discriminate H;
    injection H as <- _;
    solve [ exists ""; now rewrite append_nil_r
          | eexists; rewrite ?append_assoc; reflexivity ].
Qed.

Lemma foldResult_appends (stack : nat) (g : AutoGenerator) (fieldObj : Field)
  (foreignKey : option FKSpec.t) (isSerialKey : bool) (attrs : list string) :
  forall (str str' : string) (wrote wrote' : bool),
    foldResult (attrStep stack g fieldObj foreignKey isSerialKey) attrs
      (str, wrote) = Ok (str', wrote') ->
    exists x, str' = str ++ x.
Proof.
  induction attrs as [|attr attrs IH]; intros str str' wrote wrote' H.
  - injection H as <- _. exists "". now rewrite append_nil_r.
  - cbn [foldResult] in H. unfold rbind in H.
    destruct (attrStep stack g fieldObj foreignKey isSerialKey (str, wrote) attr)
      as [[s1 b1]|e] eqn:E; [|discriminate].
    apply attrStep_appends in E as (x & ->).
    apply IH in H as (y & ->).
    exists (x ++ y). now rewrite append_assoc.
Qed.

Lemma isIdentStart_visible (c : ascii) :
  Re.isIdentStart c = true -> Js.isWhite c = false.
Proof. each_char c; intros H; (reflexivity || discriminate H). Qed.

(** A quoted name starts with a visible character. *)
Lemma quoteName_head (name : string) :
  exists c r, quoteName name = String c r /\ Js.isWhite c = false.
Proof.
  unfold quoteName. destruct (Re.identifier name) eqn:E.
  - destruct name as [|c r]; [discriminate|].
    simpl in E. apply andb_true_iff in E as [Hc _].
    exists c, r. split; [reflexivity|now apply isIdentStart_visible].
  - eexists. eexists. split; reflexivity.
Qed.


Lemma attachForeignKey_keeps (table field : string) (fk : FKSpec.t)
  (g : AutoGenerator) :
  dialect (attachForeignKey table field fk g) = dialect g
  /\ foreignKeys (attachForeignKey table field fk g) = foreignKeys g
  /\ hasTriggerTables (attachForeignKey table field fk g) = hasTriggerTables g
  /\ indexes (attachForeignKey table field fk g) = indexes g
  /\ relations (attachForeignKey table field fk g) = relations g
  /\ space (attachForeignKey table field fk g) = space g
  /\ options (attachForeignKey table field fk g) = options g.
Proof.
  unfold attachForeignKey.
  destruct (Obj.get table (tables g)) as [t|]; [|repeat split].
  destruct (Obj.get field t); repeat split.
Qed.

Section Attributes.

Variable recase : option string -> string -> bool -> string.
Variable stack : nat.

Abbreviation addFieldOf := (addField recase stack).


End Attributes.


(** The primary key [ID], property [id]: no [field] line under a dialect
    that cannot alias primary keys, one under a dialect that can. *)
Example addField_primary_key_case :
  (exists out w',
      addField Sample.lowerRecase 2 "items" "ID"
        (Sample.world Sample.items Sample.mysql) = (Ok out, w')
      /\ Js.includes out "field: " = false)
  /\ (exists out w',
         addField Sample.lowerRecase 2 "items" "ID"
           (Sample.world Sample.items Sample.postgres) = (Ok out, w')
         /\ Js.endsWith out ("field: 'ID'" ++ nl ++ "    }," ++ nl) = true).
Proof.
  split; eexists; eexists; (split; [vm_compute; reflexivity|reflexivity]).
Qed.

(** ** What a run changes in the instance *)

Lemma set_twice {A} (k : string) (v : A) (o : Obj.t A) :
  Obj.set k v (Obj.set k v o) = Obj.set k v o.
Proof.
  induction o as [|[k' v'] o IH]; simpl.
  - now rewrite String.eqb_refl.
  - destruct (String.eqb k' k) eqn:E; simpl.
    + now rewrite String.eqb_refl.
    + now rewrite E, IH.
Qed.

Lemma sameKeys_refl {A} (R : string -> A -> A -> Prop) (o : Obj.t A) :
  (forall k v, R k v v) -> sameKeys R o o.
Proof.
  intros HR. induction o as [|[k v] o IH]; constructor; auto.
Qed.

Lemma sameKeys_trans {A} (R : string -> A -> A -> Prop) (o1 o2 o3 : Obj.t A) :
  (forall k a b c, R k a b -> R k b c -> R k a c) ->
  sameKeys R o1 o2 -> sameKeys R o2 o3 -> sameKeys R o1 o3.
Proof.
  intros HR H12. revert o3.
  induction H12 as [|[k1 v1] [k2 v2] o1 o2 [Hk HR12] _ IH]; intros o3 H23.
  - inversion H23. constructor.
  - inversion H23 as [|x [k3 v3] l o3' [Hk' HR23] Hrest]; subst x l o3.
    cbn [fst snd] in *. subst k2 k3.
    constructor.
    + cbn [fst snd]. split; [reflexivity|]. exact (HR _ _ _ _ HR12 HR23).
    + apply IH. exact Hrest.
Qed.

Lemma sameKeys_set {A} (R : string -> A -> A -> Prop) (o : Obj.t A)
  (k : string) (v v' : A) :
  (forall k v, R k v v) ->
  Obj.get k o = Some v -> R k v v' -> sameKeys R o (Obj.set k v' o).
Proof.
  intros Hrefl. induction o as [|[k0 v0] o IH]; simpl; [discriminate|].
  destruct (String.eqb k0 k) eqn:E; intros Hget HR.
  - apply String.eqb_eq in E. injection Hget as ->. subst k0.
    constructor.
    + cbn [fst snd]. split; [reflexivity|exact HR].
    + apply sameKeys_refl. exact Hrefl.
  - constructor.
    + cbn [fst snd]. split; [reflexivity|apply Hrefl].
    + apply IH; assumption.
Qed.

Lemma sameKeys_impl {A} (R R' : string -> A -> A -> Prop) (o o' : Obj.t A) :
  (forall k a b, R k a b -> R' k a b) -> sameKeys R o o' -> sameKeys R' o o'.
Proof.
  intros HR H. induction H as [|? ? ? ? [Hk Hv] _ IH]; constructor; auto.
Qed.

Lemma descriptorStep_refl (g : AutoGenerator) (table field : string) (d : Field) :
  descriptorStep g table field d d.
Proof. now left. Qed.

Lemma descriptorStep_trans (g : AutoGenerator) (table field : string)
  (a b c : Field) :
  descriptorStep g table field a b -> descriptorStep g table field b c ->
  descriptorStep g table field a c.
Proof.
  intros [->|(fk & Hfk & ->)] [->|(fk' & Hfk' & ->)].
  - now left.
  - right. eauto.
  - right. eauto.
  - right. exists fk. split; [assumption|].
    rewrite Hfk in Hfk'. injection Hfk' as <-. apply set_twice.
Qed.

Lemma descriptorStep_foreignKeys (g g' : AutoGenerator) (table field : string)
  (a b : Field) :
  foreignKeys g' = foreignKeys g ->
  descriptorStep g' table field a b -> descriptorStep g table field a b.
Proof.
  intros E [->|(fk & Hfk & ->)]; [now left|right].
  exists fk. split; [|reflexivity].
  unfold foreignKeyOf in *. now rewrite <- E.
Qed.

Lemma tablesStep_refl (g : AutoGenerator) (t : Obj.t (Obj.t Field)) :
  tablesStep g t t.
Proof.
  apply sameKeys_refl. intros table fs.
  apply sameKeys_refl. intros. apply descriptorStep_refl.
Qed.

Lemma tablesStep_trans (g : AutoGenerator) (a b c : Obj.t (Obj.t Field)) :
  tablesStep g a b -> tablesStep g b c -> tablesStep g a c.
Proof.
  apply sameKeys_trans. intros table x y z.
  apply sameKeys_trans. intros field. apply descriptorStep_trans.
Qed.

Lemma optionsStep_trans (a b c : Options.t) :
  optionsStep a b -> optionsStep b c -> optionsStep a c.
Proof.
  intros [->| ->] [->| ->]; [now left|now right|now right|now right].
Qed.

Lemma preserved_refl (g : AutoGenerator) : preserved g g.
Proof.
  repeat split; [now left|apply tablesStep_refl].
Qed.

Lemma preserved_trans (g1 g2 g3 : AutoGenerator) :
  preserved g1 g2 -> preserved g2 g3 -> preserved g1 g3.
Proof.
  intros (Hd & Hf & Hh & Hi & Hr & Hs & Ho & Ht)
         (Hd' & Hf' & Hh' & Hi' & Hr' & Hs' & Ho' & Ht').
  repeat split; try congruence.
  - eapply optionsStep_trans; eassumption.
  - eapply tablesStep_trans; [exact Ht|].
    revert Ht'. apply sameKeys_impl. intros table x y.
    apply sameKeys_impl. intros field u v.
    now apply descriptorStep_foreignKeys.
Qed.

Lemma preserved_attachForeignKey (g : AutoGenerator) (table field : string)
  (fk : FKSpec.t) :
  foreignKeyOf g table field = Some fk ->
  preserved g (attachForeignKey table field fk g).
Proof.
  intros Hfk.
  destruct (attachForeignKey_keeps table field fk g)
    as (Hd & Hf & Hh & Hi & Hr & Hs & Ho).
  repeat split; try assumption.
  - left. exact Ho.
  - unfold attachForeignKey.
    destruct (Obj.get table (tables g)) as [t|] eqn:Et;
      [|apply tablesStep_refl].
    destruct (Obj.get field t) as [d|] eqn:Ed; [|apply tablesStep_refl].
    cbn [tables with_tables].
    apply (sameKeys_set _ _ _ t); [| exact Et |].
    + intros k v. apply sameKeys_refl. intros. apply descriptorStep_refl.
    + apply (sameKeys_set _ _ _ d); [| exact Ed |].
      * intros. apply descriptorStep_refl.
      * right. eauto.
Qed.

Lemma preserved_forceNoAlias (g : AutoGenerator) : preserved g (forceNoAlias g).
Proof.
  repeat split; [now right|apply tablesStep_refl].
Qed.

Lemma keepsAt_ret {A} (a : A) (w : World) : keepsAt (ret a) w.
Proof. apply preserved_refl. Qed.

Lemma keepsAt_lift {A} (r : result A) (w : World) : keepsAt (lift r) w.
Proof. apply preserved_refl. Qed.

Lemma keepsAt_this (w : World) : keepsAt this w.
Proof. apply preserved_refl. Qed.

Lemma keepsAt_log (msg : string) (w : World) : keepsAt (log msg) w.
Proof. apply preserved_refl. Qed.

Lemma keepsAt_bind {A B} (m : M A) (k : A -> M B) (w : World) :
  keepsAt m w ->
  (forall a w1, m w = (Ok a, w1) -> keepsAt (k a) w1) ->
  keepsAt (bind m k) w.
Proof.
  unfold keepsAt, bind. intros Hm Hk.
  destruct (m w) as [[a|e] w1]; cbn [snd] in *; [|exact Hm].
  eapply preserved_trans; [exact Hm|]. now apply Hk.
Qed.

Lemma keepsAt_forEach {A S} (f : S -> A -> M S) (l : list A) :
  (forall s x w, keepsAt (f s x) w) ->
  forall s w, keepsAt (forEach l f s) w.
Proof.
  intros Hf. induction l as [|x l IH]; intros s w; cbn [forEach].
  - apply keepsAt_ret.
  - apply keepsAt_bind; [apply Hf|]. intros. apply IH.
Qed.

Lemma keepsAt_some {A} (p : A -> M bool) (l : list A) :
  (forall x w, keepsAt (p x) w) ->
  forall w, keepsAt (some l p) w.
Proof.
  intros Hp. induction l as [|x l IH]; intros w; cbn [some].
  - apply keepsAt_ret.
  - apply keepsAt_bind; [apply Hp|].
    intros [] w1 _; [apply keepsAt_ret|apply IH].
Qed.

Lemma keepsAt_isTimestampField (field : string) (w : World) :
  keepsAt (isTimestampField field) w.
Proof.
  unfold keepsAt. rewrite isTimestampField_state. apply preserved_refl.
Qed.

Lemma keepsAt_isParanoidField (field : string) (w : World) :
  keepsAt (isParanoidField field) w.
Proof.
  unfold keepsAt. rewrite isParanoidField_state. apply preserved_refl.
Qed.

Create HintDb keeps.
#[local] Hint Resolve keepsAt_isTimestampField keepsAt_isParanoidField : keeps.

(** One step through a computation of [M]. *)
Ltac keeps_step :=
  cbv beta zeta;
  match goal with
  | |- keepsAt (ret _) _ => apply keepsAt_ret
  | |- keepsAt (lift _) _ => apply keepsAt_lift
  | |- keepsAt this _ => apply keepsAt_this
  | |- keepsAt (log _) _ => apply keepsAt_log
  | |- keepsAt (bind _ _) _ => apply keepsAt_bind; [|intros ? ? _]
  | |- keepsAt (forEach _ _ _) _ => apply keepsAt_forEach; intros
  | |- keepsAt (some _ _) _ => apply keepsAt_some; intros
  | |- keepsAt (if ?b then _ else _) _ => destruct b
  | |- keepsAt (match ?x with _ => _ end) _ => destruct x
  | |- keepsAt _ _ => solve [auto with keeps]
  end.

Lemma keepsAt_getTypeScriptFieldType (stack : nat) :
  forall (fieldObj : Field) (attr : string) (w : World),
    keepsAt (getTypeScriptFieldType stack fieldObj attr) w.
Proof.
  induction stack as [|stack IH]; intros fieldObj attr w;
    cbn [getTypeScriptFieldType]; [apply keepsAt_lift|].
  repeat first [apply IH | keeps_step].
Qed.
#[local] Hint Resolve keepsAt_getTypeScriptFieldType : keeps.



(** A property of every element of a loop that returns, given an
    invariant of the state that its rounds keep. *)
Lemma forEach_all {A S} (I : World -> Prop) (P : A -> Prop)
  (f : S -> A -> M S) :
  (forall s x w s' w', I w -> f s x w = (Ok s', w') -> P x /\ I w') ->
  forall l s w s' w',
    I w -> forEach l f s w = (Ok s', w') -> Forall P l.
Proof.
  intros Hf. induction l as [|x l IH]; intros s w s' w' Hi H; [constructor|].
  cbn [forEach] in H. unfold bind in H.
  destruct (f s x w) as [[s1|e] w1] eqn:E; [|discriminate].
  destruct (Hf _ _ _ _ _ Hi E) as (Hp & Hi1).
  constructor; [exact Hp|]. eapply IH; eassumption.
Qed.

(** One step through a run that returned. *)
Ltac run_step H :=
  cbv beta iota zeta in H;
  match type of H with
  | (let (_, _) := ?m in _) = _ =>
      let E := fresh "E" in
      destruct m as [[?|?] ?] eqn:E; [|discriminate H]
  | (match ?x with _ => _ end) = _ =>
      let E := fresh "E" in destruct x eqn:E; try discriminate H
  | (match ?x with _ => _ end) _ = _ =>
      let E := fresh "E" in destruct x eqn:E; try discriminate H
  end.



Section Run.

Variable recase : option string -> string -> bool -> string.
Variable qNameSplit : string -> option string * string.
Variable pluralize : string -> string.
Variable stack : nat.

Lemma keepsAt_fieldText (table field : string) (foreignKey : option FKSpec.t)
  (w : World) :
  keepsAt (fieldText recase stack table field foreignKey) w.
Proof. unfold fieldText. repeat keeps_step. Qed.

Lemma keepsAt_addField (table field : string) (w : World) :
  keepsAt (addField recase stack table field) w.
Proof.
  unfold addField.
  apply keepsAt_bind; [apply keepsAt_this|].
  intros g w1 H. injection H as <- <-.
  apply keepsAt_bind; [apply keepsAt_lift|].
  intros f w1 H. injection H as _ <-.
  apply keepsAt_bind; [|intros; apply keepsAt_fieldText].
  destruct (foreignKeyOf (self w) table field) as [fk|] eqn:E;
    [|apply keepsAt_ret].
  now apply preserved_attachForeignKey.
Qed.

Lemma keepsAt_addTypeScriptFields (table : string) (forFind : bool) (w : World) :
  keepsAt (addTypeScriptFields recase stack table forFind) w.
Proof.
  unfold addTypeScriptFields, getTypeScriptFieldOptional, getIsAutoIncrement,
    getTypeScriptType.
  repeat keeps_step.
Qed.

Lemma keepsAt_addTable (table : string) (w : World) :
  keepsAt (addTable recase qNameSplit pluralize stack table) w.
Proof.
  unfold addTable.
  apply keepsAt_bind; [apply keepsAt_this|]. intros g w1 _.
  destruct (qNameSplit table) as [schemaName tableNameOrig].
  apply keepsAt_bind.
  - apply keepsAt_forEach. intros [[timestamps paranoid] str] field w2.
    repeat first [apply keepsAt_addField | keeps_step].
  - intros [[timestamps paranoid] str] w2 _.
    apply keepsAt_bind; [apply keepsAt_this|]. intros g2 w3 _.
    apply keepsAt_bind; [apply preserved_forceNoAlias|]. intros _ w4 _.
    repeat keeps_step.
Qed.


End Run.



(** ** The shape of the text of [addTable] *)

Lemma isTimestampField_run (a : Obj.t JsVal) (field : string) (w : World) :
  Options.additional (options (self w)) = Some a ->
  isTimestampField field w = (Ok (isTimestampName a field), w).
Proof.
  intros Ha. unfold isTimestampField, isTimestampName, bind, this, ret.
  rewrite Ha. destruct (isBool (prop a "timestamps") false); reflexivity.
Qed.

Lemma isParanoidField_run (a : Obj.t JsVal) (field : string) (w : World) :
  Options.additional (options (self w)) = Some a ->
  isParanoidField field w = (Ok (isParanoidName a field), w).
Proof.
  intros Ha. unfold isParanoidField, isParanoidName, bind, this, ret.
  rewrite Ha.
  destruct (isBool (prop a "timestamps") false
            || isBool (prop a "paranoid") false); reflexivity.
Qed.

Lemma preserved_additional (g g' : AutoGenerator) :
  preserved g g' ->
  Options.additional (options g') = Options.additional (options g).
Proof.
  intros (_ & _ & _ & _ & _ & _ & [->| ->] & _); reflexivity.
Qed.

(** The flags after a loop whose rounds behave as the rounds of
    [addTable] do. *)
Lemma flags_loop {A} (a : Obj.t JsVal) (f : bool * bool * A -> string -> M (bool * bool * A)) :
  (forall ts par x field w ts' par' x' w',
      Options.additional (options (self w)) = Some a ->
      f (ts, par, x) field w = (Ok (ts', par', x'), w') ->
      ts' = ts || isTimestampName a field
      /\ par' = par || isParanoidName a field
      /\ Options.additional (options (self w')) = Some a) ->
  forall fields ts par x w ts' par' x' w',
    Options.additional (options (self w)) = Some a ->
    forEach fields f (ts, par, x) w = (Ok (ts', par', x'), w') ->
    ts' = ts || existsb (isTimestampName a) fields
    /\ par' = par || existsb (isParanoidName a) fields.
Proof.
  intros Hf. induction fields as [|field fields IH];
    intros ts par x w ts' par' x' w' Ha H.
  - injection H as <- <- _ _. now rewrite !orb_false_r.
  - cbn [forEach] in H. unfold bind in H.
    destruct (f (ts, par, x) field w) as [[[[ts1 par1] x1]|e] w1] eqn:E;
      [|discriminate].
    destruct (Hf _ _ _ _ _ _ _ _ _ Ha E) as (-> & -> & Ha1).
    destruct (IH _ _ _ _ _ _ _ _ Ha1 H) as (-> & ->).
    cbn [existsb]. now rewrite !orb_assoc.
Qed.

Section Shape.

Variable recase : option string -> string -> bool -> string.
Variable qNameSplit : string -> option string * string.
Variable pluralize : string -> string.
Variable stack : nat.

Abbreviation addTableOf := (addTable recase qNameSplit pluralize stack).

(** The text returned by [addTable] holds, after the opening of the
    options block, the option lines for the [timestamps] and [paranoid]
    that the field loop computes, then the association comments computed
    with [options.noAlias] already set, then the closing brace of the
    [associate] function. *)
Lemma addTable_text (table : string) (w w' : World) (out : string) :
  addTableOf table w = (Ok out, w') ->
  noAliasSet (self w') = true
  /\ Options.additional (options (self w'))
     = Options.additional (options (self w))
  /\ exists pre post,
      out = pre ++ "}, {" ++ nl
            ++ optionLines (self w') table (fst (qNameSplit table))
                 (snd (qNameSplit table)) (tableTimestamps (self w) table)
                 (tableParanoid (self w) table) (fieldsOf (self w) table)
            ++ associateOpen (self w')
            ++ assocLines pluralize (self w') (snd (qNameSplit table))
            ++ sp (self w') 2 ++ "}" ++ post.
Proof.
  intros H.
  assert (Hadd : Options.additional (options (self w'))
                 = Options.additional (options (self w))).
  { pose proof (keepsAt_addTable recase qNameSplit pluralize stack table w) as Hk.
    unfold keepsAt in Hk. rewrite H in Hk. cbn [snd] in Hk.
    now apply preserved_additional. }
  revert H.
  unfold addTable, bind, this, modify, lift, ret. cbn beta iota.
  destruct (qNameSplit table) as [schemaName tableNameOrig].
  match goal with
  | |- context [forEach ?l ?f ?s w] =>
      assert (Hflags : forall ts par str w1,
                 forEach l f s w = (Ok (ts, par, str), w1) ->
                 ts = tableTimestamps (self w) table
                 /\ par = tableParanoid (self w) table);
      [|destruct (forEach l f s w) as [[acc|e] w1] eqn:Eloop]
  end; [| |discriminate].
  { unfold tableTimestamps, tableParanoid.
    destruct (Options.additional (options (self w))) as [a|] eqn:Ha.
    - intros ts par str w1 Eloop.
      apply flags_loop with (a := a) in Eloop; [|clear Eloop|exact Ha].
      + destruct Eloop as (-> & ->). split; reflexivity.
      + intros ts0 par0 x field w0 ts' par' x' w0' Ha0 Hrun.
        cbn beta iota in Hrun.
        assert (Hres : ts' = ts0 || isTimestampName a field
                       /\ par' = par0 || isParanoidName a field
                       /\ exists s, addField recase stack table field w0
                                    = (Ok s, w0')).
        { destruct ts0, par0; cbn beta iota in Hrun;
            rewrite ?(isTimestampField_run a field w0 Ha0) in Hrun;
            cbn beta iota in Hrun;
            rewrite ?(isParanoidField_run a field w0 Ha0) in Hrun;
            cbn beta iota in Hrun;
            destruct (addField recase stack table field w0) as [[s|e] w2];
            try discriminate;
            injection Hrun as <- <- _ <-; cbn [orb]; eauto. }
        destruct Hres as (-> & -> & s & Hs).
        pose proof (keepsAt_addField recase stack table field w0) as Hk.
        unfold keepsAt in Hk. rewrite Hs in Hk. cbn [snd] in Hk.
        repeat split.
        now rewrite (preserved_additional _ _ Hk).
    - destruct (fieldsOf (self w) table) as [|field fields].
      + intros ts par str w1 Eloop. injection Eloop as <- <- _ _.
        split; reflexivity.
      + intros ts par str w1 Eloop. exfalso.
        cbn [forEach] in Eloop. unfold bind in Eloop. cbn beta iota in Eloop.
        unfold isTimestampField at 1, bind, this, lift in Eloop.
        rewrite Ha in Eloop. cbn beta iota in Eloop. discriminate Eloop. }
  destruct acc as [[timestamps paranoid] str]. cbn beta iota.
  destruct (Hflags _ _ _ _ eq_refl) as (-> & ->). clear Hflags Eloop.
  set (g2 := forceNoAlias (self w1)) in *.
  cbn [self].
  destruct (addIndexes g2 table) as [idx|e]; [|discriminate].
  intros H. injection H as Hout Hw. subst w'. cbn [self] in *.
  split; [reflexivity|]. split; [exact Hadd|]. fold g2.
  set (OL := optionLines (self w1) table schemaName tableNameOrig
               (tableTimestamps (self w) table) (tableParanoid (self w) table)
               (fieldsOf (self w) table)) in *.
  change (optionLines g2 table (fst (schemaName, tableNameOrig))
            (snd (schemaName, tableNameOrig))
            (tableTimestamps (self w) table) (tableParanoid (self w) table)
            (fieldsOf (self w) table)) with OL.
  cbn [snd].
  set (F := Js.substring str 0 (Z.of_nat (String.length str) - 2) ++ nl) in *.
  set (A := assocLines pluralize g2 tableNameOrig) in *.
  unfold associateClose in Hout.
  destruct (trim_middle (F ++ sp (self w1) 1)
              (", {" ++ nl ++ OL ++ associateOpen g2 ++ A ++ sp g2 2 ++ "}")
              ("," ++ nl ++ idx) "}" eq_refl eq_refl)
    as (pre & post & Htrim & Hpost).
  destruct (substring_init_app
              (sp g2 2 ++ pre ++ "}, {" ++ nl ++ OL ++ associateOpen g2 ++ A
               ++ sp g2 2 ++ "}")
              post Hpost) as (post' & Hsub).
  match type of Hout with
  | (if ?c then _ else _) = _ => destruct c
  end.
  all: exists (sp g2 2 ++ pre); eexists; rewrite <- Hout; clear Hout.
  all: match goal with
       | |- context [Js.trim ?x] =>
           replace x with ((F ++ sp (self w1) 1)
                           ++ String "}" (", {" ++ nl ++ OL ++ associateOpen g2
                                          ++ A ++ sp g2 2 ++ "}")
                           ++ "," ++ nl ++ idx)
             by (normalize_append; reflexivity)
       end.
  all: rewrite Htrim.
  all: match goal with
       | |- context [Js.substring ?x 0 _] =>
           replace x with ((sp g2 2 ++ pre ++ "}, {" ++ nl ++ OL
                            ++ associateOpen g2 ++ A ++ sp g2 2 ++ "}") ++ post)
             by (normalize_append; reflexivity)
       end.
  all: rewrite Hsub.
  all: normalize_append; reflexivity.
Qed.

End Shape.

Lemma assocLines_In (pluralize : string -> string) (g : AutoGenerator)
  (tableNameOrig : string) (rel : Relation.t) :
  In rel (relations g) ->
  exists a b,
    assocLines pluralize g tableNameOrig
    = a ++ relationLines pluralize g tableNameOrig rel ++ b.
Proof.
  unfold assocLines. induction (relations g) as [|r l IH]; [contradiction|].
  intros [->|Hin]; simpl; rewrite fold_left_append.
  - exists "". eexists. reflexivity.
  - destruct (IH Hin) as (a & b & E). rewrite E.
    exists (relationLines pluralize g tableNameOrig r ++ a), b.
    now rewrite append_assoc.
Qed.

(** The association comments are the parts of the relations, in the
    order of the relations. *)
Lemma assocLines_concat (pluralize : string -> string) (g : AutoGenerator)
  (tableNameOrig : string) :
  assocLines pluralize g tableNameOrig
  = String.concat "" (map (relationLines pluralize g tableNameOrig) (relations g)).
Proof.
  unfold assocLines. induction (relations g) as [|r l IH]; [reflexivity|].
  cbn [fold_left map]. rewrite fold_left_append, IH. cbn [append].
  destruct l as [|r' l]; [apply append_nil_r|reflexivity].
Qed.

Lemma append_ne_nil_r (a b : string) : b <> "" -> a ++ b <> "".
Proof. intros Hb E. now apply append_eq_nil in E. Qed.

Lemma existsb_eqb_In (x : string) (l : list string) :
  existsb (String.eqb x) l = true <-> In x l.
Proof.
  rewrite existsb_exists. split.
  - intros (y & Hy & E). apply String.eqb_eq in E. now subst.
  - intros H. exists x. split; [assumption|apply String.eqb_refl].
Qed.

(** What lines 160-166 write, by membership of the two names. *)
Lemma updatedAtLine_spec (g : AutoGenerator) (timestamps : bool)
  (fields : list string) :
  updatedAtLine g timestamps fields
  = if timestamps
    then if in_dec string_dec "lastModifiedAt" fields then ""
         else sp g 2 ++ "updatedAt: false," ++ nl
    else "".
Proof.
  unfold updatedAtLine. destruct timestamps; [|reflexivity]. cbn [andb].
  destruct (in_dec string_dec "lastModifiedAt" fields) as [Hin|Hin].
  - apply existsb_eqb_In in Hin. now rewrite Hin.
  - destruct (existsb (String.eqb "lastModifiedAt") fields) eqn:E;
      [|reflexivity].
    apply existsb_eqb_In in E. contradiction.
Qed.

Lemma createdAtLine_spec (g : AutoGenerator) (timestamps : bool)
  (fields : list string) :
  createdAtLine g timestamps fields
  = if timestamps
    then if in_dec string_dec "createdAt" fields then ""
         else sp g 2 ++ "createdAt: false," ++ nl
    else "".
Proof.
  unfold createdAtLine. destruct timestamps; [|reflexivity]. cbn [andb].
  destruct (in_dec string_dec "createdAt" fields) as [Hin|Hin].
  - apply existsb_eqb_In in Hin. now rewrite Hin.
  - destruct (existsb (String.eqb "createdAt") fields) eqn:E; [|reflexivity].
    apply existsb_eqb_In in E. contradiction.
Qed.

Section Assembly.

Variable recase : option string -> string -> bool -> string.
Variable qNameSplit : string -> option string * string.
Variable pluralize : string -> string.
Variable stack : nat.

Abbreviation addTable' := (addTable recase qNameSplit pluralize stack).

(** C10 (as amended): the options block that [addTable] returns is, from
    its opening on, the table name, schema and trigger lines, the line
    [timestamps: <t>], the [paranoid] line if any, the two suppression
    lines, and the lines passed through from [options.additional].
    [t] is true when [additional.timestamps] is [true] or some field of
    the table is a timestamp field.  When [t] is true, the suppression
    step writes [updatedAt: false,] exactly when no field of the table is
    named [lastModifiedAt], and [createdAt: false,] exactly when none is
    named [createdAt] (equality of names, letter case included); when
    [t] is false it writes neither.  The lines passed through come after
    them and may hold the same text. *)
Theorem addTable_timestamp_suppression
  (table : string) (w w' : World) (out : string) (a : Obj.t JsVal) :
  addTable' table w = (Ok out, w') ->
  Options.additional (options (self w)) = Some a ->
  forallb safeValue (Obj.values a) = true ->
  let g := self w' in
  let fields := fieldsOf (self w) table in
  let timestamps :=
    isBool (prop a "timestamps") true || existsb (isTimestampName a) fields in
  let paranoid := existsb (isParanoidName a) fields in
  exists pre post,
    out = pre ++ "}, {" ++ nl
          ++ optionHead g table (fst (qNameSplit table)) (snd (qNameSplit table))
          ++ sp g 2 ++ "timestamps: " ++ Js.ofBool timestamps ++ "," ++ nl
          ++ (if paranoid then sp g 2 ++ "paranoid: true," ++ nl else "")
          ++ (if timestamps
              then if in_dec string_dec "lastModifiedAt" fields then ""
                   else sp g 2 ++ "updatedAt: false," ++ nl
              else "")
          ++ (if timestamps
              then if in_dec string_dec "createdAt" fields then ""
                   else sp g 2 ++ "createdAt: false," ++ nl
              else "")
          ++ additionalLines g table a
          ++ associateOpen g
          ++ post.
Proof.
  intros H Ha _ g fields timestamps paranoid.
  destruct (addTable_text _ _ _ _ _ _ _ _ H) as (_ & Hadd & pre & post & E).
  fold g in Hadd, E. rewrite Ha in Hadd.
  exists pre.
  exists (assocLines pluralize g (snd (qNameSplit table)) ++ sp g 2 ++ "}" ++ post).
  rewrite E. unfold optionLines, flagLines, tableTimestamps, tableParanoid.
  rewrite Ha, Hadd, updatedAtLine_spec, createdAtLine_spec.
  fold fields. fold timestamps. fold paranoid.
  rewrite !append_assoc. reflexivity.
Qed.


(** C5 (as amended): the association comments that [addTable] writes are
    the parts of the relations in their order, and the part of a
    many-to-many relation is exactly one belongs-to-many comment
    (through the join model, with the pluralized child property as alias
    and both join columns) when the table is its parent, and empty when
    it is not; the child table thus gets no comment unless it is the
    parent too. *)
Theorem addTable_belongsToMany
  (table : string) (w w' : World) (out : string) :
  addTable' table w = (Ok out, w') ->
  let g := self w' in
  let line := fun rel =>
    sp g 3 ++ "// (autogenerated) models." ++ Relation.parentModel rel
    ++ ".belongsToMany(models." ++ Relation.childModel rel
    ++ ", { as: '" ++ pluralize (Relation.childProp rel)
    ++ "', through: models." ++ optString (Relation.joinModel rel)
    ++ ", foreignKey: " ++ dq ++ Relation.parentId rel ++ dq
    ++ ", otherKey: " ++ dq ++ optString (Relation.childId rel) ++ dq
    ++ " });" ++ nl in
  exists pre (partOf : Relation.t -> string) post,
    out = pre ++ associateOpen g
          ++ String.concat "" (map partOf (relations g))
          ++ sp g 2 ++ "}" ++ post
    /\ forall rel,
        Relation.isM2M rel = true ->
        partOf rel
        = if String.eqb (Relation.parentModel rel) (snd (qNameSplit table))
          then line rel else "".
Proof.
  intros H g line.
  destruct (addTable_text _ _ _ _ _ _ _ _ H) as (_ & _ & pre & post & E).
  fold g in E.
  exists (pre ++ "}, {" ++ nl
          ++ optionLines g table (fst (qNameSplit table))
               (snd (qNameSplit table)) (tableTimestamps (self w) table)
               (tableParanoid (self w) table) (fieldsOf (self w) table)).
  exists (relationLines pluralize g (snd (qNameSplit table))), post.
  split.
  - rewrite E, assocLines_concat, !append_assoc. reflexivity.
  - intros rel Hm. unfold relationLines. rewrite Hm. reflexivity.
Qed.

End Assembly.

Lemma addTable_timestamp_suppression_witness :
  let g := self (snd Sample.logsRun) in
  exists pre post,
    Sample.logsText
    = pre ++ "}, {" ++ nl
      ++ sp g 2 ++ "tableName: 'logs'," ++ nl
      ++ sp g 2 ++ "timestamps: true," ++ nl
      ++ sp g 2 ++ "updatedAt: false," ++ nl
      ++ sp g 2 ++ "createdAt: false," ++ nl
      ++ associateOpen g
      ++ post.
Proof.
  destruct (addTable_timestamp_suppression Sample.recase Sample.qNameSplit
              Sample.pluralize 2 "logs" Sample.logsWorld
              (snd Sample.logsRun) Sample.logsText
              [("createdAt", VBool false)])
    as (pre & post & E).
  - vm_compute. reflexivity.
  - reflexivity.
  - reflexivity.
  - exists pre, post. exact E.
Defined.

(** C10 as stated fails: the table [logs] has a field named [createdAt]
    and its options block, written with [timestamps: true], holds the
    line [createdAt: false,]: the entry [createdAt: false] of
    [options.additional] makes [createdAt] a timestamp field and is then
    passed through (lines 171-183). *)
Lemma addTable_timestamp_suppression_counterexample :
  Options.additional (options (self Sample.logsWorld))
  = Some [("createdAt", VBool false)]
  /\ In "createdAt" (fieldsOf (self Sample.logsWorld) "logs")
  /\ fst Sample.logsRun = Ok Sample.logsText
  /\ Js.includes Sample.logsText ("    timestamps: true," ++ nl) = true
  /\ Js.includes Sample.logsText ("    createdAt: false," ++ nl) = true.
Proof.
  vm_compute. repeat split. right. left. reflexivity.
Qed.

(** The [users] table of the sample has a [createdAt] field and no
    [lastModifiedAt] field; a field named [updatedAt] would not count. *)
Example addTable_timestamp_lines :
  Js.includes Sample.usersText "timestamps: true," = true
  /\ Js.includes Sample.usersText "updatedAt: false," = true
  /\ Js.includes Sample.usersText "createdAt: false," = false
  /\ updatedAtLine (self (snd Sample.usersRun)) true ["id"; "updatedAt"]
     = "    updatedAt: false," ++ nl.
Proof. vm_compute. repeat split. Qed.



Lemma addTable_belongsToMany_witness :
  let gp := self (snd Sample.authorsRun) in
  let gc := self (snd Sample.booksRun) in
  (exists pre post,
      Sample.authorsText
      = pre ++ associateOpen gp
        ++ sp gp 3 ++ "// (autogenerated) models.authors.belongsToMany(models.books"
        ++ ", { as: 'books', through: models.author_books, foreignKey: "
        ++ dq ++ "author_id" ++ dq ++ ", otherKey: " ++ dq ++ "book_id" ++ dq
        ++ " });" ++ nl
        ++ sp gp 2 ++ "}" ++ post)
  /\ (exists pre post,
         Sample.booksText = pre ++ associateOpen gc ++ sp gc 2 ++ "}" ++ post).
Proof.
  split.
  - destruct (addTable_belongsToMany Sample.recase Sample.qNameSplit
                Sample.pluralize 2 "authors" Sample.libraryWorld
                (snd Sample.authorsRun) Sample.authorsText)
      as (pre & partOf & post & E & Hpart).
    + vm_compute. reflexivity.
    + change (relations (self (snd Sample.authorsRun)))
        with [Sample.writes] in E.
      cbn [map String.concat] in E.
      rewrite (Hpart Sample.writes eq_refl) in E.
      exists pre, post. rewrite E. rewrite ?append_assoc. reflexivity.
  - destruct (addTable_belongsToMany Sample.recase Sample.qNameSplit
                Sample.pluralize 2 "books" Sample.libraryWorld
                (snd Sample.booksRun) Sample.booksText)
      as (pre & partOf & post & E & Hpart).
    + vm_compute. reflexivity.
    + change (relations (self (snd Sample.booksRun)))
        with [Sample.writes] in E.
      cbn [map String.concat] in E.
      rewrite (Hpart Sample.writes eq_refl) in E.
      exists pre, post. exact E.
Defined.

(** C5 as stated fails on a relation of a table with itself: [users] is
    the child of [friendsRelation], and its text has the belongs-to-many
    comment of that relation. *)
Lemma addTable_belongsToMany_counterexample :
  Relation.isM2M Sample.friendsRelation = true
  /\ Relation.childModel Sample.friendsRelation = "users"
  /\ exists w',
      addTable Sample.recase Sample.qNameSplit Sample.pluralize 2
        (Relation.childModel Sample.friendsRelation)
        (Sample.world Sample.tableData Sample.mysql)
      = (Ok Sample.usersText, w')
      /\ Js.includes Sample.usersText
           "models.users.belongsToMany(models.users, { as: 'friends', through: models.friends"
         = true.
Proof.
  repeat split. exists (snd Sample.usersRun). vm_compute. repeat split.
Qed.

(** * Further properties of the generator *)

(** ** [escapeSpecial] *)

Lemma escapeSpecial_char_safe (c : ascii) :
  Js.allChars (fun x => negb (isControl x)) (escapeSpecial (String c "")) = true
  /\ String.length (escapeSpecial (String c ""))
     = (if needsEscape c then 2 else 1).
Proof. each_char c; split; reflexivity. Qed.

(** X1: the text returned by [escapeSpecial] holds no backspace, tab,
    line feed, form feed or carriage return, and is longer than its
    argument by one character for each character that is escaped. *)
Theorem escapeSpecial_no_control (val : string) :
  Js.allChars (fun x => negb (isControl x)) (escapeSpecial val) = true
  /\ String.length (escapeSpecial val)
     = String.length val + countChars needsEscape val.
Proof.
  induction val as [|c val [IH1 IH2]]; [split; reflexivity|].
  rewrite escapeSpecial_cons, allChars_app, append_length, IH1, IH2.
  destruct (escapeSpecial_char_safe c) as [-> ->].
  split; [reflexivity|].
  cbn [String.length countChars]. destruct (needsEscape c); lia.
Qed.

Lemma escapeSpecial_char_shape (c : ascii) :
  (needsEscape c = false
   /\ escapeSpecial (String c "") = String c "" /\ Ascii.eqb c "092" = false)
  \/ (exists x, escapeSpecial (String c "") = String "092" (String x "")
                /\ unescapeChar x = c).
Proof.
  each_char c;
    first [ left; repeat split; reflexivity
          | right; eexists; split; reflexivity ].
Qed.

(** X2: [escapeSpecial] loses nothing: two texts with the same escaped
    form are the same text. *)
Theorem escapeSpecial_injective (a b : string) :
  escapeSpecial a = escapeSpecial b -> a = b.
Proof.
  revert b. induction a as [|c a IH]; intros b H.
  - destruct b as [|d b]; [reflexivity|].
    rewrite escapeSpecial_cons in H.
    destruct (escapeSpecial_char_shape d) as [(_ & E & _)|(x & E & _)];
      rewrite E in H; discriminate H.
  - destruct b as [|d b].
    + rewrite escapeSpecial_cons in H.
      destruct (escapeSpecial_char_shape c) as [(_ & E & _)|(x & E & _)];
        rewrite E in H; discriminate H.
    + rewrite (escapeSpecial_cons c), (escapeSpecial_cons d) in H.
      destruct (escapeSpecial_char_shape c) as [(_ & Ec & Nc)|(x & Ec & Ux)],
               (escapeSpecial_char_shape d) as [(_ & Ed & Nd)|(y & Ed & Uy)];
        rewrite Ec, Ed in H; cbn [append] in H.
      * injection H as -> H. f_equal. now apply IH.
      * injection H as -> _. discriminate Nc.
      * injection H as <- _. discriminate Nd.
      * injection H as -> H. subst c d. f_equal. now apply IH.
Qed.

Lemma escapeSpecial_injective_witness :
  "a/b" = "a/b".
Proof.
  apply (escapeSpecial_injective "a/b" "a/b"). reflexivity.
Defined.

(** ** The length and precision groups of a type *)

Lemma takeWhile_dropWhile (p : ascii -> bool) (s : string) :
  s = Js.takeWhile p s ++ Js.dropWhile p s
  /\ Js.allChars p (Js.takeWhile p s) = true.
Proof.
  induction s as [|c s [IH1 IH2]]; [split; reflexivity|].
  simpl. destruct (p c) eqn:E; simpl.
  - rewrite E, IH2. split; [now rewrite <- IH1|reflexivity].
  - split; reflexivity.
Qed.

Lemma takeWhile_app_stop (p : ascii -> bool) (d r : string) (c : ascii) :
  Js.allChars p d = true -> p c = false ->
  Js.takeWhile p (d ++ String c r) = d
  /\ Js.dropWhile p (d ++ String c r) = String c r.
Proof.
  intros Hd Hc. induction d as [|x d IH]; simpl.
  - now rewrite Hc.
  - simpl in Hd. apply andb_true_iff in Hd as [Hx Hd].
    rewrite Hx. destruct (IH Hd) as [-> ->]. split; reflexivity.
Qed.

Lemma lengthAt_sound (s m : string) :
  Re.lengthAt s = Some m ->
  exists d post,
    s = "(" ++ d ++ ")" ++ post /\ d <> ""
    /\ Js.allChars Js.isDigit d = true /\ m = "(" ++ d ++ ")".
Proof.
  unfold Re.lengthAt. destruct s as [|c r]; [discriminate|].
  destruct (Ascii.eqb c "(") eqn:Ec.
  - apply Ascii.eqb_eq in Ec. subst c.
    destruct (takeWhile_dropWhile Js.isDigit r) as [Hr Hd].
    destruct (Js.takeWhile Js.isDigit r) as [|d ds] eqn:Et; [discriminate|].
    destruct (Js.dropWhile Js.isDigit r) as [|x post] eqn:Ed; [discriminate|].
    destruct (Ascii.eqb x ")") eqn:Ex.
    + apply Ascii.eqb_eq in Ex. subst x. cbn. intros H. injection H as <-.
      exists (String d ds), post. repeat split; try assumption.
      * cbn. now rewrite Hr.
      * discriminate.
    + intros H. exfalso. revert H. apply Ascii.eqb_neq in Ex.
      destruct x as [[] [] [] [] [] [] [] []]; try discriminate.
      now contradiction Ex.
  - intros H. exfalso. revert H. apply Ascii.eqb_neq in Ec.
    destruct c as [[] [] [] [] [] [] [] []]; try discriminate.
    now contradiction Ec.
Qed.

Lemma lengthAt_complete (d post : string) :
  d <> "" -> Js.allChars Js.isDigit d = true ->
  Re.lengthAt ("(" ++ d ++ ")" ++ post) = Some ("(" ++ d ++ ")").
Proof.
  intros Hne Hd. cbn [append Re.lengthAt].
  destruct (takeWhile_app_stop Js.isDigit d post ")" Hd eq_refl) as [-> ->].
  destruct d; [contradiction|reflexivity].
Qed.

(** X3: the length that [getSqType] reads off a type with
    [/\(\d+\)/] is a non-empty run of digits between parentheses that
    occurs in the type, and one is found whenever the type has such a
    group. *)
Theorem length_group (type : string) :
  (forall m,
      Re.length type = Some m ->
      exists pre d post,
        type = pre ++ "(" ++ d ++ ")" ++ post /\ d <> ""
        /\ Js.allChars Js.isDigit d = true /\ m = "(" ++ d ++ ")")
  /\ (forall pre d post,
         type = pre ++ "(" ++ d ++ ")" ++ post -> d <> "" ->
         Js.allChars Js.isDigit d = true ->
         exists m, Re.length type = Some m).
Proof.
  split.
  - unfold Re.length. induction type as [|c r IH]; intros m H.
    + discriminate H.
    + cbn [Js.firstMatch] in H.
      destruct (Re.lengthAt (String c r)) as [m'|] eqn:E.
      * injection H as <-.
        destruct (lengthAt_sound _ _ E) as (d & post & Hs & Hd & Ha & Hm).
        exists "", d, post. repeat split; assumption.
      * destruct (IH m H) as (pre & d & post & -> & Hd & Ha & Hm).
        exists (String c pre), d, post. repeat split; assumption.
  - intros pre d post -> Hne Hd. unfold Re.length.
    induction pre as [|c pre IH].
    + cbn [append]. change (String "(" (d ++ String ")" post))
        with ("(" ++ d ++ ")" ++ post).
      assert (E := lengthAt_complete d post Hne Hd).
      destruct ("(" ++ d ++ ")" ++ post) eqn:Es; [discriminate E|].
      cbn [Js.firstMatch]. rewrite E. eauto.
    + cbn [append Js.firstMatch] in IH |- *.
      match goal with
      | |- context [match ?x with Some _ => _ | None => _ end] => destruct x
      end; [eauto|exact IH].
Qed.

Lemma length_group_witness :
  exists pre d post,
    "varchar(45)" = pre ++ "(" ++ d ++ ")" ++ post /\ d <> ""
    /\ Js.allChars Js.isDigit d = true /\ "(45)" = "(" ++ d ++ ")".
Proof.
  apply (proj1 (length_group "varchar(45)") "(45)"). reflexivity.
Defined.

(** ** Array columns in the two mappers *)

Lemma array_type_tests (ty : string) :
  Js.startsWith ty "array" = true ->
  String.eqb ty "boolean" = false /\ String.eqb ty "bit(1)" = false
  /\ String.eqb ty "bit" = false /\ String.eqb ty "tinyint(1)" = false
  /\ String.eqb ty "numrange" = false /\ String.eqb ty "int4range" = false
  /\ String.eqb ty "int8range" = false /\ String.eqb ty "daterange" = false
  /\ String.eqb ty "tsrange" = false /\ String.eqb ty "tstzrange" = false
  /\ Js.prefixMatch ["bigint"; "smallint"; "mediumint"; "tinyint"; "int"] ty = None
  /\ String.eqb ty "nvarchar(max)" = false /\ String.eqb ty "varchar(max)" = false
  /\ Js.startsWithAny ["char"; "nchar"] ty = false
  /\ Js.startsWith ty "real" = false /\ String.eqb ty "date" = false
  /\ Js.startsWithAny ["date"; "timestamp"] ty = false
  /\ Js.startsWith ty "time" = false
  /\ Js.startsWithAny ["float"; "float4"] ty = false
  /\ Js.startsWithAny ["decimal"; "numeric"] ty = false
  /\ Js.startsWith ty "money" = false /\ Js.startsWith ty "smallmoney" = false
  /\ Js.startsWithAny ["float8"; "double"] ty = false
  /\ Js.startsWith ty "uuid" = false /\ Js.startsWith ty "jsonb" = false
  /\ Js.startsWith ty "json" = false /\ Js.startsWith ty "geometry" = false
  /\ Js.startsWith ty "geography" = false.
Proof.
  intros H. apply startsWith_split in H. rewrite H. repeat split.
Qed.

(** On a type that gets to the array rule, [getSqType] maps the element
    type and wraps it. *)
Lemma getSqType_array_rule (stack : nat) (fieldObj : Field) (attr x : string) :
  prop fieldObj attr = VStr x ->
  reachesArrayRule (Js.toLowerCase x) = true ->
  getSqType (S stack) fieldObj attr
  = (let* eltype := getSqType stack fieldObj "elementType" in
     Ok (VStr ("DataTypes.ARRAY(" ++ toString eltype ++ ")"))).
Proof.
  intros Hx Hr. unfold reachesArrayRule in Hr.
  repeat (apply andb_true_iff in Hr; destruct Hr as [Hr ?]).
  repeat match goal with
         | H : negb _ = true |- _ => apply negb_true_iff in H
         end.
  cbn [getSqType]. rewrite Hx.
  destruct (array_type_tests _ Hr)
    as (-> & -> & -> & -> & -> & -> & -> & -> & -> & -> & -> & -> & -> & ->
        & -> & -> & -> & -> & -> & -> & -> & -> & -> & -> & -> & -> & -> & ->).
  repeat match goal with
         | H : ?b = false |- context [?b] => rewrite H
         end.
  rewrite Hr. reflexivity.
Qed.

(** X4: on an array column without an element type, [getSqType] throws
    a [TypeError] (it reads [toLowerCase] of [undefined]). *)
Theorem getSqType_array_without_element
  (stack : nat) (fieldObj : Field) (t : string) :
  prop fieldObj "type" = VStr t ->
  reachesArrayRule (Js.toLowerCase t) = true ->
  prop fieldObj "elementType" = VUndef \/ prop fieldObj "elementType" = VNull ->
  getSqType (S (S stack)) fieldObj "type" = Throw TypeError.
Proof.
  intros Ht Hr He.
  rewrite (getSqType_array_rule _ _ _ _ Ht Hr).
  cbn [getSqType]. destruct He as [-> | ->]; reflexivity.
Qed.

Lemma getSqType_array_without_element_witness :
  getSqType 2 [("type", VStr "ARRAY")] "type" = Throw TypeError.
Proof.
  apply (getSqType_array_without_element 0 [("type", VStr "ARRAY")] "ARRAY").
  - reflexivity.
  - reflexivity.
  - left. reflexivity.
Defined.

(** X5: on an array column whose element type gets to the array rule
    itself, [getSqType] reads [elementType] again and again: whatever the
    stack depth, the call ends in a [RangeError]. *)
Theorem getSqType_array_of_array
  (stack : nat) (fieldObj : Field) (t e : string) :
  prop fieldObj "type" = VStr t ->
  reachesArrayRule (Js.toLowerCase t) = true ->
  prop fieldObj "elementType" = VStr e ->
  reachesArrayRule (Js.toLowerCase e) = true ->
  getSqType stack fieldObj "type" = Throw RangeError.
Proof.
  intros Ht Hrt He Hre.
  assert (Hel : forall n, getSqType n fieldObj "elementType" = Throw RangeError).
  { induction n as [|n IH]; [reflexivity|].
    rewrite (getSqType_array_rule _ _ _ _ He Hre), IH. reflexivity. }
  destruct stack as [|stack]; [reflexivity|].
  rewrite (getSqType_array_rule _ _ _ _ Ht Hrt), Hel. reflexivity.
Qed.

Lemma getSqType_array_of_array_witness :
  getSqType 1000 [("type", VStr "ARRAY"); ("elementType", VStr "ARRAY")] "type"
  = Throw RangeError.
Proof.
  apply (getSqType_array_of_array 1000
           [("type", VStr "ARRAY"); ("elementType", VStr "ARRAY")]
           "ARRAY" "ARRAY"); reflexivity.
Defined.

Lemma getTypeScriptFieldType_array_rule
  (stack : nat) (fieldObj : Field) (attr x : string) :
  prop fieldObj attr = VStr x ->
  isArray (Js.toLowerCase x) = true ->
  getTypeScriptFieldType (S stack) fieldObj attr
  = (eltype <- getTypeScriptFieldType stack fieldObj "elementType" ;;
     ret (eltype ++ "[]")).
Proof.
  intros Hx Ha. cbn [getTypeScriptFieldType].
  rewrite (rawFieldType_string _ _ _ Hx), Ha. reflexivity.
Qed.

(** X6: on an array or range column without an element type, the static
    mapper returns [any[]] and logs one message, which names the type as
    the descriptor has it. *)
Theorem getTypeScriptFieldType_array_without_element
  (stack : nat) (fieldObj : Field) (t : string) (w : World) :
  prop fieldObj "type" = VStr t ->
  isArray (Js.toLowerCase t) = true ->
  truthy (prop fieldObj "elementType") = false ->
  getTypeScriptFieldType (S (S stack)) fieldObj "type" w
  = (Ok "any[]",
     mkWorld (self w) (console w ++ ["Missing TypeScript type: " ++ t])).
Proof.
  intros Ht Ha He.
  rewrite (getTypeScriptFieldType_array_rule _ _ _ _ Ht Ha).
  assert (Hn : String.eqb t "TINYINT(1)" = false).
  { apply String.eqb_neq. intros ->. discriminate Ha. }
  unfold bind. cbn [getTypeScriptFieldType]. rewrite He, Ht.
  cbn [isStr]. rewrite Hn. reflexivity.
Qed.

Lemma getTypeScriptFieldType_array_without_element_witness :
  getTypeScriptFieldType 2 [("type", VStr "int4range")] "type"
    (Sample.world Sample.noTables Sample.postgres)
  = (Ok "any[]",
     mkWorld (self (Sample.world Sample.noTables Sample.postgres))
       ["Missing TypeScript type: int4range"]).
Proof.
  apply (getTypeScriptFieldType_array_without_element 0
           [("type", VStr "int4range")] "int4range"
           (Sample.world Sample.noTables Sample.postgres)); reflexivity.
Defined.

(** X7: on an array column whose element type is an array or a range,
    the static mapper reads [elementType] again and again: whatever the
    stack depth, the call ends in a [RangeError], and nothing is logged. *)
Theorem getTypeScriptFieldType_array_of_array
  (stack : nat) (fieldObj : Field) (t e : string) (w : World) :
  prop fieldObj "type" = VStr t ->
  isArray (Js.toLowerCase t) = true ->
  prop fieldObj "elementType" = VStr e ->
  isArray (Js.toLowerCase e) = true ->
  getTypeScriptFieldType stack fieldObj "type" w = (Throw RangeError, w).
Proof.
  intros Ht Hat He Hae.
  assert (Hel : forall n,
             getTypeScriptFieldType n fieldObj "elementType" w
             = (Throw RangeError, w)).
  { induction n as [|n IH]; [reflexivity|].
    rewrite (getTypeScriptFieldType_array_rule _ _ _ _ He Hae).
    unfold bind. now rewrite IH. }
  destruct stack as [|stack]; [reflexivity|].
  rewrite (getTypeScriptFieldType_array_rule _ _ _ _ Ht Hat).
  unfold bind. now rewrite Hel.
Qed.

Lemma getTypeScriptFieldType_array_of_array_witness :
  getTypeScriptFieldType 1000
    [("type", VStr "ARRAY"); ("elementType", VStr "int4range")] "type"
    (Sample.world Sample.noTables Sample.postgres)
  = (Throw RangeError, Sample.world Sample.noTables Sample.postgres).
Proof.
  apply (getTypeScriptFieldType_array_of_array 1000
           [("type", VStr "ARRAY"); ("elementType", VStr "int4range")]
           "ARRAY" "int4range" (Sample.world Sample.noTables Sample.postgres));
    reflexivity.
Defined.

(** X8: the static mapper never touches the instance, and it logs at
    most one message. *)
Theorem getTypeScriptFieldType_effects
  (stack : nat) (fieldObj : Field) (attr : string) (w : World) :
  let w' := snd (getTypeScriptFieldType stack fieldObj attr w) in
  self w' = self w
  /\ (console w' = console w \/ exists msg, console w' = (console w ++ [msg])%list).
Proof.
  revert attr. induction stack as [|stack IH]; intros attr;
    [split; [reflexivity|now left]|].
  cbn [getTypeScriptFieldType].
  repeat match goal with
         | |- context [if ?b then _ else _] => destruct b
         end.
  all: first
         [ solve [split; [reflexivity|now left]]
         | solve [split; [reflexivity|right; eexists; reflexivity]]
         | idtac ].
  - specialize (IH "elementType"). unfold bind.
    destruct (getTypeScriptFieldType stack fieldObj "elementType" w)
      as [[el|err] w1]; exact IH.
  - unfold bind, lift, ret.
    destruct (getEnumValues fieldObj); cbn; split; (reflexivity || now left).
Qed.

(** ** Enumerated types in [getSqType] *)

Lemma join_cons (sep x : string) (l : list string) :
  l <> [] -> Js.join sep (x :: l) = x ++ sep ++ Js.join sep l.
Proof. destruct l; [contradiction|reflexivity]. Qed.

Lemma splitAux_nonempty (c : ascii) (cur s : string) : Js.splitAux c cur s <> [].
Proof.
  revert cur. induction s as [|a s IH]; intros cur; simpl; [discriminate|].
  destruct (Ascii.eqb a c); [discriminate|apply IH].
Qed.

Lemma join_splitAux (c : ascii) (cur s : string) :
  Js.join (String c "") (Js.splitAux c cur s) = cur ++ s.
Proof.
  revert cur. induction s as [|a s IH]; intros cur; cbn [Js.splitAux].
  - cbn. now rewrite append_nil_r.
  - destruct (Ascii.eqb a c) eqn:E.
    + apply Ascii.eqb_eq in E. subst a.
      rewrite join_cons by apply splitAux_nonempty.
      rewrite IH. reflexivity.
    + rewrite IH, append_assoc. reflexivity.
Qed.

Lemma drop_app_length (a b : string) : Js.drop (String.length a) (a ++ b) = b.
Proof. induction a; simpl; [now destruct b|assumption]. Qed.

Lemma substring_inner (head body : string) (c : ascii) :
  String.length head = 5 ->
  Js.substring (head ++ body ++ String c "") 5
    (Z.of_nat (String.length (head ++ body ++ String c "")) - 1)
  = body.
Proof.
  intros Hh. unfold Js.substring.
  rewrite !append_length, Hh. cbn [String.length].
  replace (Z.to_nat (Z.min (Z.max 5 0) _)) with 5 by lia.
  replace (Z.to_nat (Z.min (Z.max (Z.of_nat (5 + (String.length body + 1)) - 1) 0) _))
    with (5 + String.length body) by lia.
  replace (Nat.min 5 (5 + String.length body)) with (String.length head) by lia.
  replace (Nat.max 5 (5 + String.length body) - String.length head)
    with (String.length body + 0) by lia.
  rewrite drop_app_length, take_app_length. cbn. apply append_nil_r.
Qed.

Lemma last_char_eq (a b : string) (c d : ascii) :
  a ++ String c "" = b ++ String d "" -> c = d.
Proof.
  revert b. induction a as [|x a IH]; intros [|y b] H; cbn in H.
  - now injection H.
  - injection H as _ H. destruct b; discriminate H.
  - injection H as _ H. destruct a; discriminate H.
  - injection H as _ H. now apply IH in H.
Qed.

Lemma endsWith_suffix (s p : string) :
  Js.endsWith s p = true <-> exists a, s = a ++ p.
Proof.
  split.
  - induction s as [|c s IH]; cbn [Js.endsWith]; intros H.
    + rewrite orb_false_r in H. apply String.eqb_eq in H. now exists "".
    + apply orb_true_iff in H as [H|H].
      * apply String.eqb_eq in H. now exists "".
      * destruct (IH H) as (a & ->). now exists (String c a).
  - intros (a & ->). induction a as [|c a IH].
    + cbn [append]. destruct p; cbn [Js.endsWith]; now rewrite String.eqb_refl.
    + cbn [append Js.endsWith]. now rewrite IH, orb_true_r.
Qed.

Lemma enum_type_tests (ty : string) :
  Re.enumType ty = true ->
  String.eqb ty "boolean" = false /\ String.eqb ty "bit(1)" = false
  /\ String.eqb ty "bit" = false /\ String.eqb ty "tinyint(1)" = false
  /\ String.eqb ty "numrange" = false /\ String.eqb ty "int4range" = false
  /\ String.eqb ty "int8range" = false /\ String.eqb ty "daterange" = false
  /\ String.eqb ty "tsrange" = false /\ String.eqb ty "tstzrange" = false
  /\ Js.prefixMatch ["bigint"; "smallint"; "mediumint"; "tinyint"; "int"] ty = None
  /\ String.eqb ty "nvarchar(max)" = false /\ String.eqb ty "varchar(max)" = false
  /\ Js.startsWithAny ["char"; "nchar"] ty = false
  /\ Js.startsWith ty "real" = false /\ String.eqb ty "date" = false
  /\ Js.startsWithAny ["date"; "timestamp"] ty = false
  /\ Js.startsWith ty "time" = false
  /\ Js.startsWithAny ["float"; "float4"] ty = false
  /\ Js.startsWithAny ["decimal"; "numeric"] ty = false
  /\ Js.startsWith ty "money" = false /\ Js.startsWith ty "smallmoney" = false
  /\ Js.startsWithAny ["float8"; "double"] ty = false
  /\ Js.startsWith ty "uuid" = false /\ Js.startsWith ty "jsonb" = false
  /\ Js.startsWith ty "json" = false /\ Js.startsWith ty "geometry" = false
  /\ Js.startsWith ty "geography" = false /\ Js.startsWith ty "array" = false
  /\ Js.startsWith ty "hstore" = false
  /\ Js.endsWith ty "text" = false.
Proof.
  intros H.
  assert (Hs : Js.startsWith ty "enum" = true).
  { unfold Re.enumType in H. apply orb_true_iff in H as [H|H].
    - apply String.eqb_eq in H. now subst.
    - apply andb_true_iff in H as [H _]. apply andb_true_iff in H as [H _].
      apply startsWith_split in H. now rewrite H. }
  assert (Ht : Js.endsWith ty "text" = false).
  { destruct (Js.endsWith ty "text") eqn:E; [exfalso|reflexivity].
    apply endsWith_suffix in E as (b & Eb).
    unfold Re.enumType in H. apply orb_true_iff in H as [H|H].
    - apply String.eqb_eq in H. subst ty.
      change "enum" with ("enu" ++ "m") in Eb.
      change (b ++ "text") with (b ++ "tex" ++ "t") in Eb.
      rewrite <- append_assoc in Eb. apply last_char_eq in Eb. discriminate Eb.
    - apply andb_true_iff in H as [H _]. apply andb_true_iff in H as [H1 H2].
      apply endsWith_suffix in H2 as (a & Ea).
      apply startsWith_split in H1. change (String.length "enum(") with 5 in H1.
      rewrite Ea in H1. rewrite H1 in Eb.
      change (b ++ "text") with (b ++ "tex" ++ "t") in Eb.
      rewrite <- !append_assoc in Eb. apply last_char_eq in Eb. discriminate Eb. }
  apply startsWith_split in Hs. rewrite Hs in *. repeat split. exact Ht.
Qed.

Lemma getEnumValues_mysql (fieldObj : Field) (t : string) :
  prop fieldObj "type" = VStr t ->
  truthy (prop fieldObj "special") = false ->
  getEnumValues fieldObj
  = Ok (Js.split "," (Js.substring t 5 (Z.of_nat (String.length t) - 1))).
Proof.
  intros Ht Hs. unfold getEnumValues. rewrite Ht.
  destruct (prop fieldObj "special"); try discriminate Hs;
    cbn [truthy] in *; rewrite ?Hs; reflexivity.
Qed.

(** X9: for a MySQL enumerated type, written as five characters, the
    list of values and a closing character, [getSqType] carries the list
    of values over as it is written (letter case included), provided the
    type holds none of the words tested before the enum rule. *)
Theorem getSqType_mysql_enum
  (stack : nat) (fieldObj : Field) (head body : string) :
  let t := head ++ body ++ ")" in
  String.length head = 5 ->
  prop fieldObj "type" = VStr t ->
  truthy (prop fieldObj "special") = false ->
  Re.enumType (Js.toLowerCase t) = true ->
  Js.includesAny ["varchar"; "string"; "varying"] (Js.toLowerCase t) = false ->
  Js.includes (Js.toLowerCase t) "uniqueidentifier" = false ->
  Js.includesAny ["binary"; "image"; "blob"] (Js.toLowerCase t) = false ->
  getSqType (S stack) fieldObj "type"
  = Ok (VStr ("DataTypes.ENUM(" ++ body ++ ")")).
Proof.
  intros t Hh Ht Hs He H1 H2 H3.
  cbn [getSqType]. rewrite Ht.
  destruct (enum_type_tests _ He)
    as (-> & -> & -> & -> & -> & -> & -> & -> & -> & -> & -> & -> & -> & ->
        & -> & -> & -> & -> & -> & -> & -> & -> & -> & -> & -> & -> & -> & ->
        & -> & -> & ->).
  rewrite H1, H2, H3, He. cbn [orb].
  rewrite (getEnumValues_mysql _ _ Ht Hs). cbn [rbind].
  unfold Js.split. rewrite (join_splitAux "," "" _). cbn [append].
  unfold t. rewrite (substring_inner head body ")" Hh). reflexivity.
Qed.

Lemma getSqType_mysql_enum_witness :
  getSqType 1 [("type", VStr "ENUM('Low','High')")] "type"
  = Ok (VStr "DataTypes.ENUM('Low','High')").
Proof.
  apply (getSqType_mysql_enum 0 [("type", VStr "ENUM('Low','High')")]
           "ENUM(" "'Low','High'"); reflexivity.
Defined.

(** X10: an enumerated type whose text holds [varchar], [string] or
    [varying], for instance as the name of a value, is answered by the
    string rule, which is tested first: [getSqType] returns
    [DataTypes.STRING] with the length group of the type, if any. *)
Theorem getSqType_enum_named_string
  (stack : nat) (fieldObj : Field) (t : string) :
  prop fieldObj "type" = VStr t ->
  Re.enumType (Js.toLowerCase t) = true ->
  Js.includesAny ["varchar"; "string"; "varying"] (Js.toLowerCase t) = true ->
  getSqType (S stack) fieldObj "type"
  = Ok (VStr ("DataTypes.STRING" ++ orEmpty (Re.length (Js.toLowerCase t)))).
Proof.
  intros Ht He H1.
  cbn [getSqType]. rewrite Ht.
  destruct (enum_type_tests _ He)
    as (-> & -> & -> & -> & -> & -> & -> & -> & -> & -> & -> & -> & -> & _).
  rewrite H1. reflexivity.
Qed.

Lemma getSqType_enum_named_string_witness :
  getSqType 1 [("type", VStr "ENUM('string','number')")] "type"
  = Ok (VStr "DataTypes.STRING").
Proof.
  apply (getSqType_enum_named_string 0
           [("type", VStr "ENUM('string','number')")] "ENUM('string','number')");
    reflexivity.
Defined.

(** ** What [addField] does to the instance *)

Lemma get_set_same {A} (k : string) (v : A) (o : Obj.t A) :
  Obj.get k (Obj.set k v o) = Some v.
Proof.
  induction o as [|[k' v'] o IH]; simpl.
  - now rewrite String.eqb_refl.
  - destruct (String.eqb k' k) eqn:E; simpl.
    + now rewrite String.eqb_refl.
    + now rewrite E.
Qed.

Lemma get_set_other {A} (k k' : string) (v : A) (o : Obj.t A) :
  k' <> k -> Obj.get k' (Obj.set k v o) = Obj.get k' o.
Proof.
  intros Hne. induction o as [|[k0 v0] o IH]; simpl.
  - apply String.eqb_neq in Hne. rewrite String.eqb_sym in Hne. now rewrite Hne.
  - destruct (String.eqb k0 k) eqn:E; simpl.
    + apply String.eqb_eq in E. subst k0.
      apply String.eqb_neq in Hne. rewrite String.eqb_sym in Hne.
      now rewrite Hne.
    + destruct (String.eqb k0 k'); [reflexivity|exact IH].
Qed.

Lemma fieldText_state (recase : option string -> string -> bool -> string)
  (stack : nat) (table field : string) (foreignKey : option FKSpec.t)
  (w : World) :
  snd (fieldText recase stack table field foreignKey w) = w.
Proof.
  unfold fieldText, bind, this, lift, ret. cbn beta iota.
  destruct (fieldOf (self w) table field) as [fieldObj|e]; [|reflexivity].
  destruct (foldResult _ (Obj.keys fieldObj) _) as [acc|e]; [|reflexivity].
  pose proof (isTimestampField_state field w) as Hts.
  destruct (isTimestampField field w) as [[ts|e] w2];
    cbn [snd] in Hts; subst w2; reflexivity.
Qed.

Lemma attachForeignKey_fieldOf (table field : string) (fk : FKSpec.t)
  (g : AutoGenerator) (d : Field) :
  fieldOf g table field = Ok d ->
  fieldOf (attachForeignKey table field fk g) table field
  = Ok (Obj.set "foreignKey" (VFK fk) d).
Proof.
  unfold fieldOf, attachForeignKey.
  destruct (Obj.get table (tables g)) as [t|] eqn:Et; [|discriminate].
  destruct (Obj.get field t) as [d0|] eqn:Ed; [|discriminate].
  intros H. injection H as ->.
  cbn [tables with_tables]. now rewrite !get_set_same.
Qed.

Lemma attachForeignKey_other (table field table' field' : string)
  (fk : FKSpec.t) (g : AutoGenerator) :
  table' <> table \/ field' <> field ->
  fieldOf (attachForeignKey table field fk g) table' field'
  = fieldOf g table' field'.
Proof.
  intros Hne. unfold fieldOf, attachForeignKey.
  destruct (Obj.get table (tables g)) as [t|] eqn:Et; [|reflexivity].
  destruct (Obj.get field t) as [d0|] eqn:Ed; [|reflexivity].
  cbn [tables with_tables].
  destruct (String.eqb table' table) eqn:E.
  - apply String.eqb_eq in E. subst table'.
    destruct Hne as [Hne|Hne]; [contradiction|].
    rewrite get_set_same, Et. now rewrite get_set_other.
  - apply String.eqb_neq in E. now rewrite get_set_other.
Qed.

Lemma attachForeignKey_twice (table field : string) (fk : FKSpec.t)
  (g : AutoGenerator) :
  attachForeignKey table field fk (attachForeignKey table field fk g)
  = attachForeignKey table field fk g.
Proof.
  destruct (Obj.get table (tables g)) as [t|] eqn:Et.
  - destruct (Obj.get field t) as [d|] eqn:Ed.
    + assert (E : attachForeignKey table field fk g
                  = with_tables
                      (Obj.set table
                         (Obj.set field (Obj.set "foreignKey" (VFK fk) d) t)
                         (tables g)) g).
      { unfold attachForeignKey. now rewrite Et, Ed. }
      rewrite E. unfold attachForeignKey. cbn [tables with_tables].
      rewrite !get_set_same, !set_twice. reflexivity.
    + assert (E : attachForeignKey table field fk g = g).
      { unfold attachForeignKey. now rewrite Et, Ed. }
      now rewrite !E.
  - assert (E : attachForeignKey table field fk g = g).
    { unfold attachForeignKey. now rewrite Et. }
    now rewrite !E.
Qed.

Section FieldEffects.

Variable recase : option string -> string -> bool -> string.
Variable stack : nat.

Abbreviation addFieldRun := (addField recase stack).

Lemma addField_unfold (table field : string) (w : World) :
  addFieldRun table field w
  = match fieldOf (self w) table field with
    | Throw e => (Throw e, w)
    | Ok _ =>
        match foreignKeyOf (self w) table field with
        | Some fk =>
            fieldText recase stack table field (Some fk)
              (mkWorld (attachForeignKey table field fk (self w)) (console w))
        | None => fieldText recase stack table field None w
        end
    end.
Proof.
  unfold addField, bind, this, lift, modify, ret. cbn beta iota.
  destruct (fieldOf (self w) table field); [|reflexivity].
  destruct (foreignKeyOf (self w) table field); reflexivity.
Qed.

Lemma keys_set_same {A} (k : string) (v v0 : A) (o : Obj.t A) :
  Obj.get k o = Some v0 -> Obj.keys (Obj.set k v o) = Obj.keys o.
Proof.
  unfold Obj.keys. induction o as [|[k' v'] o IH]; [discriminate|].
  cbn [Obj.get Obj.set]. destruct (String.eqb k' k) eqn:E; intros H.
  - apply String.eqb_eq in E. now subst k'.
  - cbn [map fst]. f_equal. now apply IH.
Qed.

(** X11: for a table and a column that are not named like members of
    [Object.prototype], [addField] changes nothing when the column has
    no foreign key or no descriptor; otherwise the instance it leaves is
    the one it started with, but for the descriptor of that column,
    which gets the foreign key as its [foreignKey] attribute: the
    tables and the columns keep their order, the other attributes of the
    descriptor and the descriptors of all other columns stay as they
    are, and nothing is logged. *)
Theorem addField_effect (table field : string) (w : World) :
  Obj.inherited table = false ->
  Obj.inherited field = false ->
  let w' := snd (addFieldRun table field w) in
  (foreignKeyOf (self w) table field = None -> w' = w)
  /\ (forall e, fieldOf (self w) table field = Throw e -> w' = w)
  /\ (forall fk t d,
         foreignKeyOf (self w) table field = Some fk ->
         Obj.get table (tables (self w)) = Some t ->
         Obj.get field t = Some d ->
         w' = mkWorld
                (with_tables
                   (Obj.set table
                      (Obj.set field (Obj.set "foreignKey" (VFK fk) d) t)
                      (tables (self w)))
                   (self w))
                (console w)
         /\ Obj.keys (tables (self w')) = Obj.keys (tables (self w))
         /\ fieldsOf (self w') table = fieldsOf (self w) table
         /\ fieldOf (self w') table field
            = Ok (Obj.set "foreignKey" (VFK fk) d)
         /\ (forall attr, attr <> "foreignKey" ->
                prop (Obj.set "foreignKey" (VFK fk) d) attr = prop d attr)
         /\ (forall table' field',
                table' <> table \/ field' <> field ->
                fieldOf (self w') table' field' = fieldOf (self w) table' field')).
Proof.
  intros _ _ w'. subst w'. rewrite addField_unfold.
  destruct (fieldOf (self w) table field) as [d0|e0] eqn:Ef.
  - destruct (foreignKeyOf (self w) table field) as [fk0|] eqn:Efk;
      rewrite fieldText_state; cbn [self console].
    + split; [discriminate|]. split; [discriminate|].
      intros fk t d H1 Ht Hd. injection H1 as <-.
      assert (Ed : d0 = d).
      { unfold fieldOf in Ef. rewrite Ht, Hd in Ef. now injection Ef. }
      subst d0.
      assert (Ea : attachForeignKey table field fk0 (self w)
                   = with_tables
                       (Obj.set table
                          (Obj.set field (Obj.set "foreignKey" (VFK fk0) d) t)
                          (tables (self w)))
                       (self w)).
      { unfold attachForeignKey. now rewrite Ht, Hd. }
      split; [now rewrite Ea|]. split.
      { rewrite Ea. cbn [tables with_tables]. now apply keys_set_same with t. }
      split.
      { rewrite Ea. unfold fieldsOf. cbn [tables with_tables].
        rewrite get_set_same, Ht. now apply keys_set_same with d. }
      split; [now apply attachForeignKey_fieldOf|]. split.
      * intros attr Hne. unfold prop. now rewrite get_set_other.
      * intros table' field' Hne. now apply attachForeignKey_other.
    + split; [reflexivity|]. split; [reflexivity|]. discriminate.
  - cbn [snd]. split; [reflexivity|]. split; [reflexivity|].
    intros fk t d _ Ht Hd. unfold fieldOf in Ef. rewrite Ht, Hd in Ef.
    discriminate Ef.
Qed.

(** X12: running [addField] again on the instance it leaves gives the
    same text and leaves the same instance. *)
Theorem addField_idempotent
  (table field : string) (w w1 : World) (r : result string) :
  addFieldRun table field w = (r, w1) ->
  addFieldRun table field w1 = (r, w1).
Proof.
  rewrite !addField_unfold.
  destruct (fieldOf (self w) table field) as [d|e] eqn:Ef.
  - destruct (foreignKeyOf (self w) table field) as [fk|] eqn:Efk.
    + intros H.
      pose proof (fieldText_state recase stack table field (Some fk)
                    (mkWorld (attachForeignKey table field fk (self w)) (console w)))
        as Hs.
      rewrite H in Hs. cbn [snd] in Hs. subst w1. cbn [self console].
      rewrite (attachForeignKey_fieldOf _ _ _ _ _ Ef).
      unfold foreignKeyOf in *.
      destruct (attachForeignKey_keeps table field fk (self w)) as (_ & -> & _).
      rewrite Efk, attachForeignKey_twice. exact H.
    + intros H.
      pose proof (fieldText_state recase stack table field None w) as Hs.
      rewrite H in Hs. cbn [snd] in Hs. subst w1.
      now rewrite Ef, Efk.
  - intros H. injection H as <- <-. now rewrite Ef.
Qed.

End FieldEffects.

Lemma addField_effect_witness :
  let d :=
    [("type", VStr "INTEGER"); ("allowNull", VBool true);
     ("defaultValue", VNull); ("primaryKey", VBool false);
     ("autoIncrement", VBool false); ("comment", VNull)] in
  fieldsOf (self (snd Sample.orgIdRun)) "users" = ["id"; "Org_Id"; "createdAt"]
  /\ fieldOf (self (snd Sample.orgIdRun)) "users" "Org_Id"
     = Ok (Obj.set "foreignKey" (VFK Sample.orgFK) d)
  /\ console (snd Sample.orgIdRun) = [].
Proof.
  destruct (addField_effect Sample.lowerRecase 2 "users" "Org_Id"
              (Sample.world Sample.tableData Sample.mysql) eq_refl eq_refl)
    as (_ & _ & H).
  destruct (H Sample.orgFK _ _ eq_refl eq_refl eq_refl)
    as (Hw & _ & Hfields & Hfield & _).
  split; [exact Hfields|]. split; [exact Hfield|].
  change (snd Sample.orgIdRun)
    with (snd (addField Sample.lowerRecase 2 "users" "Org_Id"
                 (Sample.world Sample.tableData Sample.mysql))).
  rewrite Hw. reflexivity.
Defined.

Lemma addField_idempotent_witness :
  addField Sample.lowerRecase 2 "users" "Org_Id" (snd Sample.orgIdRun)
  = (fst Sample.orgIdRun, snd Sample.orgIdRun).
Proof.
  apply (addField_idempotent Sample.lowerRecase 2 "users" "Org_Id"
           (Sample.world Sample.tableData Sample.mysql)).
  vm_compute. reflexivity.
Defined.

(** ** The attribute block of a column *)

Lemma dropEndWhile_app_keep (p : ascii -> bool) (a rest : string) (k : ascii) :
  p k = false ->
  Js.dropEndWhile p (a ++ String k rest) = a ++ String k (Js.dropEndWhile p rest).
Proof.
  intros Hk.
  rewrite dropEndWhile_app by (cbn; now rewrite Hk).
  cbn [Js.dropEndWhile]. rewrite Hk.
  now destruct (Js.dropEndWhile p rest).
Qed.

Lemma dropWhile_head (p : ascii -> bool) (c : ascii) (a y : string) :
  p c = false -> Js.dropWhile p (String c a ++ y) = String c a ++ y.
Proof. intros Hc. cbn. now rewrite Hc. Qed.

(** Closing a block that starts with a visible character and has an
    opening brace keeps everything up to the brace. *)
Lemma close_block_head (c : ascii) (a rest : string) :
  Js.isWhite c = false ->
  exists mid,
    Js.dropEndWhile (Ascii.eqb ",") (Js.trim (String c a ++ String "{" rest))
    = String c a ++ String "{" mid.
Proof.
  intros Hc. unfold Js.trim.
  rewrite (dropEndWhile_app_keep Js.isWhite (String c a) rest "{" eq_refl).
  rewrite (dropWhile_head Js.isWhite c a _ Hc).
  rewrite (dropEndWhile_app_keep (Ascii.eqb ",") (String c a) _ "{" eq_refl).
  eexists. reflexivity.
Qed.

Section Block.

Variable recase : option string -> string -> bool -> string.
Variable stack : nat.

Lemma fieldText_block (table field : string) (foreignKey : option FKSpec.t)
  (w w' : World) (out : string) :
  fieldText recase stack table field foreignKey w = (Ok out, w') ->
  exists mid,
    out = sp (self w) 2
          ++ quoteName (recase (Options.caseProp (options (self w))) field false)
          ++ ": {" ++ mid ++ nl ++ sp (self w) 2 ++ "}," ++ nl.
Proof.
  unfold fieldText, bind, this, lift, ret. cbn beta iota.
  destruct (fieldOf (self w) table field) as [fieldObj|e]; [|discriminate].
  destruct (foldResult _ (Obj.keys fieldObj) _) as [[text wrote]|e] eqn:Eacc;
    [|discriminate].
  destruct (isTimestampField field w) as [[ts|e] w2]; [|discriminate].
  intros H. injection H as Hout _.
  destruct (foldResult_appends _ _ _ _ _ _ _ _ _ _ Eacc) as (x & Hx).
  destruct (quoteName_head (recase (Options.caseProp (options (self w))) field false))
    as (c & r & Hq & Hc).
  cbn [fst] in Hout. rewrite Hx, Hq in Hout. rewrite Hq.
  match type of Hout with
  | context [Js.trim ?s] =>
      assert (Hs : exists rest, s = String c (r ++ ": ") ++ String "{" rest)
  end.
  { destruct ts; eexists; normalize_append; reflexivity. }
  destruct Hs as (rest & Hs). rewrite Hs in Hout.
  destruct (close_block_head c (r ++ ": ") rest Hc) as (mid & Hm).
  rewrite Hm in Hout. exists mid. rewrite <- Hout.
  normalize_append. reflexivity.
Qed.

(** X13: the text that [addField] returns is one attribute block: the
    indentation, the quoted property name, [: {], the attributes, a line
    feed and the closing [},] on a line of its own. *)
Theorem addField_block (table field : string) (w w' : World) (out : string) :
  addField recase stack table field w = (Ok out, w') ->
  let g := self w' in
  exists mid,
    out = sp g 2
          ++ quoteName (recase (Options.caseProp (options g)) field false)
          ++ ": {" ++ mid ++ nl ++ sp g 2 ++ "}," ++ nl.
Proof.
  rewrite addField_unfold.
  destruct (fieldOf (self w) table field) as [d|e]; [|discriminate].
  destruct (foreignKeyOf (self w) table field) as [fk|]; intros H g; subst g.
  - pose proof (fieldText_state recase stack table field (Some fk)
                  (mkWorld (attachForeignKey table field fk (self w)) (console w)))
      as Hs.
    rewrite H in Hs. cbn [snd] in Hs. subst w'.
    exact (fieldText_block _ _ _ _ _ _ H).
  - pose proof (fieldText_state recase stack table field None w) as Hs.
    rewrite H in Hs. cbn [snd] in Hs. subst w'.
    exact (fieldText_block _ _ _ _ _ _ H).
Qed.

End Block.

Lemma addField_block_witness :
  let g := self (snd Sample.orgIdRun) in
  exists mid,
    Sample.orgIdText
    = sp g 2 ++ quoteName "org_id" ++ ": {" ++ mid ++ nl ++ sp g 2 ++ "}," ++ nl.
Proof.
  apply (addField_block Sample.lowerRecase 2 "users" "Org_Id"
           (Sample.world Sample.tableData Sample.mysql)
           (snd Sample.orgIdRun) Sample.orgIdText).
  vm_compute. reflexivity.
Defined.

(** ** Has-one and has-many comments *)

Section HasLine.

Variable recase : option string -> string -> bool -> string.
Variable qNameSplit : string -> option string * string.
Variable pluralize : string -> string.
Variable stack : nat.

(** X14: for a relation that is not many-to-many and whose parent model
    is the name of the table being assembled, the text of [addTable] holds
    a has-one comment when the relation is one-to-one and a has-many
    comment otherwise; the alias is left out exactly when the pluralized
    lower-cased child model name equals the lower-cased child property
    name (names in ASCII text), whatever [options.noAlias] was. *)
Theorem addTable_has_alias
  (table : string) (w w' : World) (out : string) (rel : Relation.t) :
  addTable recase qNameSplit pluralize stack table w = (Ok out, w') ->
  In rel (relations (self w')) ->
  Relation.isM2M rel = false ->
  Relation.parentModel rel = snd (qNameSplit table) ->
  Js.isAscii (Relation.childModel rel) = true ->
  Js.isAscii (Relation.childProp rel) = true ->
  let g := self w' in
  let line :=
    sp g 3 ++ "// (autogenerated) models." ++ Relation.parentModel rel
    ++ "." ++ (if Relation.isOne rel then "hasOne" else "hasMany")
    ++ "(models." ++ Relation.childModel rel ++ ", { "
    ++ (if String.eqb (pluralize (Js.toLowerCase (Relation.childModel rel)))
                      (Js.toLowerCase (Relation.childProp rel))
        then ""
        else "as: " ++ dq ++ Relation.childProp rel ++ dq ++ ", ")
    ++ "foreignKey: " ++ dq ++ Relation.parentId rel ++ dq ++ "});" ++ nl in
  exists pre post, out = pre ++ line ++ post.
Proof.
  intros H Hin Hm Hp _ _ g line.
  destruct (addTable_text _ _ _ _ _ _ _ _ H) as (Hno & _ & pre & post & E).
  fold g in Hno, E.
  assert (Hl : hasLine pluralize g rel = line).
  { unfold hasLine. rewrite Hno. reflexivity. }
  destruct (assocLines_In pluralize g (snd (qNameSplit table)) rel Hin)
    as (a & b & Ea).
  rewrite E, Ea. unfold relationLines.
  rewrite Hm, Hp, String.eqb_refl, Hl. clearbody line.
  exists (pre ++ "}, {" ++ nl
          ++ optionLines g table (fst (qNameSplit table))
               (snd (qNameSplit table)) (tableTimestamps (self w) table)
               (tableParanoid (self w) table) (fieldsOf (self w) table)
          ++ associateOpen g ++ a
          ++ (if String.eqb (Relation.childModel rel) (snd (qNameSplit table))
              then belongsToLine g rel else "")).
  exists (b ++ sp g 2 ++ "}" ++ post).
  rewrite !append_assoc. reflexivity.
Qed.

End HasLine.

Lemma addTable_has_alias_witness :
  let g := self (snd Sample.orgsRun) in
  let line :=
    sp g 3 ++ "// (autogenerated) models.orgs.hasMany(models.users, { "
    ++ "as: " ++ dq ++ "users" ++ dq ++ ", "
    ++ "foreignKey: " ++ dq ++ "Org_Id" ++ dq ++ "});" ++ nl in
  exists pre post, Sample.orgsText = pre ++ line ++ post.
Proof.
  apply (addTable_has_alias Sample.recase Sample.qNameSplit Sample.pluralize 2
           "orgs" (Sample.world Sample.tableData Sample.mysql)
           (snd Sample.orgsRun) Sample.orgsText Sample.orgsRelation).
  - vm_compute. reflexivity.
  - vm_compute. auto.
  - reflexivity.
  - reflexivity.
  - reflexivity.
  - reflexivity.
Defined.

(** ** The [timestamps] and [paranoid] options of a table *)

Section Flags.

Variable recase : option string -> string -> bool -> string.
Variable qNameSplit : string -> option string * string.
Variable pluralize : string -> string.
Variable stack : nat.


(** X16: when [options.additional] is [undefined], [addTable] throws a
    [TypeError] on every table that has a field, and [generateText]
    does so when its first table has one; the instance and the console
    are left as they were. *)
Theorem generateText_without_additional (w : World) :
  Options.additional (options (self w)) = None ->
  (forall table field d fields,
      Obj.get table (tables (self w)) = Some ((field, d) :: fields) ->
      addTable recase qNameSplit pluralize stack table w = (Throw TypeError, w))
  /\ (forall table field d fields rest,
         tables (self w) = (table, (field, d) :: fields) :: rest ->
         generateText recase qNameSplit pluralize stack w
         = (Throw TypeError, w)).
Proof.
  intros Ha.
  assert (Hts : forall field, isTimestampField field w = (Throw TypeError, w)).
  { intros field. unfold isTimestampField, bind, this, lift. now rewrite Ha. }
  split.
  - intros table field d fields Ht.
    assert (Hf : fieldsOf (self w) table = field :: Obj.keys fields).
    { unfold fieldsOf. now rewrite Ht. }
    unfold addTable, bind, this. cbn beta iota.
    destruct (qNameSplit table) as [schemaName tableNameOrig].
    rewrite Ha, Hf. cbn [forEach]. unfold bind. cbn beta iota.
    now rewrite Hts.
  - intros table field d fields rest Ht.
    assert (Hf : fieldsOf (self w) table = field :: Obj.keys fields).
    { unfold fieldsOf. rewrite Ht. cbn. now rewrite String.eqb_refl. }
    unfold generateText, bind, this. cbn beta iota.
    rewrite Ht. cbn [Obj.keys map fst forEach]. unfold bind, this. cbn beta iota.
    destruct (qNameSplit table) as [schemaName tableNameOrig].
    rewrite Hf. cbn [some]. unfold bind. now rewrite Hts.
Qed.

End Flags.


Lemma generateText_without_additional_witness :
  let w := mkWorld
             (new Sample.tableData Sample.mysql
                (Options.mk None None None None None None None None false None))
             [] in
  addTable Sample.recase Sample.qNameSplit Sample.pluralize 2 "orgs" w
  = (Throw TypeError, w)
  /\ generateText Sample.recase Sample.qNameSplit Sample.pluralize 2 w
     = (Throw TypeError, w).
Proof.
  intros w.
  destruct (generateText_without_additional Sample.recase Sample.qNameSplit
              Sample.pluralize 2 w eq_refl) as (Htable & Hrun).
  split.
  - eapply Htable. reflexivity.
  - eapply Hrun. reflexivity.
Defined.

(** ** The result of [generateText] *)

Section Result.

Variable recase : option string -> string -> bool -> string.
Variable qNameSplit : string -> option string * string.
Variable pluralize : string -> string.
Variable stack : nat.


(** X18: [generateText] never returns when the model name that [recase]
    gives for some table is empty: in every run that returns, the
    re-cased name of every table is non-empty. *)
Theorem generateText_names (w w' : World) (text : Obj.t string) :
  generateText recase qNameSplit pluralize stack w = (Ok text, w') ->
  Forall (fun table =>
            recase (Options.caseModel (options (self w)))
              (snd (qNameSplit table))
              (Options.singularize (options (self w))) <> "")
    (Obj.keys (tables (self w))).
Proof.
  unfold generateText. unfold bind at 1. unfold this at 1. cbv beta iota.
  intros H.
  eapply (forEach_all
            (fun w0 => Options.caseModel (options (self w0))
                       = Options.caseModel (options (self w))
                       /\ Options.singularize (options (self w0))
                          = Options.singularize (options (self w))))
    in H; [exact H| |split; reflexivity].
  clear. intros text table w0 text' w0' (Hcm & Hsg) H. split.
  - unfold bind, this, lift, ret in H. cbv beta iota in H.
    rewrite Hcm, Hsg in H.
    destruct (qNameSplit table) as [schemaName tableNameOrig]. cbn [snd].
    repeat run_step H.
    congruence.
  - match type of H with
    | ?m w0 = _ => assert (Hk : keepsAt m w0)
    end.
    { apply keepsAt_bind; [apply keepsAt_this|]. intros g2 w3 _.
      destruct (qNameSplit table) as [schemaName tableNameOrig].
      repeat first [ apply keepsAt_addTypeScriptFields
                   | apply keepsAt_addTable
                   | keeps_step ]. }
    unfold keepsAt in Hk. rewrite H in Hk. cbn [snd] in Hk.
    destruct Hk as (_ & _ & _ & _ & _ & _ & [->| ->] & _);
      cbn [Options.with_noAlias Options.caseModel Options.singularize];
      split; assumption.
Qed.

End Result.


Lemma generateText_names_witness :
  Forall (fun table => Sample.recase None (snd (Sample.qNameSplit table)) false <> "")
    ["users"; "orgs"].
Proof.
  apply (generateText_names Sample.recase Sample.qNameSplit Sample.pluralize 2
           (Sample.world Sample.tableData Sample.mysql) (snd Sample.textRun)
           (match fst Sample.textRun with Ok text => text | Throw _ => [] end)).
  vm_compute. reflexivity.
Defined.

(** ** The shape of the results of [getSqType] *)

(** X19: on a string attribute, whatever [getSqType] returns is [null]
    (no rule applies) or a string that starts with [DataTypes.]. *)
Theorem getSqType_prefix (stack : nat) (fieldObj : Field) (attr t : string)
  (v : JsVal) :
  prop fieldObj attr = VStr t ->
  getSqType stack fieldObj attr = Ok v ->
  v = VNull \/ exists r, v = VStr ("DataTypes." ++ r).
Proof.
  intros Ht H. destruct stack as [|stack]; [discriminate H|].
  cbn [getSqType] in H. rewrite Ht in H. cbv zeta in H. unfold rbind in H.
  repeat match type of H with
         | (if ?c then _ else _) = _ => destruct c
         | (match ?x with _ => _ end) = _ => destruct x; try discriminate H
         end.
  all: injection H as <-.
  all: first [ left; reflexivity | right; eexists; reflexivity ].
Qed.

Lemma getSqType_prefix_witness :
  VStr "DataTypes.STRING(255)" = VNull
  \/ exists r, VStr "DataTypes.STRING(255)" = VStr ("DataTypes." ++ r).
Proof.
  apply (getSqType_prefix 1 [("type", VStr "VARCHAR(255)")] "type"
           "VARCHAR(255)"); reflexivity.
Defined.

(** ** [quoteName] *)

Lemma append_inj_r (a b c : string) : a ++ c = b ++ c -> a = b.
Proof.
  revert b. induction a as [|x a IH]; intros [|y b] H.
  - reflexivity.
  - apply (f_equal String.length) in H. rewrite !append_length in H.
    cbn [String.length] in H. lia.
  - apply (f_equal String.length) in H. rewrite !append_length in H.
    cbn [String.length] in H. lia.
  - cbn [append] in H. injection H as -> H. f_equal. now apply IH.
Qed.

(** X20: [quoteName] keeps distinct names distinct: a name is returned
    as it is or between single quotes, and a quoted name is never a
    valid identifier. *)
Theorem quoteName_injective (a b : string) :
  quoteName a = quoteName b -> a = b.
Proof.
  unfold quoteName.
  destruct (Re.identifier a) eqn:Ea, (Re.identifier b) eqn:Eb; intros H.
  - exact H.
  - rewrite H in Ea. discriminate Ea.
  - rewrite <- H in Eb. discriminate Eb.
  - cbn [append] in H. injection H as H. now apply append_inj_r in H.
Qed.

Lemma quoteName_injective_witness : "id" = "id".
Proof. apply (quoteName_injective "id" "id"). reflexivity. Defined.

(** ** The indentation strings of the constructor *)

Lemma repeat_add (u : string) (a b : nat) :
  Js.repeat u (a + b) = Js.repeat u a ++ Js.repeat u b.
Proof.
  induction a as [|a IH]; [reflexivity|].
  cbn [Nat.add Js.repeat]. now rewrite IH, append_assoc.
Qed.

Lemma repeat_repeat (u : string) (c i : nat) :
  Js.repeat (Js.repeat u c) i = Js.repeat u (i * c).
Proof.
  induction i as [|i IH]; [reflexivity|].
  cbn [Js.repeat Nat.mul]. now rewrite repeat_add, IH.
Qed.

(** X21: the constructor fills [space[0..5]] so that [space[i]] is
    [i * n] copies of the indentation character, a blank when
    [options.spaces] is [true] and a tab otherwise; [n] is
    [options.indentation], 2 when that is 0 or undefined, and 0 when it
    is negative. *)
Theorem new_space (tableData : TableData.t) (dialect : DialectOptions.t)
  (options : Options.t) (i : nat) :
  (i < 6)%nat ->
  sp (new tableData dialect options) i
  = Js.repeat
      (match Options.spaces options with
       | Some true => " "
       | _ => String "009" EmptyString
       end)
      (i * match Options.indentation options with
           | Some n => if Z.eqb n 0 then 2%nat else Z.to_nat n
           | None => 2%nat
           end).
Proof.
  intros Hi. rewrite <- repeat_repeat.
  unfold sp, new. cbn [space].
  do 6 (destruct i as [|i]; [reflexivity|]). lia.
Qed.

Lemma new_space_witness :
  sp (new Sample.noTables Sample.mysql Sample.options) 3 = "      ".
Proof.
  apply (new_space Sample.noTables Sample.mysql Sample.options 3). lia.
Defined.

(** ** Defaults of numeric columns *)

Lemma removeChars_none (p : ascii -> bool) (s : string) :
  Js.allChars (fun c => negb (p c)) (Js.removeChars p s) = true.
Proof.
  induction s as [|c s IH]; [reflexivity|].
  cbn [Js.removeChars]. destruct (p c) eqn:E; [exact IH|].
  cbn [Js.allChars]. now rewrite E, IH.
Qed.

Lemma number_type_tests (field_type : string) :
  isNumber field_type = true ->
  String.eqb field_type "bit(1)" = false
  /\ String.eqb field_type "bit" = false
  /\ String.eqb field_type "boolean" = false.
Proof.
  unfold isNumber, Js.startsWithAny, Js.prefixMatch, Js.firstMatch.
  repeat match goal with
         | |- context [if Js.startsWith field_type ?p then _ else _] =>
             let E := fresh "E" in
             destruct (Js.startsWith field_type p) eqn:E;
             [apply startsWith_split in E; rewrite E; repeat split|]
         end.
  discriminate.
Qed.

(** The text of the string default of a numeric type that is not a
    range. *)
Lemma stringDefault_number (field_type : string) (elementType : JsVal)
  (rawDefault : string) :
  isNumber field_type = true ->
  isArray field_type = false ->
  stringDefault field_type elementType rawDefault
  = Js.removeChars Re.isParen (escapeSpecial rawDefault).
Proof.
  intros Hn Ha.
  destruct (number_type_tests field_type Hn) as (H1 & H2 & H3).
  unfold stringDefault. cbv zeta. rewrite H1, H2, H3, Ha, Hn. reflexivity.
Qed.

Lemma mssqlDefault_string (name d : string) :
  (name = "mssql" ->
   Js.toLowerCase d <> "(newid())" /\ d <> "(NULL)" /\ d <> "NULL") ->
  mssqlDefault name (VStr d) = Ok (VStr d).
Proof.
  intros H. destruct (String.eqb name "mssql") eqn:E.
  - apply String.eqb_eq in E. destruct (H E) as (H1 & H2 & H3).
    apply String.eqb_neq in H1, H2, H3.
    unfold mssqlDefault. rewrite E. cbn [andb truthy].
    rewrite H1.
    destruct (negb (String.eqb d ""));
      change (String.eqb "mssql" "mssql") with true;
      cbn [rbind isStr andb orb]; now rewrite H2, H3.
  - apply mssqlDefault_other. now apply String.eqb_neq.
Qed.

(** X22: for a column of a numeric type that is not a range and that is
    not a serial key, the round of the attribute loop of [addField] on
    [defaultValue] appends, for a string default that the MS SQL filter
    lets through, the line [defaultValue: <text>,] where the text is the
    escaped default with every [(] and [)] removed: it is not quoted and
    holds no parenthesis. *)
Theorem attrStep_number_default
  (stack : nat) (g : AutoGenerator) (fieldObj : Field)
  (foreignKey : option FKSpec.t) (acc : string * bool) (t d : string) :
  prop fieldObj "type" = VStr t ->
  isNumber (Js.toLowerCase t) = true ->
  isArray (Js.toLowerCase t) = false ->
  prop fieldObj "defaultValue" = VStr d ->
  serialKey g fieldObj = false ->
  (DialectOptions.name (dialect g) = "mssql" ->
   Js.toLowerCase d <> "(newid())" /\ d <> "(NULL)" /\ d <> "NULL") ->
  let text := Js.removeChars Re.isParen (escapeSpecial d) in
  attrStep stack g fieldObj foreignKey (serialKey g fieldObj) acc "defaultValue"
  = Ok (fst acc ++ sp g 3 ++ "defaultValue: " ++ text ++ "," ++ nl, snd acc)
  /\ Js.allChars (fun c => negb (Re.isParen c)) text = true.
Proof.
  intros Ht Hn Ha Hd Hs Hm text. split; [|apply removeChars_none].
  assert (Hv : defaultValueText g fieldObj false = Ok (Some text)).
  { unfold defaultValueText. rewrite Hd, (mssqlDefault_string _ _ Hm).
    cbn [rbind]. rewrite Ht.
    now rewrite (stringDefault_number _ _ _ Hn Ha). }
  unfold attrStep. rewrite Hs, Hv. destruct acc as [str wrote].
  cbn [String.eqb Ascii.eqb Bool.eqb orb andb rbind fst snd].
  rewrite !append_assoc. reflexivity.
Qed.

Lemma attrStep_number_default_witness :
  let g := self (Sample.world Sample.noTables Sample.mssql) in
  let fieldObj := [("type", VStr "int"); ("defaultValue", VStr "((0))")] in
  attrStep 1 g fieldObj None (serialKey g fieldObj) ("id: {" ++ nl, false)
    "defaultValue"
  = Ok ("id: {" ++ nl ++ sp g 3 ++ "defaultValue: 0," ++ nl, false)
  /\ Js.allChars (fun c => negb (Re.isParen c)) "0" = true.
Proof.
  apply (attrStep_number_default 1
           (self (Sample.world Sample.noTables Sample.mssql))
           [("type", VStr "int"); ("defaultValue", VStr "((0))")]
           None ("id: {" ++ nl, false) "int" "((0))").
  - reflexivity.
  - reflexivity.
  - reflexivity.
  - reflexivity.
  - reflexivity.
  - intros _. repeat split; discriminate.
Defined.

(** ** Defaults that are not strings under MS SQL *)

Lemma prop_In (o : Obj.t JsVal) (k : string) :
  prop o k <> VUndef -> In k (Obj.keys o).
Proof.
  unfold prop, Obj.keys. induction o as [|[k' v] o IH]; intros H.
  - now contradiction H.
  - cbn [Obj.get] in H. cbn [map fst In].
    destruct (String.eqb k' k) eqn:E.
    + left. now apply String.eqb_eq.
    + right. now apply IH.
Qed.

Lemma foldResult_throws {A S} (f : S -> A -> result S) (x : A) (l : list A) :
  In x l ->
  (forall s, exists e, f s x = Throw e) ->
  forall s, exists e, foldResult f l s = Throw e.
Proof.
  intros Hin Hx. induction l as [|y l IH]; intros s; [contradiction|].
  cbn [foldResult]. unfold rbind.
  destruct Hin as [->|Hin].
  - destruct (Hx s) as (e & ->). now exists e.
  - destruct (f s y) as [s1|e]; [now apply IH|now exists e].
Qed.

Lemma defaultValueText_mssql_throws (g : AutoGenerator) (fieldObj : Field)
  (isSerialKey : bool) :
  DialectOptions.name (dialect g) = "mssql" ->
  truthy (prop fieldObj "defaultValue") = true ->
  (forall s, prop fieldObj "defaultValue" <> VStr s) ->
  defaultValueText g fieldObj isSerialKey = Throw TypeError.
Proof.
  intros Hd Ht Hs. unfold defaultValueText, mssqlDefault. rewrite Hd, Ht.
  cbn [String.eqb Ascii.eqb Bool.eqb andb rbind].
  destruct (prop fieldObj "defaultValue") as [| | | |s| |]; try reflexivity.
  now contradiction (Hs s).
Qed.

Lemma attrStep_default_throws (stack : nat) (g : AutoGenerator)
  (fieldObj : Field) (foreignKey : option FKSpec.t) (isSerialKey : bool)
  (acc : string * bool) :
  DialectOptions.name (dialect g) = "mssql" ->
  truthy (prop fieldObj "defaultValue") = true ->
  (forall s, prop fieldObj "defaultValue" <> VStr s) ->
  attrStep stack g fieldObj foreignKey isSerialKey acc "defaultValue"
  = Throw TypeError.
Proof.
  intros Hd Ht Hs. unfold attrStep.
  cbn [String.eqb Ascii.eqb Bool.eqb orb andb].
  rewrite (defaultValueText_mssql_throws g fieldObj isSerialKey Hd Ht Hs).
  destruct (isSerialKey && negb (snd acc)); [reflexivity|].
  destruct acc. reflexivity.
Qed.

Section MssqlDefault.

Variable recase : option string -> string -> bool -> string.
Variable stack : nat.

Lemma fieldText_mssql_default (table field : string)
  (foreignKey : option FKSpec.t) (w : World) (d : Field) :
  DialectOptions.name (dialect (self w)) = "mssql" ->
  fieldOf (self w) table field = Ok d ->
  truthy (prop d "defaultValue") = true ->
  (forall s, prop d "defaultValue" <> VStr s) ->
  exists e, fst (fieldText recase stack table field foreignKey w) = Throw e.
Proof.
  intros Hd Hf Ht Hs. unfold fieldText, bind, this, lift. cbn beta iota.
  rewrite Hf. cbn beta iota.
  destruct (foldResult_throws
              (attrStep stack (self w) d foreignKey (serialKey (self w) d))
              "defaultValue" (Obj.keys d))
    with (s := (quoteName (recase (Options.caseProp (options (self w))) field false)
                ++ ": {" ++ nl, false))
    as (e & He).
  - apply prop_In. intros Hu. rewrite Hu in Ht. discriminate Ht.
  - intros s. exists TypeError. now apply attrStep_default_throws.
  - rewrite He. now exists e.
Qed.

(** X23: under the [mssql] dialect, [addField] throws on a column whose
    default is a truthy value that is not a string (a non-zero number,
    [true]): the MS SQL filter calls [toLowerCase] on it. *)
Theorem addField_mssql_default (table field : string) (w : World) (d : Field) :
  DialectOptions.name (dialect (self w)) = "mssql" ->
  fieldOf (self w) table field = Ok d ->
  truthy (prop d "defaultValue") = true ->
  (forall s, prop d "defaultValue" <> VStr s) ->
  exists e, fst (addField recase stack table field w) = Throw e.
Proof.
  intros Hd Hf Ht Hs.
  unfold addField, bind, this, lift, modify, ret. cbn beta iota.
  rewrite Hf. cbn beta iota.
  destruct (foreignKeyOf (self w) table field) as [fk|].
  - apply fieldText_mssql_default
      with (d := Obj.set "foreignKey" (VFK fk) d); cbn [self].
    + now rewrite (proj1 (attachForeignKey_keeps table field fk (self w))).
    + now apply attachForeignKey_fieldOf.
    + unfold prop in *. rewrite get_set_other by discriminate. exact Ht.
    + unfold prop in *. rewrite get_set_other by discriminate. exact Hs.
  - now apply fieldText_mssql_default with (d := d).
Qed.

End MssqlDefault.

Lemma addField_mssql_default_witness :
  exists e,
    fst (addField Sample.recase 2 "counters" "hits"
           (Sample.world Sample.counters Sample.mssql)) = Throw e.
Proof.
  apply (addField_mssql_default Sample.recase 2 "counters" "hits"
           (Sample.world Sample.counters Sample.mssql)
           [("type", VStr "INTEGER"); ("allowNull", VBool false);
            ("defaultValue", VNum 1)]).
  - reflexivity.
  - reflexivity.
  - reflexivity.
  - intros s H. discriminate H.
Defined.

(** ** The TypeScript field lists only read the instance *)

Lemma readsOnly_ret {A} (a : A) (w : World) : readsOnly (ret a) w.
Proof. split; [reflexivity|]. exists []. cbn. now rewrite app_nil_r. Qed.

Lemma readsOnly_lift {A} (r : result A) (w : World) : readsOnly (lift r) w.
Proof. split; [reflexivity|]. exists []. cbn. now rewrite app_nil_r. Qed.

Lemma readsOnly_this (w : World) : readsOnly this w.
Proof. split; [reflexivity|]. exists []. cbn. now rewrite app_nil_r. Qed.

Lemma readsOnly_log (msg : string) (w : World) : readsOnly (log msg) w.
Proof. split; [reflexivity|]. now exists [msg]. Qed.

Lemma readsOnly_bind {A B} (m : M A) (k : A -> M B) (w : World) :
  readsOnly m w ->
  (forall a w1, m w = (Ok a, w1) -> readsOnly (k a) w1) ->
  readsOnly (bind m k) w.
Proof.
  unfold readsOnly, bind. intros Hm Hk.
  destruct (m w) as [[a|e] w1]; cbn [snd] in *; [|exact Hm].
  destruct Hm as (Hs & l1 & Hc).
  destruct (Hk a w1 eq_refl) as (Hs' & l2 & Hc').
  split; [now rewrite Hs'|].
  exists (l1 ++ l2)%list. now rewrite Hc', Hc, app_assoc.
Qed.

Lemma readsOnly_forEach {A S} (f : S -> A -> M S) (l : list A) :
  (forall s x w, readsOnly (f s x) w) ->
  forall s w, readsOnly (forEach l f s) w.
Proof.
  intros Hf. induction l as [|x l IH]; intros s w; cbn [forEach].
  - apply readsOnly_ret.
  - apply readsOnly_bind; [apply Hf|]. intros. apply IH.
Qed.

Lemma readsOnly_isTimestampField (field : string) (w : World) :
  readsOnly (isTimestampField field) w.
Proof.
  unfold readsOnly. rewrite isTimestampField_state.
  split; [reflexivity|]. exists []. now rewrite app_nil_r.
Qed.

(** One step through a computation of [M] that only reads. *)
Ltac reads_step :=
  cbv beta zeta;
  match goal with
  | |- readsOnly (ret _) _ => apply readsOnly_ret
  | |- readsOnly (lift _) _ => apply readsOnly_lift
  | |- readsOnly this _ => apply readsOnly_this
  | |- readsOnly (log _) _ => apply readsOnly_log
  | |- readsOnly (isTimestampField _) _ => apply readsOnly_isTimestampField
  | |- readsOnly (bind _ _) _ => apply readsOnly_bind; [|intros ? ? _]
  | |- readsOnly (forEach _ _ _) _ => apply readsOnly_forEach; intros
  | |- readsOnly (if ?b then _ else _) _ => destruct b
  | |- readsOnly (match ?x with _ => _ end) _ => destruct x
  end.

Lemma readsOnly_getTypeScriptFieldType (stack : nat) :
  forall (fieldObj : Field) (attr : string) (w : World),
    readsOnly (getTypeScriptFieldType stack fieldObj attr) w.
Proof.
  induction stack as [|stack IH]; intros fieldObj attr w;
    cbn [getTypeScriptFieldType]; [apply readsOnly_lift|].
  repeat first [apply IH | reads_step].
Qed.

(** X24: [addTypeScriptFields] only reads the instance: whether it
    returns or throws, the instance is the one it started with, and the
    console holds what it held, followed by the messages about missing
    TypeScript types. *)
Theorem addTypeScriptFields_reads_only
  (recase : option string -> string -> bool -> string) (stack : nat)
  (table : string) (forFind : bool) (w : World) :
  let w' := snd (addTypeScriptFields recase stack table forFind w) in
  self w' = self w
  /\ exists msgs, console w' = (console w ++ msgs)%list.
Proof.
  change (readsOnly (addTypeScriptFields recase stack table forFind) w).
  unfold addTypeScriptFields, getTypeScriptFieldOptional, getIsAutoIncrement,
    getTypeScriptType.
  repeat first [apply readsOnly_getTypeScriptFieldType | reads_step].
Qed.
